(** * Media catalog service (app.py): storage, write and read views

    A shallow embedding of the Flask views of [app.py] over a model of the
    three SQLite tables created by [init_db], followed by the properties of
    the catalog that are checked against it.

    Layout of the development:
    - [Python]: the parsed JSON request body and the Python operations the
      views apply to it ([in], [x[k]], [x.get(k)], iteration), with the
      exceptions they raise;
    - [Sqlite]: values, parameter binding, column affinity, rows, tables,
      [AUTOINCREMENT] and a connection with its open transaction;
    - the views [get_all_media], [get_media], [add_media], [add_episodes];
    - the vocabulary of the specification, sample requests, and theorems.

    The views are modelled from the point where Flask calls them: routing,
    the parsing of the body by [request.get_json()] and the
    [@auth.login_required] check have already happened.  SQLite runs
    alone on a database file with room: the range of rowids is modelled,
    its limits on the size of a value or of a row, the disk and the locks
    of other connections are not.  The admin page and its script are
    outside the model. *)

From Stdlib Require Import ZArith List String Ascii Bool Lia.
From Stdlib Require Import DecimalString.
From Stdlib Require Import Sorting.Sorted Sorting.Permutation.
Import ListNotations.

#[local] Set Warnings "-register-all".

Local Open Scope string_scope.
Local Open Scope Z_scope.
Local Open Scope list_scope.

(** ** Floating point and numeric text

    Python floats reach SQLite as REAL values, and SQLite converts between
    REAL, INTEGER and TEXT when a value meets a column's affinity.  Those
    conversions are IEEE-754 arithmetic of the SQLite library, not code of
    this repository: the development is parametric in them.  Nothing below
    assumes any law about them. *)

Class SqlReal : Type := {
  (** the REAL storage class (IEEE doubles) *)
  real : Type;
  (** [sqlite3_bind_double] stores a NaN as NULL *)
  real_is_nan : real -> bool;
  (** INTEGER affinity: a REAL with an exact 64-bit integer value *)
  real_as_integer : real -> option Z;
  (** TEXT affinity: the rendering of a REAL *)
  real_to_text : real -> string;
  (** INTEGER affinity on TEXT: the value of a well-formed integer or real
      literal, [None] when the text is not one *)
  text_to_numeric : string -> option (Z + real);
  (** comparison of numeric values in [ORDER BY] *)
  real_compare : real -> real -> comparison;
  int_real_compare : Z -> real -> comparison
}.

(** Bounds of SQLite's INTEGER storage class (signed 64 bits). *)
Definition min_int64 : Z := - 2 ^ 63.
Definition max_int64 : Z := 2 ^ 63 - 1.

Definition fits_int64 (z : Z) : bool := (min_int64 <=? z) && (z <=? max_int64).

(** Decimal rendering of an integer, as SQLite prints an INTEGER into a
    TEXT column. *)
Definition decimal (z : Z) : string := NilZero.string_of_int (Z.to_int z).

(** ** Exceptions and results *)

Inductive exn : Type :=
| KeyError (key : string)            (* d[k] on a dict without k *)
| TypeError                          (* subscript, [in] or iteration on a wrong type *)
| AttributeError                     (* [.get] on a value that is not a dict *)
| OverflowError                      (* Python int too large to convert to SQLite INTEGER *)
| UnicodeEncodeError                 (* a str with a lone surrogate has no UTF-8 encoding *)
| ProgrammingError                   (* parameter of a type sqlite3 cannot bind
                                        (InterfaceError before Python 3.11) *)
| IntegrityError (constraint : string)
| OperationalError (reason : string).

Inductive res (A : Type) : Type :=
| Ok (a : A)
| Err (e : exn).
Arguments Ok {A} a.
Arguments Err {A} e.

(** Lookup in a dict kept as its list of items. *)
Fixpoint dict_get {A : Type} (k : string) (d : list (string * A)) : option A :=
  match d with
  | [] => None
  | (k', v) :: rest => if String.eqb k k' then Some v else dict_get k rest
  end.

(** [d[k] = v] on a dict: replaces the binding of [k] or appends one. *)
Fixpoint dict_set {A : Type} (k : string) (v : A) (d : list (string * A))
  : list (string * A) :=
  match d with
  | [] => [(k, v)]
  | (k', v') :: rest =>
      if String.eqb k k' then (k, v) :: rest else (k', v') :: dict_set k v rest
  end.

(** ** Python strings

    A [str] is kept as the bytes of its UTF-8 encoding, which is also how
    SQLite stores a TEXT value.  A [str] may hold a lone surrogate (a code
    point in D800..DFFF): the JSON parser yields one for an escape such as
    [\ud800].  It is kept as the three bytes ED A0..BF 80..BF that the
    [surrogatepass] form of UTF-8 gives it.  A [string] that is not the
    encoding of a [str] stands for no Python value. *)

(** [needle in hay] on Python strings. *)
Fixpoint str_contains (needle hay : string) : bool :=
  String.prefix needle hay ||
  match hay with
  | EmptyString => false
  | String _ rest => str_contains needle rest
  end.

(** The bytes 80..BF continue the character begun before them. *)
Definition is_continuation (c : ascii) : bool :=
  let n := N_of_ascii c in
  ((128 <=? n) && (n <=? 191))%N.

(** The characters of a string, each as a one-character string. *)
Fixpoint str_chars (s : string) : list string :=
  match s with
  | EmptyString => []
  | String c rest =>
      let continued :=
        match rest with
        | String c' _ => is_continuation c'
        | EmptyString => false
        end in
      match str_chars rest with
      | ch :: chars =>
          if continued then String c ch :: chars
          else String c EmptyString :: ch :: chars
      | [] => [String c EmptyString]
      end
  end.

(** The string holds a lone surrogate: the lead byte ED followed by a
    byte in A0..BF.  Such a [str] cannot be encoded as UTF-8. *)
Fixpoint has_surrogate (s : string) : bool :=
  match s with
  | EmptyString => false
  | String c rest =>
      match rest with
      | String c' _ =>
          ((N_of_ascii c =? 237) && (160 <=? N_of_ascii c') && (N_of_ascii c' <=? 191))%N
      | EmptyString => false
      end
      || has_surrogate rest
  end.

(** ** Computations that read and write a state and may raise

    [M S A] is a computation over a state [S] (a connection, or the
    database file) that returns an [A] or raises.  The state at the point
    of the raise is kept: what happens to it is decided by whoever catches
    the exception. *)

Definition M (S A : Type) : Type := S -> res A * S.

Definition ret {S A : Type} (a : A) : M S A := fun s => (Ok a, s).

Definition bind {S A B : Type} (m : M S A) (k : A -> M S B) : M S B :=
  fun s =>
    match m s with
    | (Ok a, s') => k a s'
    | (Err e, s') => (Err e, s')
    end.

(** A Python expression without effect on the state. *)
Definition lift {S A : Type} (r : res A) : M S A := fun s => (r, s).

Declare Scope tx_scope.
Delimit Scope tx_scope with tx.
Notation "x <- m ;; k" := (bind m (fun x => k))
  (at level 61, m at next level, right associativity) : tx_scope.
Notation "m ;; k" := (bind m (fun _ => k))
  (at level 61, right associativity) : tx_scope.
Local Open Scope tx_scope.

(** [for x in xs: body(x)] *)
Fixpoint for_each {S A : Type} (xs : list A) (body : A -> M S unit) : M S unit :=
  match xs with
  | [] => ret tt
  | x :: rest => body x ;; for_each rest body
  end.

(** [try: m  except Exception as e: handler(e)] *)
Definition try_except {S A : Type} (m : M S A) (handler : exn -> A) : M S A :=
  fun s =>
    match m s with
    | (Ok a, s') => (Ok a, s')
    | (Err e, s') => (Ok (handler e), s')
    end.

(** Response bodies of failures carry these messages verbatim. *)
Definition msg_not_found : string := "Media not found".
Definition msg_missing_fields : string := "Missing required fields".
Definition msg_invalid_type : string := "Invalid media type".
Definition msg_expected_array : string := "Expected array of episodes".
Definition msg_not_series : string := "Can only add episodes to TV series".

Section Catalog.

Context {R : SqlReal}.

(** ** Python: the request body *)

(** What [request.get_json()] returns.  A [JObj] is a Python dict, given
    by its items: lookups take the first binding of a key (the keys of a
    parsed dict are distinct). *)
Inductive json : Type :=
| JNull
| JBool (b : bool)
| JInt (z : Z)
| JFloat (r : real)
| JStr (s : string)
| JArr (items : list json)
| JObj (items : list (string * json)).

(** [v == s] for a string literal [s]: only an equal [str] compares equal. *)
Definition py_eq_str (v : json) (s : string) : bool :=
  match v with
  | JStr t => String.eqb t s
  | _ => false
  end.

(** [k in v] for a string [k]. *)
Definition py_in (k : string) (v : json) : res bool :=
  match v with
  | JObj items => Ok (match dict_get k items with Some _ => true | None => false end)
  | JArr items => Ok (existsb (fun x => py_eq_str x k) items)
  | JStr s => Ok (str_contains k s)
  | JNull | JBool _ | JInt _ | JFloat _ => Err TypeError
  end.

(** [all(field in v for field in fields)]: stops at the first [False]. *)
Fixpoint py_all_in (fields : list string) (v : json) : res bool :=
  match fields with
  | [] => Ok true
  | f :: rest =>
      match py_in f v with
      | Err e => Err e
      | Ok false => Ok false
      | Ok true => py_all_in rest v
      end
  end.

(** [v[k]] for a string [k]. *)
Definition py_getitem (v : json) (k : string) : res json :=
  match v with
  | JObj items =>
      match dict_get k items with
      | Some x => Ok x
      | None => Err (KeyError k)
      end
  | _ => Err TypeError
  end.

(** [v.get(k)]: only dicts have the method. *)
Definition py_get (v : json) (k : string) : res json :=
  match v with
  | JObj items =>
      match dict_get k items with
      | Some x => Ok x
      | None => Ok JNull
      end
  | _ => Err AttributeError
  end.

(** The elements a [for] loop over [v] visits. *)
Definition py_iter (v : json) : res (list json) :=
  match v with
  | JArr items => Ok items
  | JStr s => Ok (map JStr (str_chars s))
  | JObj items => Ok (map (fun kv => JStr (fst kv)) items)
  | JNull | JBool _ | JInt _ | JFloat _ => Err TypeError
  end.

(** ** Sqlite: values, binding and affinity *)

Inductive svalue : Type :=
| SNull
| SInt (z : Z)
| SReal (r : real)
| SText (s : string).

(** Binding a Python [int] parameter. *)
Definition bind_int (z : Z) : res Z :=
  if fits_int64 z then Ok z else Err OverflowError.

(** Binding a Python [str] parameter: sqlite3 encodes it as UTF-8, which
    fails on a lone surrogate. *)
Definition bind_str (s : string) : res string :=
  if has_surrogate s then Err UnicodeEncodeError else Ok s.

(** Binding a Python object as a statement parameter. *)
Definition bind_param (v : json) : res svalue :=
  match v with
  | JNull => Ok SNull
  | JBool b => Ok (SInt (if b then 1 else 0))
  | JInt z =>
      match bind_int z with
      | Ok z' => Ok (SInt z')
      | Err e => Err e
      end
  | JFloat r => Ok (if real_is_nan r then SNull else SReal r)
  | JStr s =>
      match bind_str s with
      | Ok s' => Ok (SText s')
      | Err e => Err e
      end
  | JArr _ | JObj _ => Err ProgrammingError
  end.

(** A value stored into a column declared [TEXT]. *)
Definition text_affinity (v : svalue) : svalue :=
  match v with
  | SInt z => SText (decimal z)
  | SReal r => SText (real_to_text r)
  | SNull | SText _ => v
  end.

(** A REAL stored into a column declared [INTEGER]: an integer when it
    has an exact 64-bit integer value. *)
Definition real_to_integer (r : real) : svalue :=
  match real_as_integer r with
  | Some z => SInt z
  | None => SReal r
  end.

(** A value stored into a column declared [INTEGER].  Numeric text
    becomes the number it denotes, INTEGER in preference to REAL. *)
Definition integer_affinity (v : svalue) : svalue :=
  match v with
  | SReal r => real_to_integer r
  | SText s =>
      match text_to_numeric s with
      | Some (inl z) => SInt z
      | Some (inr r) => real_to_integer r
      | None => v
      end
  | SNull | SInt _ => v
  end.

Definition is_null (v : svalue) : bool :=
  match v with
  | SNull => true
  | _ => false
  end.

(** [v = 'lit'] in SQL, and [row[col] == 'lit'] in Python, for a stored
    value [v]. *)
Definition sv_is_text (v : svalue) (lit : string) : bool :=
  match v with
  | SText s => String.eqb s lit
  | _ => false
  end.

(** The order [ORDER BY] sorts by: NULL first, then numbers by value, then
    text bytewise. *)
Definition sv_compare (a b : svalue) : comparison :=
  match a, b with
  | SNull, SNull => Eq
  | SNull, _ => Lt
  | _, SNull => Gt
  | SInt x, SInt y => x ?= y
  | SInt x, SReal r => int_real_compare x r
  | SReal r, SInt y => CompOpp (int_real_compare y r)
  | SReal r, SReal s => real_compare r s
  | SText s, SText t => String.compare s t
  | SText _, _ => Gt
  | _, SText _ => Lt
  end.

(** ** Sqlite: rows and tables (the schema of [init_db]) *)

Record media_row : Type := {
  m_id : Z;                     (* INTEGER PRIMARY KEY AUTOINCREMENT *)
  m_type : svalue;              (* TEXT NOT NULL CHECK (type IN ('movie','tvseries')) *)
  m_title : svalue;             (* TEXT NOT NULL *)
  m_thumbnail_url : svalue;     (* TEXT *)
  m_details : svalue;           (* TEXT *)
  m_release_date : svalue;      (* TEXT *)
  m_created_at : svalue         (* TEXT DEFAULT CURRENT_TIMESTAMP *)
}.

Record episode_row : Type := {
  e_id : Z;                     (* INTEGER PRIMARY KEY AUTOINCREMENT *)
  e_series_id : Z;              (* INTEGER NOT NULL, REFERENCES media(id) *)
  e_season_number : svalue;     (* INTEGER NOT NULL *)
  e_episode_number : svalue;    (* INTEGER NOT NULL *)
  e_title : svalue;             (* TEXT *)
  e_video_link : svalue         (* TEXT NOT NULL *)
}.

Record link_row : Type := {
  l_id : Z;                     (* INTEGER PRIMARY KEY AUTOINCREMENT *)
  l_movie_id : Z;               (* INTEGER NOT NULL, REFERENCES media(id) *)
  l_resolution : svalue;        (* TEXT *)
  l_video_link : svalue         (* TEXT NOT NULL *)
}.

(** The database file.  The three [seq_] fields are the rows of
    [sqlite_sequence], which [AUTOINCREMENT] maintains.  Foreign keys are
    declared but SQLite does not enforce them unless the connection asks
    for it, and [get_db] does not. *)
Record db : Type := {
  media : list media_row;
  tv_episodes : list episode_row;
  movie_links : list link_row;
  seq_media : Z;
  seq_episodes : Z;
  seq_links : Z
}.

Definition empty_db : db :=
  {| media := []; tv_episodes := []; movie_links := [];
     seq_media := 0; seq_episodes := 0; seq_links := 0 |}.

(** [init_db]: every table is created only [IF NOT EXISTS], so an existing
    database file is left as it is. *)
Definition init_db (file : option db) : db :=
  match file with
  | Some d => d
  | None => empty_db
  end.

(** The rowid [AUTOINCREMENT] gives the next row: one more than the largest
    rowid the table ever held, which is the larger of its entry [seq] in
    [sqlite_sequence] and of the rowids [ids] in the table.  Once rowid
    [max_int64] has been used the insert is refused (SQLITE_FULL). *)
Definition last_rowid (seq : Z) (ids : list Z) : Z := fold_right Z.max seq ids.

Definition next_rowid (seq : Z) (ids : list Z) : res Z :=
  if max_int64 <=? last_rowid seq ids
  then Err (OperationalError "database or disk is full")
  else Ok (last_rowid seq ids + 1).

(** ** Sqlite: a connection and its transaction

    A connection sees the database file as of its last commit ([stored])
    and its own uncommitted statements ([pending]).  The first [INSERT]
    opens a transaction implicitly; [commit] makes [pending] the stored
    state, [rollback] discards it. *)

Record conn : Type := {
  stored : db;
  pending : db
}.

(** [get_db()]: a fresh connection to the database file. *)
Definition get_db (d : db) : conn := {| stored := d; pending := d |}.

Definition commit_conn (c : conn) : conn :=
  {| stored := pending c; pending := pending c |}.

Definition rollback_conn (c : conn) : conn :=
  {| stored := stored c; pending := stored c |}.

(** [conn.commit()] *)
Definition commit : M conn unit := fun c => (Ok tt, commit_conn c).

(** [with get_db() as conn: body].  Leaving the block commits, also on a
    [return] inside it; leaving it by an exception rolls back and lets the
    exception through.  The connection is dropped afterwards, and the
    database file is what it had stored. *)
Definition with_get_db {A : Type} (body : M conn A) : M db A :=
  fun d =>
    match body (get_db d) with
    | (Ok a, c) => (Ok a, stored (commit_conn c))
    | (Err e, c) => (Err e, stored (rollback_conn c))
    end.

(** A statement that only reads. *)
Definition query {A : Type} (q : db -> A) : M conn A :=
  fun c => (Ok (q (pending c)), c).

(** A statement that writes or fails on a constraint; a failed statement
    leaves the transaction as it was. *)
Definition statement {A : Type} (run : db -> res (A * db)) : M conn A :=
  fun c =>
    match run (pending c) with
    | Ok (a, d') => (Ok a, {| stored := stored c; pending := d' |})
    | Err e => (Err e, c)
    end.

Definition put_media (row : media_row) (d : db) : db :=
  {| media := media d ++ [row];
     tv_episodes := tv_episodes d;
     movie_links := movie_links d;
     seq_media := m_id row;
     seq_episodes := seq_episodes d;
     seq_links := seq_links d |}.

Definition put_episode (row : episode_row) (d : db) : db :=
  {| media := media d;
     tv_episodes := tv_episodes d ++ [row];
     movie_links := movie_links d;
     seq_media := seq_media d;
     seq_episodes := e_id row;
     seq_links := seq_links d |}.

Definition put_link (row : link_row) (d : db) : db :=
  {| media := media d;
     tv_episodes := tv_episodes d;
     movie_links := movie_links d ++ [row];
     seq_media := seq_media d;
     seq_episodes := seq_episodes d;
     seq_links := l_id row |}.

(** [CHECK (type IN ('movie', 'tvseries'))]; a NULL passes a CHECK. *)
Definition check_media_type (v : svalue) : bool :=
  is_null v || sv_is_text v "movie" || sv_is_text v "tvseries".

(** [INSERT INTO media (type, title, thumbnail_url, details, release_date)
    VALUES (?, ?, ?, ?, ?)], returning [cursor.lastrowid].  [now] is the
    server clock read by [DEFAULT CURRENT_TIMESTAMP]. *)
Definition insert_media (now : string) (ty title thumb details rdate : json)
  : M conn Z :=
  ty' <- lift (bind_param ty) ;;
  title' <- lift (bind_param title) ;;
  thumb' <- lift (bind_param thumb) ;;
  details' <- lift (bind_param details) ;;
  rdate' <- lift (bind_param rdate) ;;
  statement (fun d =>
    match next_rowid (seq_media d) (map m_id (media d)) with
    | Err e => Err e
    | Ok rowid =>
        let row :=
          {| m_id := rowid;
             m_type := text_affinity ty';
             m_title := text_affinity title';
             m_thumbnail_url := text_affinity thumb';
             m_details := text_affinity details';
             m_release_date := text_affinity rdate';
             m_created_at := SText now |} in
        if is_null (m_type row) then
          Err (IntegrityError "NOT NULL constraint failed: media.type")
        else if is_null (m_title row) then
          Err (IntegrityError "NOT NULL constraint failed: media.title")
        else if negb (check_media_type (m_type row)) then
          Err (IntegrityError "CHECK constraint failed: type IN ('movie', 'tvseries')")
        else Ok (rowid, put_media row d)
    end).

(** [INSERT INTO movie_links (movie_id, resolution, video_link)
    VALUES (?, ?, ?)] *)
Definition insert_movie_link (movie_id : Z) (resolution video_link : json)
  : M conn unit :=
  movie_id' <- lift (bind_int movie_id) ;;
  resolution' <- lift (bind_param resolution) ;;
  video_link' <- lift (bind_param video_link) ;;
  statement (fun d =>
    match next_rowid (seq_links d) (map l_id (movie_links d)) with
    | Err e => Err e
    | Ok rowid =>
        let row :=
          {| l_id := rowid;
             l_movie_id := movie_id';
             l_resolution := text_affinity resolution';
             l_video_link := text_affinity video_link' |} in
        if is_null (l_video_link row) then
          Err (IntegrityError "NOT NULL constraint failed: movie_links.video_link")
        else Ok (tt, put_link row d)
    end).

(** [INSERT INTO tv_episodes (series_id, season_number, episode_number,
    title, video_link) VALUES (?, ?, ?, ?, ?)] *)
Definition insert_episode (series_id : Z) (season episode title video_link : json)
  : M conn unit :=
  series_id' <- lift (bind_int series_id) ;;
  season' <- lift (bind_param season) ;;
  episode' <- lift (bind_param episode) ;;
  title' <- lift (bind_param title) ;;
  video_link' <- lift (bind_param video_link) ;;
  statement (fun d =>
    match next_rowid (seq_episodes d) (map e_id (tv_episodes d)) with
    | Err e => Err e
    | Ok rowid =>
        let row :=
          {| e_id := rowid;
             e_series_id := series_id';
             e_season_number := integer_affinity season';
             e_episode_number := integer_affinity episode';
             e_title := text_affinity title';
             e_video_link := text_affinity video_link' |} in
        if is_null (e_season_number row) then
          Err (IntegrityError "NOT NULL constraint failed: tv_episodes.season_number")
        else if is_null (e_episode_number row) then
          Err (IntegrityError "NOT NULL constraint failed: tv_episodes.episode_number")
        else if is_null (e_video_link row) then
          Err (IntegrityError "NOT NULL constraint failed: tv_episodes.video_link")
        else Ok (tt, put_episode row d)
    end).

(** [SELECT * FROM media] *)
Definition select_all_media : M conn (list media_row) := query media.

(** [SELECT ... FROM media WHERE id = ?] followed by [fetchone()] *)
Definition select_media (media_id : Z) : M conn (option media_row) :=
  id <- lift (bind_int media_id) ;;
  query (fun d => find (fun m => m_id m =? id) (media d)).

(** [SELECT resolution, video_link FROM movie_links WHERE movie_id = ?] *)
Definition select_links (media_id : Z) : M conn (list link_row) :=
  id <- lift (bind_int media_id) ;;
  query (fun d => filter (fun l => l_movie_id l =? id) (movie_links d)).

(** [ORDER BY season_number, episode_number] *)
Definition episode_leb (a b : episode_row) : bool :=
  match sv_compare (e_season_number a) (e_season_number b) with
  | Lt => true
  | Gt => false
  | Eq =>
      match sv_compare (e_episode_number a) (e_episode_number b) with
      | Gt => false
      | _ => true
      end
  end.

Fixpoint insert_sorted (x : episode_row) (l : list episode_row) : list episode_row :=
  match l with
  | [] => [x]
  | y :: rest => if episode_leb x y then x :: l else y :: insert_sorted x rest
  end.

Definition order_episodes (l : list episode_row) : list episode_row :=
  fold_right insert_sorted [] l.

(** [SELECT season_number, episode_number, title, video_link FROM
    tv_episodes WHERE series_id = ? ORDER BY season_number, episode_number] *)
Definition select_episodes (media_id : Z) : M conn (list episode_row) :=
  id <- lift (bind_int media_id) ;;
  query (fun d =>
    order_episodes (filter (fun e => e_series_id e =? id) (tv_episodes d))).

(** ** Responses *)

(** [dict(row)] for the rows of each query. *)
Definition pyrow : Type := list (string * svalue).

Definition dict_of_media (m : media_row) : pyrow :=
  [ ("id", SInt (m_id m));
    ("type", m_type m);
    ("title", m_title m);
    ("thumbnail_url", m_thumbnail_url m);
    ("details", m_details m);
    ("release_date", m_release_date m);
    ("created_at", m_created_at m) ].

Definition dict_of_link (l : link_row) : pyrow :=
  [ ("resolution", l_resolution l);
    ("video_link", l_video_link l) ].

Definition dict_of_episode (e : episode_row) : pyrow :=
  [ ("season_number", e_season_number e);
    ("episode_number", e_episode_number e);
    ("title", e_title e);
    ("video_link", e_video_link e) ].

(** A value of the [media_data] dict: a column, or a list of child rows. *)
Inductive field : Type :=
| FVal (v : svalue)
| FRows (rows : list pyrow).

(** What a view hands to [jsonify]. *)
Inductive body : Type :=
| BError (msg : string)               (* {"error": msg} *)
| BException (e : exn)                (* {"error": str(e)} *)
| BCreated (id : Z)                   (* {"message": "Media added successfully", "id": id} *)
| BEpisodesAdded (n : nat)            (* {"message": "<n> episodes added successfully"} *)
| BMediaList (rows : list pyrow)
| BMedia (media_data : list (string * field)).

(** The end of a request: a response with its status, or an exception
    that left the view, which Flask answers with its own 500 page. *)
Inductive outcome : Type :=
| Reply (status : Z) (b : body)
| Unhandled (e : exn).

Definition status_of (o : outcome) : Z :=
  match o with
  | Reply status _ => status
  | Unhandled _ => 500
  end.

Definition serve (view : M db outcome) (d : db) : outcome * db :=
  match view d with
  | (Ok o, d') => (o, d')
  | (Err e, d') => (Unhandled e, d')
  end.

(** ** The views *)

(** [GET /media] *)
Definition get_all_media : db -> outcome * db :=
  serve (with_get_db (
    rows <- select_all_media ;;
    ret (Reply 200 (BMediaList (map dict_of_media rows))))).

(** [GET /media/<int:media_id>] *)
Definition get_media (media_id : Z) : db -> outcome * db :=
  serve (with_get_db (
    found <- select_media media_id ;;
    match found with
    | None => ret (Reply 404 (BError msg_not_found))
    | Some m =>
        let media_data := map (fun kv => (fst kv, FVal (snd kv))) (dict_of_media m) in
        if sv_is_text (m_type m) "movie" then
          links <- select_links media_id ;;
          ret (Reply 200 (BMedia
            (dict_set "video_links" (FRows (map dict_of_link links)) media_data)))
        else
          episodes <- select_episodes media_id ;;
          ret (Reply 200 (BMedia
            (dict_set "episodes" (FRows (map dict_of_episode episodes)) media_data)))
    end)).

Definition required_fields : list string := ["type"; "title"].

(** [data['type'] == lit and key in data]: the right operand is only
    evaluated when the left one holds. *)
Definition type_is_and_has (data : json) (lit key : string) : res bool :=
  match py_getitem data "type" with
  | Err e => Err e
  | Ok ty => if py_eq_str ty lit then py_in key data else Ok false
  end.

(** The body of the loop over [data['video_links']]. *)
Definition store_link (media_id : Z) (link : json) : M conn unit :=
  resolution <- lift (py_get link "resolution") ;;
  video_link <- lift (py_getitem link "video_link") ;;
  insert_movie_link media_id resolution video_link.

(** The body of the loop over episodes, the same in [add_media] and in
    [add_episodes]. *)
Definition store_episode (media_id : Z) (episode : json) : M conn unit :=
  season <- lift (py_getitem episode "season_number") ;;
  number <- lift (py_getitem episode "episode_number") ;;
  title <- lift (py_get episode "title") ;;
  video_link <- lift (py_getitem episode "video_link") ;;
  insert_episode media_id season number title video_link.

(** The children of [add_media]: links of a movie, else episodes of a
    series, else nothing. *)
Definition add_children (media_id : Z) (data : json) : M conn unit :=
  movie <- lift (type_is_and_has data "movie" "video_links") ;;
  if movie then
    links <- lift (py_getitem data "video_links") ;;
    items <- lift (py_iter links) ;;
    for_each items (store_link media_id)
  else
    series <- lift (type_is_and_has data "tvseries" "episodes") ;;
    if series then
      episodes <- lift (py_getitem data "episodes") ;;
      items <- lift (py_iter episodes) ;;
      for_each items (store_episode media_id)
    else ret tt.

(** The body of the [with] block of [add_media]. *)
Definition add_media_tx (now : string) (data : json) : M conn outcome :=
  ty <- lift (py_getitem data "type") ;;
  title <- lift (py_getitem data "title") ;;
  thumb <- lift (py_get data "thumbnail_url") ;;
  details <- lift (py_get data "details") ;;
  rdate <- lift (py_get data "release_date") ;;
  media_id <- insert_media now ty title thumb details rdate ;;
  add_children media_id data ;;
  commit ;;
  ret (Reply 201 (BCreated media_id)).

(** [POST /admin/media] *)
Definition add_media (now : string) (data : json) : db -> outcome * db :=
  serve (
    complete <- lift (py_all_in required_fields data) ;;
    if negb complete then ret (Reply 400 (BError msg_missing_fields))
    else
      ty <- lift (py_getitem data "type") ;;
      if negb (py_eq_str ty "movie" || py_eq_str ty "tvseries")
      then ret (Reply 400 (BError msg_invalid_type))
      else
        try_except (with_get_db (add_media_tx now data))
                   (fun e => Reply 500 (BException e))).

(** The body of the [with] block of [add_episodes]; [items] is the list
    the request body was checked to be. *)
Definition add_episodes_tx (media_id : Z) (items : list json) : M conn outcome :=
  found <- select_media media_id ;;
  match found with
  | None => ret (Reply 404 (BError msg_not_found))
  | Some m =>
      if negb (sv_is_text (m_type m) "tvseries")
      then ret (Reply 400 (BError msg_not_series))
      else
        for_each items (store_episode media_id) ;;
        commit ;;
        ret (Reply 201 (BEpisodesAdded (List.length items)))
  end.

(** [POST /admin/media/<int:media_id>/episodes].  The first branch is
    [isinstance(data, list)]. *)
Definition add_episodes (media_id : Z) (data : json) : db -> outcome * db :=
  serve (
    match data with
    | JArr items =>
        try_except (with_get_db (add_episodes_tx media_id items))
                   (fun e => Reply 500 (BException e))
    | _ => ret (Reply 400 (BError msg_expected_array))
    end).

End Catalog.

(** ** Specification vocabulary *)

Section Specification.

Context {R : SqlReal}.

(** Referential integrity: every child row points at a Media row.  SQLite
    does not enforce the foreign keys; the views maintain them. *)
Definition db_consistent (d : db) : Prop :=
  Forall (fun l => In (l_movie_id l) (map m_id (media d))) (movie_links d) /\
  Forall (fun e => In (e_series_id e) (map m_id (media d))) (tv_episodes d) /\
  0 <= seq_media d.

(** The tables having room for [n] more rows. *)
Definition media_room (d : db) (n : nat) : Prop :=
  last_rowid (seq_media d) (map m_id (media d)) + Z.of_nat n <= max_int64.

Definition links_room (d : db) (n : nat) : Prop :=
  last_rowid (seq_links d) (map l_id (movie_links d)) + Z.of_nat n <= max_int64.

Definition episodes_room (d : db) (n : nat) : Prop :=
  last_rowid (seq_episodes d) (map e_id (tv_episodes d)) + Z.of_nat n <= max_int64.

(** [row] is the Media row stored for the request [data] at time [now]. *)
Definition stores_media (now : string) (data : json) (row : media_row) : Prop :=
  exists ty title thumb details rdate ty' title' thumb' details' rdate',
    py_getitem data "type" = Ok ty /\
    py_getitem data "title" = Ok title /\
    py_get data "thumbnail_url" = Ok thumb /\
    py_get data "details" = Ok details /\
    py_get data "release_date" = Ok rdate /\
    bind_param ty = Ok ty' /\
    bind_param title = Ok title' /\
    bind_param thumb = Ok thumb' /\
    bind_param details = Ok details' /\
    bind_param rdate = Ok rdate' /\
    m_type row = text_affinity ty' /\
    m_title row = text_affinity title' /\
    m_thumbnail_url row = text_affinity thumb' /\
    m_details row = text_affinity details' /\
    m_release_date row = text_affinity rdate' /\
    m_created_at row = SText now.

(** The [NOT NULL] columns of an episode row hold a value. *)
Definition episode_not_null (e : episode_row) : Prop :=
  is_null (e_season_number e) = false /\
  is_null (e_episode_number e) = false /\
  is_null (e_video_link e) = false.

(** The elements that the loop of [add_media] over [data[key]] visits
    when [data['type']] is [lit]; none when the type is another one or the
    key is absent. *)
Definition supplied (data : json) (lit key : string) : list json :=
  match type_is_and_has data lit key with
  | Ok true =>
      match py_getitem data key with
      | Ok v =>
          match py_iter v with
          | Ok items => items
          | Err _ => []
          end
      | Err _ => []
      end
  | _ => []
  end.

(** The child array that the request object [kv] sends under [key] for a
    Media of type [lit]: the elements of the array when [type] is [lit]
    and [key] holds an array, and none otherwise. *)
Definition requested (kv : list (string * json)) (lit key : string) : list json :=
  match dict_get "type" kv, dict_get key kv with
  | Some (JStr ty), Some (JArr items) => if String.eqb ty lit then items else []
  | _, _ => []
  end.

(** A value that can be bound as a statement parameter: [null], a
    boolean, an integer of 64 bits, a float, or a string without a lone
    surrogate (lemma [storable_values]). *)
Definition storable (v : json) : bool :=
  match bind_param v with
  | Ok _ => true
  | Err _ => false
  end.

(** A value that can be bound and is not stored as NULL. *)
Definition storable_not_null (v : json) : bool :=
  match bind_param v with
  | Ok sv => negb (is_null sv)
  | Err _ => false
  end.

(** [row] is the movie link stored for the request's [link], owned by
    Media [media_id]. *)
Definition stores_link (media_id : Z) (link : json) (row : link_row) : Prop :=
  l_movie_id row = media_id /\
  exists resolution video_link resolution' video_link',
    py_get link "resolution" = Ok resolution /\
    py_getitem link "video_link" = Ok video_link /\
    bind_param resolution = Ok resolution' /\
    bind_param video_link = Ok video_link' /\
    l_resolution row = text_affinity resolution' /\
    l_video_link row = text_affinity video_link'.

(** [row] is the episode stored for the request's [episode], owned by
    Media [media_id]. *)
Definition stores_episode (media_id : Z) (episode : json) (row : episode_row) : Prop :=
  e_series_id row = media_id /\
  exists season number title video_link season' number' title' video_link',
    py_getitem episode "season_number" = Ok season /\
    py_getitem episode "episode_number" = Ok number /\
    py_get episode "title" = Ok title /\
    py_getitem episode "video_link" = Ok video_link /\
    bind_param season = Ok season' /\
    bind_param number = Ok number' /\
    bind_param title = Ok title' /\
    bind_param video_link = Ok video_link' /\
    e_season_number row = integer_affinity season' /\
    e_episode_number row = integer_affinity number' /\
    e_title row = text_affinity title' /\
    e_video_link row = text_affinity video_link'.

(** Ascending order of integer [(season_number, episode_number)] pairs. *)
Definition by_season_episode (a b : episode_row) : Prop :=
  exists s1 n1 s2 n2,
    e_season_number a = SInt s1 /\ e_episode_number a = SInt n1 /\
    e_season_number b = SInt s2 /\ e_episode_number b = SInt n2 /\
    (s1 < s2 \/ (s1 = s2 /\ n1 <= n2)).

(** An episode object of a request with positive integer numbers. *)
Definition positive_numbers (episode : json) : Prop :=
  exists season number,
    py_getitem episode "season_number" = Ok (JInt season) /\
    py_getitem episode "episode_number" = Ok (JInt number) /\
    0 < season /\ 0 < number.

(** An episode object with integer season and episode numbers. *)
Definition integer_numbers (episode : json) : Prop :=
  exists season number,
    py_getitem episode "season_number" = Ok (JInt season) /\
    py_getitem episode "episode_number" = Ok (JInt number).

(** An optional text field of a request: absent, [null] or a string of
    well-formed Unicode, that is, one without a lone surrogate. *)
Definition optional_text (v : json) : bool :=
  match v with
  | JNull => true
  | JStr s => negb (has_surrogate s)
  | _ => false
  end.

(** A link object of a valid movie payload: an optional text
    [resolution] and a [video_link] that is well-formed text. *)
Definition valid_link (link : json) : Prop :=
  exists resolution url,
    py_get link "resolution" = Ok resolution /\
    optional_text resolution = true /\
    py_getitem link "video_link" = Ok (JStr url) /\
    has_surrogate url = false.

(** The [{resolution, video_link}] pair a link object submits. *)
Definition submitted_pair (link : json) : pyrow :=
  [ ("resolution",
     match py_get link "resolution" with
     | Ok (JStr s) => SText s
     | _ => SNull
     end);
    ("video_link",
     match py_getitem link "video_link" with
     | Ok (JStr s) => SText s
     | _ => SNull
     end) ].

(** *** The objects of the read service

    What the specification has the read service return for a stored row
    (its data model for the fields, its read service for the shape): the
    seven fields of a Media, the two fields of a link entry, the four
    fields of an episode entry, each with the value of the row's column.
    They are written out here, and the answers of [get_all_media] and
    [get_media] are compared with them. *)

Definition media_fields (m : media_row) : pyrow :=
  [ ("id", SInt (m_id m));
    ("type", m_type m);
    ("title", m_title m);
    ("thumbnail_url", m_thumbnail_url m);
    ("details", m_details m);
    ("release_date", m_release_date m);
    ("created_at", m_created_at m) ].

Definition link_fields (l : link_row) : pyrow :=
  [ ("resolution", l_resolution l);
    ("video_link", l_video_link l) ].

Definition episode_fields (e : episode_row) : pyrow :=
  [ ("season_number", e_season_number e);
    ("episode_number", e_episode_number e);
    ("title", e_title e);
    ("video_link", e_video_link e) ].

(** The flat fields of a Media in the answer of [get_media]. *)
Definition flat_fields (m : media_row) : list (string * field) :=
  [ ("id", FVal (SInt (m_id m)));
    ("type", FVal (m_type m));
    ("title", FVal (m_title m));
    ("thumbnail_url", FVal (m_thumbnail_url m));
    ("details", FVal (m_details m));
    ("release_date", FVal (m_release_date m));
    ("created_at", FVal (m_created_at m)) ].

(** Ascending order of two episode entries of an answer, by their
    integer [(season_number, episode_number)]. *)
Definition ascending (a b : pyrow) : Prop :=
  exists s1 n1 s2 n2,
    dict_get "season_number" a = Some (SInt s1) /\
    dict_get "episode_number" a = Some (SInt n1) /\
    dict_get "season_number" b = Some (SInt s2) /\
    dict_get "episode_number" b = Some (SInt n2) /\
    (s1 < s2 \/ (s1 = s2 /\ n1 <= n2)).

(** An episode object whose [title] is an optional text and whose
    [video_link] is a string. *)
Definition episode_text (episode : json) : Prop :=
  exists title url,
    py_get episode "title" = Ok title /\
    optional_text title = true /\
    py_getitem episode "video_link" = Ok (JStr url).

(** The [{season_number, episode_number, title, video_link}] entry that
    an episode object with integer numbers and text fields submits. *)
Definition submitted_episode (episode : json) : pyrow :=
  [ ("season_number",
     match py_getitem episode "season_number" with
     | Ok (JInt z) => SInt z
     | _ => SNull
     end);
    ("episode_number",
     match py_getitem episode "episode_number" with
     | Ok (JInt z) => SInt z
     | _ => SNull
     end);
    ("title",
     match py_get episode "title" with
     | Ok (JStr s) => SText s
     | _ => SNull
     end);
    ("video_link",
     match py_getitem episode "video_link" with
     | Ok (JStr s) => SText s
     | _ => SNull
     end) ].

(** A link object, an episode object, that a statement can store. *)
Definition link_storable (link : json) : Prop :=
  exists resolution video_link,
    py_get link "resolution" = Ok resolution /\
    py_getitem link "video_link" = Ok video_link /\
    storable resolution = true /\
    storable_not_null video_link = true.

Definition episode_storable (episode : json) : Prop :=
  exists season number title video_link,
    py_getitem episode "season_number" = Ok season /\
    py_getitem episode "episode_number" = Ok number /\
    py_get episode "title" = Ok title /\
    py_getitem episode "video_link" = Ok video_link /\
    storable_not_null season = true /\
    storable_not_null number = true /\
    storable title = true /\
    storable_not_null video_link = true.

(** What the insertion of links, of episodes, leaves alone. *)
Definition links_frame (c : conn) : db * list media_row * list episode_row * Z :=
  (stored c, media (pending c), tv_episodes (pending c), seq_media (pending c)).

Definition episodes_frame (c : conn) : db * list media_row * list link_row * Z :=
  (stored c, media (pending c), movie_links (pending c), seq_media (pending c)).

(** What a committed [add_media] has done to the database [d]: one Media
    row [mrow] appended, and behind it the rows of the supplied
    type-matched children, all owned by [mrow]. *)
Definition media_committed (now : string) (data : json) (d d' : db)
           (mrow : media_row) (links : list link_row) (eps : list episode_row)
  : Prop :=
  media d' = media d ++ [mrow] /\
  movie_links d' = movie_links d ++ links /\
  tv_episodes d' = tv_episodes d ++ eps /\
  seq_media d' = m_id mrow /\
  m_id mrow = last_rowid (seq_media d) (map m_id (media d)) + 1 /\
  m_id mrow <= max_int64 /\
  stores_media now data mrow /\
  Forall2 (stores_link (m_id mrow)) (supplied data "movie" "video_links") links /\
  Forall2 (stores_episode (m_id mrow)) (supplied data "tvseries" "episodes") eps /\
  Forall episode_not_null eps.

(** The Media row with a given id, as [WHERE id = ?] and [fetchone()]
    find it. *)
Definition lookup_media (d : db) (media_id : Z) : option media_row :=
  find (fun m => m_id m =? media_id) (media d).

(** The Media [media_id] exists in [d] and is a series. *)
Definition is_series (d : db) (media_id : Z) : Prop :=
  exists m, lookup_media d media_id = Some m /\
            sv_is_text (m_type m) "tvseries" = true.

(** The ways a request to [add_episodes] with a list body ends: [o] is
    the answer and [d'] the database after it. *)
Definition episodes_outcome (media_id : Z) (items : list json) (d : db)
           (o : outcome) (d' : db) : Prop :=
  (* an exception inside the transaction *)
  (d' = d /\ (exists e, o = Reply 500 (BException e)) /\
   (fits_int64 media_id = false \/ is_series d media_id)) \/
  (* no such Media *)
  (d' = d /\ o = Reply 404 (BError msg_not_found) /\
   fits_int64 media_id = true /\ lookup_media d media_id = None) \/
  (* a Media that is not a series *)
  (d' = d /\ o = Reply 400 (BError msg_not_series) /\
   fits_int64 media_id = true /\
   exists m, lookup_media d media_id = Some m /\
             sv_is_text (m_type m) "tvseries" = false) \/
  (* every episode stored *)
  (o = Reply 201 (BEpisodesAdded (List.length items)) /\
   fits_int64 media_id = true /\ is_series d media_id /\
   media d' = media d /\ movie_links d' = movie_links d /\
   seq_media d' = seq_media d /\
   exists rows,
     tv_episodes d' = tv_episodes d ++ rows /\
     Forall2 (stores_episode media_id) items rows /\
     Forall episode_not_null rows).

(** An episode object without one of its required keys, a link object
    without its required key. *)
Definition lacks_episode_field (episode : json) : Prop :=
  exists items,
    episode = JObj items /\
    (dict_get "season_number" items = None \/
     dict_get "episode_number" items = None \/
     dict_get "video_link" items = None).

Definition lacks_link_field (link : json) : Prop :=
  exists items, link = JObj items /\ dict_get "video_link" items = None.

(** An episode row whose season and episode numbers are integers. *)
Definition int_keyed (e : episode_row) : Prop :=
  exists s n, e_season_number e = SInt s /\ e_episode_number e = SInt n.

(** The fields of the Media row of a request can be stored: [title] is a
    value other than NULL, and the optional fields are values. *)
Definition media_storable (data : json) : Prop :=
  exists title thumb details rdate,
    py_getitem data "title" = Ok title /\
    py_get data "thumbnail_url" = Ok thumb /\
    py_get data "details" = Ok details /\
    py_get data "release_date" = Ok rdate /\
    storable_not_null title = true /\
    storable thumb = true /\
    storable details = true /\
    storable rdate = true.

(** What [insert_media] leaves of the child tables. *)
Definition children_frame (c : conn)
  : list link_row * Z * list episode_row * Z :=
  (movie_links (pending c), seq_links (pending c),
   tv_episodes (pending c), seq_episodes (pending c)).

End Specification.

(** ** The integer fragment

    The instance without floating point: there is no REAL value, and the
    only numeric text is a decimal integer literal that fits 64 bits.
    SQLite also reads a real literal such as [1e2] as a number: no such
    text is sent in the requests that are run in this fragment. *)

Definition is_space (c : ascii) : bool :=
  let n := N_of_ascii c in
  ((n =? 32) || ((9 <=? n) && (n <=? 13)))%N.

Definition is_digit (c : ascii) : bool :=
  let n := N_of_ascii c in
  ((48 <=? n) && (n <=? 57))%N.

Fixpoint skip_spaces (s : string) : string :=
  match s with
  | String c rest => if is_space c then skip_spaces rest else s
  | EmptyString => s
  end.

Fixpoint span_digits (s : string) : string * string :=
  match s with
  | String c rest =>
      if is_digit c
      then let (ds, tl) := span_digits rest in (String c ds, tl)
      else (EmptyString, s)
  | EmptyString => (EmptyString, EmptyString)
  end.

(** Optional blanks, optional sign, digits, optional blanks. *)
Definition integer_literal (s : string) : option Z :=
  let body := skip_spaces s in
  let (negative, unsigned) :=
    match body with
    | String "-"%char rest => (true, rest)
    | String "+"%char rest => (false, rest)
    | _ => (false, body)
    end in
  let (ds, tl) := span_digits unsigned in
  match ds, skip_spaces tl, NilZero.uint_of_string ds with
  | String _ _, EmptyString, Some u =>
      Some (if negative then - Z.of_uint u else Z.of_uint u)
  | _, _, _ => None
  end.

Definition IntegerFragment : SqlReal := {|
  real := Empty_set;
  real_is_nan := fun r => match r with end;
  real_as_integer := fun r => match r with end;
  real_to_text := fun r => match r with end;
  text_to_numeric := fun s =>
    match integer_literal s with
    | Some z => if fits_int64 z then Some (inl z) else None
    | None => None
    end;
  real_compare := fun r _ => match r with end;
  int_real_compare := fun _ r => match r with end
|}.

(** ** Sample requests and databases *)

Module Samples.

#[local] Existing Instance IntegerFragment.

Definition clock : string := "2024-05-01 12:00:00".

(** The movie of the specification's example. *)
Definition movie_x : json :=
  JObj [ ("type", JStr "movie"); ("title", JStr "X");
         ("video_links",
          JArr [ JObj [ ("resolution", JStr "720p");
                        ("video_link", JStr "http://a") ] ]) ].

Definition episode (season number : Z) (url : string) : json :=
  JObj [ ("season_number", JInt season);
         ("episode_number", JInt number);
         ("video_link", JStr url) ].

(** A series whose episodes arrive out of order. *)
Definition series_dark : json :=
  JObj [ ("type", JStr "tvseries"); ("title", JStr "Dark");
         ("episodes",
          JArr [ episode 2 1 "http://s2e1";
                 episode 1 2 "http://s1e2";
                 episode 1 1 "http://s1e1" ]) ].

(** A series with one well-formed episode and one without [video_link]. *)
Definition series_partial : json :=
  JObj [ ("type", JStr "tvseries"); ("title", JStr "Lost");
         ("episodes",
          JArr [ episode 1 1 "http://s1e1";
                 JObj [ ("season_number", JInt 1);
                        ("episode_number", JInt 2) ] ]) ].

(** A series that also sends links, and a movie that also sends episodes. *)
Definition series_with_links : json :=
  JObj [ ("type", JStr "tvseries"); ("title", JStr "Fargo");
         ("video_links", JArr [ JObj [ ("video_link", JStr "http://f") ] ]) ].

Definition movie_with_episodes : json :=
  JObj [ ("type", JStr "movie"); ("title", JStr "Heat");
         ("episodes", JArr [ episode 1 1 "http://h" ]) ].

(** A payload with a type outside the allowed set. *)
Definition podcast : json :=
  JObj [ ("type", JStr "podcast"); ("title", JStr "P") ].

(** The database after [movie_x] (id 1) and [series_dark] (id 2). *)
Definition db_movie : db := snd (add_media clock movie_x empty_db).
Definition db_catalog : db := snd (add_media clock series_dark db_movie).

End Samples.

(** * Properties *)

(** ** Reasoning about computations

    [wp m Q s]: running [m] from [s] ends in a result and a state that
    satisfy [Q].  Computations are functions, so this is total: [m] does
    end, and with that result. *)

Definition wp {S A : Type} (m : M S A) (Q : res A -> S -> Prop) (s : S) : Prop :=
  Q (fst (m s)) (snd (m s)).

Lemma wp_run {S A : Type} (m : M S A) (Q : res A -> S -> Prop) s r s' :
  wp m Q s -> m s = (r, s') -> Q r s'.
Proof. unfold wp. intros H E. rewrite E in H. exact H. Qed.

Lemma wp_mono {S A : Type} (m : M S A) (Q Q' : res A -> S -> Prop) s :
  wp m Q s -> (forall r s', Q r s' -> Q' r s') -> wp m Q' s.
Proof. unfold wp. auto. Qed.

Lemma wp_and {S A : Type} (m : M S A) (Q Q' : res A -> S -> Prop) s :
  wp m Q s -> wp m Q' s -> wp m (fun r s' => Q r s' /\ Q' r s') s.
Proof. unfold wp. auto. Qed.

Lemma wp_ret {S A : Type} (a : A) (Q : res A -> S -> Prop) s :
  Q (Ok a) s -> wp (ret a) Q s.
Proof. auto. Qed.

Lemma wp_lift {S A : Type} (r : res A) (Q : res A -> S -> Prop) s :
  Q r s -> wp (lift r) Q s.
Proof. auto. Qed.

Lemma wp_bind {S A B : Type} (m : M S A) (k : A -> M S B)
      (Q : res B -> S -> Prop) s :
  wp m (fun r s1 =>
          match r with
          | Ok a => wp (k a) Q s1
          | Err e => Q (Err e) s1
          end) s ->
  wp (bind m k) Q s.
Proof.
  unfold wp, bind. destruct (m s) as [[a | e] s1]; simpl; auto.
Qed.

(** Binding a pure expression: a case analysis on its result. *)
Lemma wp_bind_lift {S A B : Type} (r : res A) (k : A -> M S B)
      (Q : res B -> S -> Prop) s :
  match r with
  | Ok a => wp (k a) Q s
  | Err e => Q (Err e) s
  end ->
  wp (bind (lift r) k) Q s.
Proof. intros H. apply wp_bind, wp_lift. exact H. Qed.

Lemma wp_try_except {S A : Type} (m : M S A) (handler : exn -> A)
      (Q : res A -> S -> Prop) s :
  wp m (fun r s' =>
          match r with
          | Ok a => Q (Ok a) s'
          | Err e => Q (Ok (handler e)) s'
          end) s ->
  wp (try_except m handler) Q s.
Proof.
  unfold wp, try_except. destruct (m s) as [[a | e] s1]; simpl; auto.
Qed.

(** The loop rule: [I pre] holds after the elements [pre] have been
    processed; [E] holds when an element raises. *)
Lemma wp_for_each_from {S A : Type} (body : A -> M S unit)
      (I : list A -> S -> Prop) (E : exn -> S -> Prop) :
  forall xs done s,
    I done s ->
    (forall pre x post s1,
        xs = pre ++ x :: post -> I (done ++ pre) s1 ->
        wp (body x) (fun r s2 =>
                       match r with
                       | Ok _ => I (done ++ pre ++ [x]) s2
                       | Err e => E e s2
                       end) s1) ->
    wp (for_each xs body) (fun r s' =>
                             match r with
                             | Ok _ => I (done ++ xs) s'
                             | Err e => E e s'
                             end) s.
Proof.
  induction xs as [| x rest IH]; intros done s Hinit Hstep; simpl.
  - apply wp_ret. rewrite app_nil_r. exact Hinit.
  - apply wp_bind.
    eapply wp_mono.
    + apply (Hstep [] x rest s); [reflexivity |].
      rewrite app_nil_r. exact Hinit.
    + intros [[] | e] s1 H1; [| exact H1]. simpl in H1.
      replace (done ++ x :: rest) with ((done ++ [x]) ++ rest)
        by (rewrite <- app_assoc; reflexivity).
      apply IH; [exact H1 |].
      intros pre y post s2 Hsplit Hpre.
      specialize (Hstep (x :: pre) y post s2).
      rewrite <- !app_assoc in *. simpl in *.
      apply Hstep; [rewrite Hsplit; reflexivity | exact Hpre].
Qed.

Lemma wp_for_each {S A : Type} (body : A -> M S unit)
      (I : list A -> S -> Prop) (E : exn -> S -> Prop) xs s :
  I [] s ->
  (forall pre x post s1,
      xs = pre ++ x :: post -> I pre s1 ->
      wp (body x) (fun r s2 =>
                     match r with
                     | Ok _ => I (pre ++ [x]) s2
                     | Err e => E e s2
                     end) s1) ->
  wp (for_each xs body) (fun r s' =>
                           match r with
                           | Ok _ => I xs s'
                           | Err e => E e s'
                           end) s.
Proof.
  intros Hinit Hstep.
  apply (wp_for_each_from body I E xs [] s Hinit). exact Hstep.
Qed.

(** A loop whose body leaves [f] of the state alone leaves it alone. *)
Lemma wp_for_each_frame {S A B : Type} (body : A -> M S unit) (f : S -> B) xs s :
  (forall x s1, wp (body x) (fun _ s2 => f s2 = f s1) s1) ->
  wp (for_each xs body) (fun _ s' => f s' = f s) s.
Proof.
  intros Hbody.
  eapply wp_mono.
  - apply (wp_for_each body (fun _ s' => f s' = f s) (fun _ s' => f s' = f s));
      [reflexivity |].
    intros pre x post s1 _ H1.
    eapply wp_mono; [apply Hbody |].
    intros [[] | e] s2 H2; congruence.
  - intros [[] | e] s' H; exact H.
Qed.

(** A loop with an element on which the body raises in every state
    raises. *)
Lemma wp_for_each_raises {S A : Type} (body : A -> M S unit) xs x0 s :
  In x0 xs ->
  (forall s1, wp (body x0) (fun r _ => exists e, r = Err e) s1) ->
  wp (for_each xs body) (fun r _ => exists e, r = Err e) s.
Proof.
  intros Hin Hraise.
  eapply wp_mono.
  - apply (wp_for_each body (fun pre _ => ~ In x0 pre) (fun _ _ => True));
      [intros [] |].
    intros pre x post s1 _ Hpre.
    specialize (Hraise s1). unfold wp in *.
    destruct (fst (body x s1)) as [[] | e] eqn:Ex; [| exact I].
    intros Hin'. apply in_app_or in Hin'. destruct Hin' as [Hin' | [-> | []]].
    + exact (Hpre Hin').
    + rewrite Ex in Hraise. destruct Hraise as (e & He). discriminate.
  - intros [[] | e] s' H; [contradiction | eauto].
Qed.

Section Properties.

Context {R : SqlReal}.

Lemma wp_serve (view : M db outcome) (P : outcome -> db -> Prop) d :
  wp view (fun r d' =>
             match r with
             | Ok o => P o d'
             | Err e => P (Unhandled e) d'
             end) d ->
  P (fst (serve view d)) (snd (serve view d)).
Proof.
  unfold wp, serve. destruct (view d) as [[o | e] d']; simpl; auto.
Qed.

Lemma wp_with_get_db {A : Type} (body : M conn A) (Q : res A -> db -> Prop) d :
  wp body (fun r c =>
             match r with
             | Ok a => Q (Ok a) (pending c)
             | Err e => Q (Err e) (stored c)
             end) (get_db d) ->
  wp (with_get_db body) Q d.
Proof.
  unfold wp, with_get_db.
  destruct (body (get_db d)) as [[a | e] c]; simpl; auto.
Qed.

Lemma wp_statement {A : Type} (run : db -> res (A * db))
      (Q : res A -> conn -> Prop) c :
  match run (pending c) with
  | Ok (a, d') => Q (Ok a) {| stored := stored c; pending := d' |}
  | Err e => Q (Err e) c
  end ->
  wp (statement run) Q c.
Proof.
  unfold wp, statement. destruct (run (pending c)) as [[a d'] | e]; simpl; auto.
Qed.

Lemma wp_query {A : Type} (q : db -> A) (Q : res A -> conn -> Prop) c :
  Q (Ok (q (pending c))) c -> wp (query q) Q c.
Proof. auto. Qed.

Lemma wp_commit (Q : res unit -> conn -> Prop) c :
  Q (Ok tt) (commit_conn c) -> wp commit Q c.
Proof. auto. Qed.

(** ** Values and rowids *)

Lemma is_null_text_affinity v : is_null (text_affinity v) = is_null v.
Proof. destruct v; reflexivity. Qed.

Lemma is_null_integer_affinity v : is_null (integer_affinity v) = is_null v.
Proof.
  destruct v as [| z | r | s]; simpl; try reflexivity.
  - unfold real_to_integer. destruct (real_as_integer r); reflexivity.
  - destruct (text_to_numeric s) as [[z | r] |]; try reflexivity.
    unfold real_to_integer. destruct (real_as_integer r); reflexivity.
Qed.

Lemma bind_int_ok z z' : bind_int z = Ok z' -> z' = z /\ fits_int64 z = true.
Proof.
  unfold bind_int. destruct (fits_int64 z); intros H; inversion H; auto.
Qed.

Lemma bind_int_fits z : fits_int64 z = true -> bind_int z = Ok z.
Proof. unfold bind_int. intros ->. reflexivity. Qed.

(** A string is bound as it is, or not at all. *)
Lemma bind_param_str s v :
  bind_param (JStr s) = Ok v -> v = SText s /\ has_surrogate s = false.
Proof.
  simpl. unfold bind_str. destruct (has_surrogate s); intros H; inversion H.
  auto.
Qed.

Lemma bind_param_text s : has_surrogate s = false -> bind_param (JStr s) = Ok (SText s).
Proof. intros H. simpl. unfold bind_str. rewrite H. reflexivity. Qed.

Lemma bind_param_allowed s :
  s = "movie" \/ s = "tvseries" -> bind_param (JStr s) = Ok (SText s).
Proof. intros [-> | ->]; reflexivity. Qed.

(** The values that can be bound. *)
Lemma storable_values v :
  storable v = true <->
  v = JNull \/ (exists b, v = JBool b) \/
  (exists z, v = JInt z /\ fits_int64 z = true) \/
  (exists r, v = JFloat r) \/
  (exists s, v = JStr s /\ has_surrogate s = false).
Proof.
  unfold storable. split.
  - destruct v as [| b | z | r | s | l | kv]; simpl; try discriminate; eauto 6.
    + unfold bind_int. destruct (fits_int64 z) eqn:E; [eauto 8 | discriminate].
    + unfold bind_str. destruct (has_surrogate s) eqn:E; [discriminate | eauto 8].
  - intros [-> | [(b & ->) | [(z & -> & H) | [(r & ->) | (s & -> & H)]]]];
      simpl; try reflexivity.
    + unfold bind_int. rewrite H. reflexivity.
    + unfold bind_str. rewrite H. reflexivity.
Qed.

Lemma fits_int64_iff z : fits_int64 z = true <-> min_int64 <= z <= max_int64.
Proof. unfold fits_int64. rewrite andb_true_iff, !Z.leb_le. tauto. Qed.

Lemma last_rowid_seq seq ids : seq <= last_rowid seq ids.
Proof.
  unfold last_rowid. induction ids as [| i ids IH]; simpl; lia.
Qed.

Lemma last_rowid_ids seq ids i : In i ids -> i <= last_rowid seq ids.
Proof.
  unfold last_rowid. induction ids as [| j ids IH]; simpl; intros H.
  - contradiction.
  - destruct H as [-> | H]; [lia | specialize (IH H); lia].
Qed.

Lemma last_rowid_snoc seq ids i :
  last_rowid seq ids < i -> last_rowid i (ids ++ [i]) = i.
Proof.
  unfold last_rowid. revert i. induction ids as [| j ids IH]; simpl; intros i H.
  - lia.
  - rewrite IH by lia. lia.
Qed.

(** [next_rowid] succeeds exactly when the table has room for a row. *)
Lemma next_rowid_room seq ids :
  last_rowid seq ids + 1 <= max_int64 ->
  next_rowid seq ids = Ok (last_rowid seq ids + 1).
Proof.
  unfold next_rowid, last_rowid. intros H.
  destruct (Z.leb_spec max_int64 (fold_right Z.max seq ids)) as [Hfull | Hroom];
    [lia | reflexivity].
Qed.

Lemma next_rowid_ok seq ids i :
  next_rowid seq ids = Ok i ->
  i = last_rowid seq ids + 1 /\ i <= max_int64.
Proof.
  unfold next_rowid, last_rowid.
  destruct (Z.leb_spec max_int64 (fold_right Z.max seq ids)) as [Hfull | Hroom];
    intros H; inversion H; subst. lia.
Qed.

(** ** The statements *)

Lemma allowed_type ty :
  (py_eq_str ty "movie" || py_eq_str ty "tvseries") = true ->
  exists s, ty = JStr s /\ (s = "movie" \/ s = "tvseries").
Proof.
  destruct ty as [| b | z | r | s | l | kv]; simpl; try discriminate.
  intros H. exists s. split; [reflexivity |].
  apply orb_true_iff in H. destruct H as [H | H]; apply String.eqb_eq in H; auto.
Qed.

(** [insert_media] on an allowed type: it fails only when a field cannot
    be stored or the table is full, and otherwise appends one row. *)
Lemma wp_insert_media now ty title thumb details rdate
      (Q : res Z -> conn -> Prop) c :
  (py_eq_str ty "movie" || py_eq_str ty "tvseries") = true ->
  (forall e,
      ~ (storable_not_null title = true /\ storable thumb = true /\
         storable details = true /\ storable rdate = true /\
         media_room (pending c) 1) ->
      Q (Err e) c) ->
  (forall ty' title' thumb' details' rdate' row,
      bind_param ty = Ok ty' ->
      bind_param title = Ok title' ->
      bind_param thumb = Ok thumb' ->
      bind_param details = Ok details' ->
      bind_param rdate = Ok rdate' ->
      row = {| m_id := last_rowid (seq_media (pending c))
                                  (map m_id (media (pending c))) + 1;
               m_type := text_affinity ty';
               m_title := text_affinity title';
               m_thumbnail_url := text_affinity thumb';
               m_details := text_affinity details';
               m_release_date := text_affinity rdate';
               m_created_at := SText now |} ->
      m_id row <= max_int64 ->
      Q (Ok (m_id row)) {| stored := stored c; pending := put_media row (pending c) |}) ->
  wp (insert_media now ty title thumb details rdate) Q c.
Proof.
  intros Hty Hfail Hok.
  destruct (allowed_type ty Hty) as (s & -> & Hs).
  unfold insert_media. apply wp_bind_lift. rewrite (bind_param_allowed s Hs).
  apply wp_bind_lift.
  destruct (bind_param title) as [title' |] eqn:Etitle;
    [| apply Hfail; unfold storable_not_null; rewrite Etitle; intuition discriminate].
  apply wp_bind_lift.
  destruct (bind_param thumb) as [thumb' |] eqn:Ethumb;
    [| apply Hfail; unfold storable; rewrite Ethumb; intuition discriminate].
  apply wp_bind_lift.
  destruct (bind_param details) as [details' |] eqn:Edetails;
    [| apply Hfail; unfold storable; rewrite Edetails; intuition discriminate].
  apply wp_bind_lift.
  destruct (bind_param rdate) as [rdate' |] eqn:Erdate;
    [| apply Hfail; unfold storable; rewrite Erdate; intuition discriminate].
  apply wp_statement.
  destruct (next_rowid (seq_media (pending c)) (map m_id (media (pending c))))
    as [rowid |] eqn:Erow.
  - apply next_rowid_ok in Erow. destruct Erow as [-> Hmax]. simpl.
    rewrite is_null_text_affinity.
    destruct (is_null title') eqn:Enull.
    + apply Hfail. unfold storable_not_null. rewrite Etitle, Enull.
      simpl. intuition discriminate.
    + assert (Hcheck : check_media_type (SText s) = true)
        by (destruct Hs as [-> | ->]; reflexivity).
      rewrite Hcheck. simpl.
      specialize (Hok (SText s) title' thumb' details' rdate' _
                      (bind_param_allowed s Hs) eq_refl eq_refl eq_refl eq_refl eq_refl).
      apply Hok. exact Hmax.
  - apply Hfail. intros (_ & _ & _ & _ & Hroom).
    unfold media_room in Hroom. rewrite next_rowid_room in Erow by (simpl in Hroom; lia).
    discriminate.
Qed.

Lemma wp_insert_movie_link movie_id resolution video_link
      (Q : res unit -> conn -> Prop) c :
  (forall e,
      ~ (fits_int64 movie_id = true /\ storable resolution = true /\
         storable_not_null video_link = true /\ links_room (pending c) 1) ->
      Q (Err e) c) ->
  (forall resolution' video_link' row,
      fits_int64 movie_id = true ->
      bind_param resolution = Ok resolution' ->
      bind_param video_link = Ok video_link' ->
      row = {| l_id := last_rowid (seq_links (pending c))
                                  (map l_id (movie_links (pending c))) + 1;
               l_movie_id := movie_id;
               l_resolution := text_affinity resolution';
               l_video_link := text_affinity video_link' |} ->
      l_id row <= max_int64 ->
      is_null (l_video_link row) = false ->
      Q (Ok tt) {| stored := stored c; pending := put_link row (pending c) |}) ->
  wp (insert_movie_link movie_id resolution video_link) Q c.
Proof.
  intros Hfail Hok.
  unfold insert_movie_link. apply wp_bind_lift.
  destruct (bind_int movie_id) as [id' |] eqn:Eid;
    [| apply Hfail; unfold bind_int in Eid;
       destruct (fits_int64 movie_id); [discriminate | intuition discriminate]].
  apply bind_int_ok in Eid. destruct Eid as [-> Hfits].
  apply wp_bind_lift.
  destruct (bind_param resolution) as [resolution' |] eqn:Eres;
    [| apply Hfail; unfold storable; rewrite Eres; intuition discriminate].
  apply wp_bind_lift.
  destruct (bind_param video_link) as [video_link' |] eqn:Evl;
    [| apply Hfail; unfold storable_not_null; rewrite Evl; intuition discriminate].
  apply wp_statement.
  destruct (next_rowid (seq_links (pending c)) (map l_id (movie_links (pending c))))
    as [rowid |] eqn:Erow.
  - apply next_rowid_ok in Erow. destruct Erow as [-> Hmax]. simpl.
    rewrite is_null_text_affinity.
    destruct (is_null video_link') eqn:Enull.
    + apply Hfail. unfold storable_not_null. rewrite Evl, Enull.
      simpl. intuition discriminate.
    + specialize (Hok resolution' video_link' _ Hfits eq_refl eq_refl eq_refl).
      apply Hok; simpl; [exact Hmax |].
      rewrite is_null_text_affinity. exact Enull.
  - apply Hfail. intros (_ & _ & _ & Hroom).
    unfold links_room in Hroom. rewrite next_rowid_room in Erow by (simpl in Hroom; lia).
    discriminate.
Qed.

Lemma wp_insert_episode series_id season number title video_link
      (Q : res unit -> conn -> Prop) c :
  (forall e,
      ~ (fits_int64 series_id = true /\ storable_not_null season = true /\
         storable_not_null number = true /\ storable title = true /\
         storable_not_null video_link = true /\ episodes_room (pending c) 1) ->
      Q (Err e) c) ->
  (forall season' number' title' video_link' row,
      fits_int64 series_id = true ->
      bind_param season = Ok season' ->
      bind_param number = Ok number' ->
      bind_param title = Ok title' ->
      bind_param video_link = Ok video_link' ->
      row = {| e_id := last_rowid (seq_episodes (pending c))
                                  (map e_id (tv_episodes (pending c))) + 1;
               e_series_id := series_id;
               e_season_number := integer_affinity season';
               e_episode_number := integer_affinity number';
               e_title := text_affinity title';
               e_video_link := text_affinity video_link' |} ->
      e_id row <= max_int64 ->
      episode_not_null row ->
      Q (Ok tt) {| stored := stored c; pending := put_episode row (pending c) |}) ->
  wp (insert_episode series_id season number title video_link) Q c.
Proof.
  intros Hfail Hok.
  unfold insert_episode. apply wp_bind_lift.
  destruct (bind_int series_id) as [id' |] eqn:Eid;
    [| apply Hfail; unfold bind_int in Eid;
       destruct (fits_int64 series_id); [discriminate | intuition discriminate]].
  apply bind_int_ok in Eid. destruct Eid as [-> Hfits].
  apply wp_bind_lift.
  destruct (bind_param season) as [season' |] eqn:Eseason;
    [| apply Hfail; unfold storable_not_null; rewrite Eseason; intuition discriminate].
  apply wp_bind_lift.
  destruct (bind_param number) as [number' |] eqn:Enumber;
    [| apply Hfail; unfold storable_not_null; rewrite Enumber; intuition discriminate].
  apply wp_bind_lift.
  destruct (bind_param title) as [title' |] eqn:Etitle;
    [| apply Hfail; unfold storable; rewrite Etitle; intuition discriminate].
  apply wp_bind_lift.
  destruct (bind_param video_link) as [video_link' |] eqn:Evl;
    [| apply Hfail; unfold storable_not_null; rewrite Evl; intuition discriminate].
  apply wp_statement.
  destruct (next_rowid (seq_episodes (pending c)) (map e_id (tv_episodes (pending c))))
    as [rowid |] eqn:Erow.
  - apply next_rowid_ok in Erow. destruct Erow as [-> Hmax]. simpl.
    rewrite !is_null_integer_affinity, is_null_text_affinity.
    destruct (is_null season') eqn:En1;
      [apply Hfail; unfold storable_not_null; rewrite Eseason, En1;
       simpl; intuition discriminate |].
    destruct (is_null number') eqn:En2;
      [apply Hfail; unfold storable_not_null; rewrite Enumber, En2;
       simpl; intuition discriminate |].
    destruct (is_null video_link') eqn:En3;
      [apply Hfail; unfold storable_not_null; rewrite Evl, En3;
       simpl; intuition discriminate |].
    specialize (Hok season' number' title' video_link' _ Hfits
                    eq_refl eq_refl eq_refl eq_refl eq_refl).
    apply Hok; [exact Hmax |].
    unfold episode_not_null. simpl.
    rewrite !is_null_integer_affinity, is_null_text_affinity. auto.
  - apply Hfail. intros (_ & _ & _ & _ & _ & Hroom).
    unfold episodes_room in Hroom.
    rewrite next_rowid_room in Erow by (simpl in Hroom; lia).
    discriminate.
Qed.

(** ** The loop bodies *)

Lemma wp_store_link media_id link (Q : res unit -> conn -> Prop) c :
  (forall e,
      ~ (fits_int64 media_id = true /\ link_storable link /\
         links_room (pending c) 1) ->
      Q (Err e) c) ->
  (forall row,
      stores_link media_id link row ->
      fits_int64 media_id = true ->
      l_id row = last_rowid (seq_links (pending c))
                            (map l_id (movie_links (pending c))) + 1 ->
      Q (Ok tt) {| stored := stored c; pending := put_link row (pending c) |}) ->
  wp (store_link media_id link) Q c.
Proof.
  intros Hfail Hok. unfold store_link.
  apply wp_bind_lift.
  destruct (py_get link "resolution") as [resolution |] eqn:Eres;
    [| apply Hfail; intros (_ & (r & v & Hr & _) & _); congruence].
  apply wp_bind_lift.
  destruct (py_getitem link "video_link") as [video_link |] eqn:Evl;
    [| apply Hfail; intros (_ & (r & v & _ & Hv & _) & _); congruence].
  apply wp_insert_movie_link.
  - intros e Hbad. apply Hfail. intros (Hfits & (r & v & Hr & Hv & Hsr & Hsv) & Hroom).
    apply Hbad. replace resolution with r by congruence.
    replace video_link with v by congruence. auto.
  - intros resolution' video_link' row Hfits Hr Hv -> _ _.
    apply Hok; [| exact Hfits | reflexivity].
    split; [reflexivity |].
    exists resolution, video_link, resolution', video_link'.
    repeat split; auto.
Qed.

Lemma wp_store_episode media_id episode (Q : res unit -> conn -> Prop) c :
  (forall e,
      ~ (fits_int64 media_id = true /\ episode_storable episode /\
         episodes_room (pending c) 1) ->
      Q (Err e) c) ->
  (forall row,
      stores_episode media_id episode row ->
      fits_int64 media_id = true ->
      e_id row = last_rowid (seq_episodes (pending c))
                            (map e_id (tv_episodes (pending c))) + 1 ->
      episode_not_null row ->
      Q (Ok tt) {| stored := stored c; pending := put_episode row (pending c) |}) ->
  wp (store_episode media_id episode) Q c.
Proof.
  intros Hfail Hok. unfold store_episode.
  apply wp_bind_lift.
  destruct (py_getitem episode "season_number") as [season |] eqn:Es;
    [| apply Hfail; intros (_ & (s & n & t & v & H & _) & _); congruence].
  apply wp_bind_lift.
  destruct (py_getitem episode "episode_number") as [number |] eqn:En;
    [| apply Hfail; intros (_ & (s & n & t & v & _ & H & _) & _); congruence].
  apply wp_bind_lift.
  destruct (py_get episode "title") as [title |] eqn:Et;
    [| apply Hfail; intros (_ & (s & n & t & v & _ & _ & H & _) & _); congruence].
  apply wp_bind_lift.
  destruct (py_getitem episode "video_link") as [video_link |] eqn:Ev;
    [| apply Hfail; intros (_ & (s & n & t & v & _ & _ & _ & H & _) & _); congruence].
  apply wp_insert_episode.
  - intros e Hbad. apply Hfail.
    intros (Hfits & (s & n & t & v & Hs & Hn & Ht & Hv & Hss & Hsn & Hst & Hsv) & Hroom).
    apply Hbad.
    replace season with s by congruence. replace number with n by congruence.
    replace title with t by congruence. replace video_link with v by congruence.
    auto 10.
  - intros season' number' title' video_link' row Hfits Hs Hn Ht Hv -> _ Hnn.
    apply Hok; [| exact Hfits | reflexivity | exact Hnn].
    split; [reflexivity |].
    exists season, number, title, video_link, season', number', title', video_link'.
    repeat split; auto.
Qed.

Lemma store_link_frame media_id link c :
  wp (store_link media_id link) (fun _ c' => links_frame c' = links_frame c) c.
Proof.
  apply wp_store_link; intros; reflexivity.
Qed.

Lemma store_episode_frame media_id episode c :
  wp (store_episode media_id episode)
     (fun _ c' => episodes_frame c' = episodes_frame c) c.
Proof.
  apply wp_store_episode; intros; reflexivity.
Qed.

(** ** The loops *)

(** The rows a successful loop over links has appended. *)
Lemma store_links_rows media_id items c :
  wp (for_each items (store_link media_id))
     (fun r c' =>
        links_frame c' = links_frame c /\
        (r = Ok tt ->
         exists rows,
           movie_links (pending c') = movie_links (pending c) ++ rows /\
           Forall2 (stores_link media_id) items rows)) c.
Proof.
  apply wp_and.
  - apply wp_for_each_frame. intros x s1. apply store_link_frame.
  - eapply wp_mono.
    + apply (wp_for_each (store_link media_id)
               (fun pre c' =>
                  exists rows,
                    movie_links (pending c') = movie_links (pending c) ++ rows /\
                    Forall2 (stores_link media_id) pre rows)
               (fun _ _ => True)).
      * exists []. rewrite app_nil_r. split; [reflexivity | constructor].
      * intros pre x post c1 _ (rows & Hrows & Hall).
        apply wp_store_link; [intros; exact I |].
        intros row Hrow _ _. exists (rows ++ [row]). simpl.
        rewrite Hrows, <- app_assoc. split; [reflexivity |].
        apply Forall2_app; [exact Hall | constructor; [exact Hrow | constructor]].
    + intros [[] | e] c' H; [intros _; exact H | discriminate].
Qed.

Lemma store_episodes_rows media_id items c :
  wp (for_each items (store_episode media_id))
     (fun r c' =>
        episodes_frame c' = episodes_frame c /\
        (r = Ok tt ->
         exists rows,
           tv_episodes (pending c') = tv_episodes (pending c) ++ rows /\
           Forall2 (stores_episode media_id) items rows /\
           Forall episode_not_null rows)) c.
Proof.
  apply wp_and.
  - apply wp_for_each_frame. intros x s1. apply store_episode_frame.
  - eapply wp_mono.
    + apply (wp_for_each (store_episode media_id)
               (fun pre c' =>
                  exists rows,
                    tv_episodes (pending c') = tv_episodes (pending c) ++ rows /\
                    Forall2 (stores_episode media_id) pre rows /\
                    Forall episode_not_null rows)
               (fun _ _ => True)).
      * exists []. rewrite app_nil_r. repeat split; constructor.
      * intros pre x post c1 _ (rows & Hrows & Hall & Hnn).
        apply wp_store_episode; [intros; exact I |].
        intros row Hrow _ _ Hrnn. exists (rows ++ [row]). simpl.
        rewrite Hrows, <- app_assoc. split; [reflexivity |]. split.
        -- apply Forall2_app; [exact Hall | constructor; [exact Hrow | constructor]].
        -- apply Forall_app. split; [exact Hnn | constructor; [exact Hrnn | constructor]].
    + intros [[] | e] c' H; [intros _; exact H | discriminate].
Qed.

(** Storable links are all stored, provided the table has room. *)
Lemma store_links_succeed media_id items c :
  fits_int64 media_id = true ->
  Forall link_storable items ->
  links_room (pending c) (List.length items) ->
  wp (for_each items (store_link media_id)) (fun r _ => r = Ok tt) c.
Proof.
  intros Hfits Hitems Hroom.
  pose (top := fun c' : conn =>
                 last_rowid (seq_links (pending c')) (map l_id (movie_links (pending c')))).
  eapply wp_mono.
  - apply (wp_for_each (store_link media_id)
             (fun pre c' => top c' = top c + Z.of_nat (List.length pre))
             (fun _ _ => False)).
    + simpl. lia.
    + intros pre x post c1 Hsplit Hpre.
      apply wp_store_link.
      * intros e Hbad. apply Hbad. split; [exact Hfits |]. split.
        -- rewrite Forall_forall in Hitems. apply Hitems.
           rewrite Hsplit. apply in_or_app. right. left. reflexivity.
        -- unfold links_room in *. fold (top c1). fold (top c) in Hroom.
           rewrite Hpre. rewrite Hsplit in Hroom.
           rewrite length_app in Hroom. simpl in Hroom. lia.
      * intros row _ _ Hid. unfold top in *. simpl.
        rewrite map_app. simpl.
        rewrite (last_rowid_snoc (seq_links (pending c1))) by lia.
        rewrite Hid, Hpre, length_app. simpl. lia.
  - intros [[] | e] c' H; [reflexivity | contradiction].
Qed.

Lemma store_episodes_succeed media_id items c :
  fits_int64 media_id = true ->
  Forall episode_storable items ->
  episodes_room (pending c) (List.length items) ->
  wp (for_each items (store_episode media_id)) (fun r _ => r = Ok tt) c.
Proof.
  intros Hfits Hitems Hroom.
  pose (top := fun c' : conn =>
                 last_rowid (seq_episodes (pending c')) (map e_id (tv_episodes (pending c')))).
  eapply wp_mono.
  - apply (wp_for_each (store_episode media_id)
             (fun pre c' => top c' = top c + Z.of_nat (List.length pre))
             (fun _ _ => False)).
    + simpl. lia.
    + intros pre x post c1 Hsplit Hpre.
      apply wp_store_episode.
      * intros e Hbad. apply Hbad. split; [exact Hfits |]. split.
        -- rewrite Forall_forall in Hitems. apply Hitems.
           rewrite Hsplit. apply in_or_app. right. left. reflexivity.
        -- unfold episodes_room in *. fold (top c1). fold (top c) in Hroom.
           rewrite Hpre. rewrite Hsplit in Hroom.
           rewrite length_app in Hroom. simpl in Hroom. lia.
      * intros row _ _ Hid _. unfold top in *. simpl.
        rewrite map_app. simpl.
        rewrite (last_rowid_snoc (seq_episodes (pending c1))) by lia.
        rewrite Hid, Hpre, length_app. simpl. lia.
  - intros [[] | e] c' H; [reflexivity | contradiction].
Qed.

(** ** The transaction of [add_media] *)

Lemma movie_is_not_series data key key' :
  type_is_and_has data "movie" key = Ok true ->
  type_is_and_has data "tvseries" key' = Ok false.
Proof.
  unfold type_is_and_has.
  destruct (py_getitem data "type") as [ty |]; [| discriminate].
  destruct ty as [| b | z | r | s | l | kv]; simpl; try discriminate.
  destruct (String.eqb_spec s "movie") as [-> |]; [reflexivity | discriminate].
Qed.

Lemma supplied_nothing data lit key :
  type_is_and_has data lit key <> Ok true -> supplied data lit key = [].
Proof.
  unfold supplied. destruct (type_is_and_has data lit key) as [[|] |]; congruence.
Qed.

Lemma add_children_rows media_id data c :
  wp (add_children media_id data)
     (fun r c' =>
        stored c' = stored c /\
        (r = Ok tt ->
         media (pending c') = media (pending c) /\
         seq_media (pending c') = seq_media (pending c) /\
         exists links eps,
           movie_links (pending c') = movie_links (pending c) ++ links /\
           tv_episodes (pending c') = tv_episodes (pending c) ++ eps /\
           Forall2 (stores_link media_id) (supplied data "movie" "video_links") links /\
           Forall2 (stores_episode media_id) (supplied data "tvseries" "episodes") eps /\
           Forall episode_not_null eps)) c.
Proof.
  unfold add_children. apply wp_bind_lift.
  destruct (type_is_and_has data "movie" "video_links") as [[|] | e] eqn:Emovie.
  - (* a movie with links *)
    apply wp_bind_lift.
    destruct (py_getitem data "video_links") as [v |] eqn:Ev;
      [| split; [reflexivity | discriminate]].
    apply wp_bind_lift.
    destruct (py_iter v) as [items |] eqn:Eitems;
      [| split; [reflexivity | discriminate]].
    eapply wp_mono; [apply store_links_rows |].
    intros r c' [Hframe Hrows]. unfold links_frame in Hframe.
    injection Hframe as Hstored Hmedia Heps Hseq.
    split; [exact Hstored |]. intros Hr.
    destruct (Hrows Hr) as (rows & Hlinks & Hall).
    repeat split; try assumption.
    exists rows, []. rewrite app_nil_r.
    rewrite (supplied_nothing data "tvseries" "episodes")
      by (rewrite (movie_is_not_series _ _ _ Emovie); discriminate).
    unfold supplied. rewrite Emovie, Ev, Eitems.
    repeat split; try assumption; constructor.
  - (* not a movie with links *)
    apply wp_bind_lift.
    destruct (type_is_and_has data "tvseries" "episodes") as [[|] | e] eqn:Eseries.
    + apply wp_bind_lift.
      destruct (py_getitem data "episodes") as [v |] eqn:Ev;
        [| split; [reflexivity | discriminate]].
      apply wp_bind_lift.
      destruct (py_iter v) as [items |] eqn:Eitems;
        [| split; [reflexivity | discriminate]].
      eapply wp_mono; [apply store_episodes_rows |].
      intros r c' [Hframe Hrows]. unfold episodes_frame in Hframe.
      injection Hframe as Hstored Hmedia Hlinks Hseq.
      split; [exact Hstored |]. intros Hr.
      destruct (Hrows Hr) as (rows & Heps & Hall & Hnn).
      repeat split; try assumption.
      exists [], rows. rewrite app_nil_r.
      rewrite (supplied_nothing data "movie" "video_links")
        by (rewrite Emovie; discriminate).
      unfold supplied. rewrite Eseries, Ev, Eitems.
      repeat split; try assumption; constructor.
    + apply wp_ret. split; [reflexivity |]. intros _.
      repeat split. exists [], []. rewrite !app_nil_r.
      rewrite !supplied_nothing by (rewrite ?Emovie, ?Eseries; discriminate).
      repeat split; constructor.
    + split; [reflexivity | discriminate].
  - split; [reflexivity | discriminate].
Qed.

(** The [with] block of [add_media]: an exception leaves the stored
    database alone, and a normal end has committed the Media row with
    all of its children. *)
Lemma add_media_tx_post now data c :
  (exists ty, py_getitem data "type" = Ok ty /\
              (py_eq_str ty "movie" || py_eq_str ty "tvseries") = true) ->
  wp (add_media_tx now data)
     (fun r c' =>
        match r with
        | Err _ => stored c' = stored c
        | Ok o =>
            stored c' = pending c' /\
            exists mrow links eps,
              o = Reply 201 (BCreated (m_id mrow)) /\
              media_committed now data (pending c) (pending c') mrow links eps
        end) c.
Proof.
  intros (ty & Ety & Hty). unfold add_media_tx.
  apply wp_bind_lift. rewrite Ety.
  apply wp_bind_lift.
  destruct (py_getitem data "title") as [title |] eqn:Etitle; [| reflexivity].
  apply wp_bind_lift.
  destruct (py_get data "thumbnail_url") as [thumb |] eqn:Ethumb; [| reflexivity].
  apply wp_bind_lift.
  destruct (py_get data "details") as [details |] eqn:Edetails; [| reflexivity].
  apply wp_bind_lift.
  destruct (py_get data "release_date") as [rdate |] eqn:Erdate; [| reflexivity].
  apply wp_bind. apply wp_insert_media; [exact Hty | reflexivity |].
  intros ty' title' thumb' details' rdate' row Hbty Hbtitle Hbthumb Hbdetails Hbrdate
         Hrow Hmax.
  apply wp_bind.
  eapply wp_mono; [apply add_children_rows |].
  intros [[] | e] c1 [Hstored Hrows]; [| exact Hstored].
  destruct (Hrows eq_refl) as (Hmedia & Hseq & links & eps & Hl & He & Hfl & Hfe & Hnn).
  apply wp_bind, wp_commit. apply wp_ret. simpl in *.
  split; [reflexivity |].
  exists row, links, eps. split; [reflexivity |].
  unfold media_committed. rewrite Hmedia, Hl, He, Hseq.
  repeat split; try assumption; try reflexivity.
  - rewrite Hrow. reflexivity.
  - exists ty, title, thumb, details, rdate, ty', title', thumb', details', rdate'.
    rewrite Hrow. simpl. repeat split; assumption.
Qed.

(** ** The view [add_media] *)

(** Every request to [add_media] ends in one of two ways: the database
    is as before and the answer is an error, or the answer is 201 and the
    Media row and its children have been committed. *)
Lemma add_media_post now data d :
  (snd (add_media now data d) = d /\
   ((exists e, fst (add_media now data d) = Unhandled e) \/
    (exists msg, fst (add_media now data d) = Reply 400 (BError msg)) \/
    (exists e, fst (add_media now data d) = Reply 500 (BException e)))) \/
  (exists mrow links eps,
      fst (add_media now data d) = Reply 201 (BCreated (m_id mrow)) /\
      media_committed now data d (snd (add_media now data d)) mrow links eps).
Proof.
  unfold add_media.
  apply (wp_serve _ (fun o d' =>
    (d' = d /\
     ((exists e, o = Unhandled e) \/
      (exists msg, o = Reply 400 (BError msg)) \/
      (exists e, o = Reply 500 (BException e)))) \/
    (exists mrow links eps,
        o = Reply 201 (BCreated (m_id mrow)) /\
        media_committed now data d d' mrow links eps))).
  apply wp_bind_lift.
  destruct (py_all_in required_fields data) as [[|] | e]; simpl.
  - apply wp_bind_lift.
    destruct (py_getitem data "type") as [ty | e] eqn:Ety.
    + destruct (py_eq_str ty "movie" || py_eq_str ty "tvseries") eqn:Hty; simpl.
      * apply wp_try_except, wp_with_get_db.
        eapply wp_mono; [apply add_media_tx_post; eauto |].
        intros [o | e] c; simpl.
        -- intros (_ & mrow & links & eps & -> & Hc). right. eauto.
        -- intros ->. left. eauto.
      * apply wp_ret. left. eauto.
    + left. eauto.
  - apply wp_ret. left. eauto.
  - left. eauto.
Qed.

(** A 201 answer of [add_media] determines what was committed. *)
Lemma add_media_created now data d id d' :
  add_media now data d = (Reply 201 (BCreated id), d') ->
  exists mrow links eps,
    m_id mrow = id /\ media_committed now data d d' mrow links eps.
Proof.
  intros H. pose proof (add_media_post now data d) as Hpost.
  rewrite H in Hpost. simpl in Hpost.
  destruct Hpost as [(_ & [(e & He) | [(msg & He) | (e & He)]]) | Hc];
    try discriminate.
  destruct Hc as (mrow & links & eps & Ho & Hc).
  exists mrow, links, eps. split; [congruence | exact Hc].
Qed.

Lemma py_getitem_obj data k v :
  py_getitem data k = Ok v ->
  exists items, data = JObj items /\ dict_get k items = Some v.
Proof.
  destruct data as [| b | z | r | s | l | items]; simpl; try discriminate.
  destruct (dict_get k items) as [x |] eqn:E; intros H; inversion H; subst.
  eauto.
Qed.

(** A loop that has stored every element it visited has visited the
    elements of an array, or nothing: the characters of a string and the
    keys of a dict are strings, which no loop body stores. *)
Lemma stored_no_strings {B : Type} (P : json -> B -> Prop) items rows :
  (forall s r, ~ P (JStr s) r) ->
  (forall x, In x items -> exists s, x = JStr s) ->
  Forall2 P items rows ->
  items = [].
Proof.
  intros Hno Hstr H. destruct H as [| x r xs rs Hx _]; [reflexivity |].
  destruct (Hstr x (or_introl eq_refl)) as (s & ->).
  exfalso. exact (Hno s r Hx).
Qed.

Lemma supplied_requested {B : Type} (P : json -> B -> Prop) kv lit key rows :
  (forall s r, ~ P (JStr s) r) ->
  Forall2 P (supplied (JObj kv) lit key) rows ->
  supplied (JObj kv) lit key = requested kv lit key.
Proof.
  intros Hno. unfold supplied, requested, type_is_and_has. simpl.
  destruct (dict_get "type" kv) as [ty |]; [| reflexivity].
  destruct ty as [| b | z | r | s | l | o]; simpl; try reflexivity.
  destruct (String.eqb s lit).
  - destruct (dict_get key kv) as [v |]; [| reflexivity].
    destruct v as [| b | z | r | t | l | o]; simpl; try reflexivity.
    + intros H. apply (stored_no_strings P _ rows Hno); [| exact H].
      intros x Hx. apply in_map_iff in Hx. destruct Hx as (c & <- & _). eauto.
    + intros H. apply (stored_no_strings P _ rows Hno); [| exact H].
      intros x Hx. apply in_map_iff in Hx. destruct Hx as (c & <- & _). eauto.
  - destruct (dict_get key kv) as [v |]; [| reflexivity].
    destruct v; reflexivity.
Qed.

Lemma no_link_in_string media_id s row : ~ stores_link media_id (JStr s) row.
Proof. intros (_ & r & v & r' & v' & Hr & _). discriminate. Qed.

Lemma no_episode_in_string media_id s row : ~ stores_episode media_id (JStr s) row.
Proof. intros (_ & a & b & c & v & a' & b' & c' & v' & Ha & _). discriminate. Qed.

(** C1: [add_media] is all or nothing.  Either the database is exactly
    as before and the answer is an error status, or the body is a JSON
    object, the answer is 201 and the new Media row is committed together
    with one row for every element of the type-matched child array of the
    request, in the order of the array and each owned by the new Media:
    the elements of [video_links] when the type is [movie], those of
    [episodes] when it is [tvseries]. *)
Theorem add_media_all_or_nothing now data d :
  (snd (add_media now data d) = d /\
   (status_of (fst (add_media now data d)) = 400 \/
    status_of (fst (add_media now data d)) = 500)) \/
  (exists kv mrow links eps,
      data = JObj kv /\
      fst (add_media now data d) = Reply 201 (BCreated (m_id mrow)) /\
      media (snd (add_media now data d)) = media d ++ [mrow] /\
      movie_links (snd (add_media now data d)) = movie_links d ++ links /\
      tv_episodes (snd (add_media now data d)) = tv_episodes d ++ eps /\
      stores_media now data mrow /\
      Forall2 (stores_link (m_id mrow)) (requested kv "movie" "video_links") links /\
      Forall2 (stores_episode (m_id mrow)) (requested kv "tvseries" "episodes") eps /\
      List.length links = List.length (requested kv "movie" "video_links") /\
      List.length eps = List.length (requested kv "tvseries" "episodes")).
Proof.
  destruct (add_media_post now data d)
    as [(Hd & [(e & He) | [(msg & He) | (e & He)]]) | Hc].
  - left. rewrite He. simpl. auto.
  - left. rewrite He. simpl. auto.
  - left. rewrite He. simpl. auto.
  - right. destruct Hc as (mrow & links & eps & Ho & Hc).
    unfold media_committed in Hc.
    destruct Hc as (Hm & Hl & He & _ & _ & _ & Hst & Hfl & Hfe & _).
    assert (Hobj : exists kv, data = JObj kv).
    { destruct Hst as (ty & title & thumb & details & rdate & ty' & title' & thumb' &
                       details' & rdate' & Ety & _).
      apply py_getitem_obj in Ety. destruct Ety as (kv & -> & _). eauto. }
    destruct Hobj as (kv & ->).
    rewrite (supplied_requested _ kv "movie" "video_links" links
               (no_link_in_string (m_id mrow)) Hfl) in Hfl.
    rewrite (supplied_requested _ kv "tvseries" "episodes" eps
               (no_episode_in_string (m_id mrow)) Hfe) in Hfe.
    exists kv, mrow, links, eps.
    repeat split; try assumption; try reflexivity.
    + symmetry. eapply Forall2_length. exact Hfl.
    + symmetry. eapply Forall2_length. exact Hfe.
Qed.

Lemma py_eq_str_false v s : v <> JStr s -> py_eq_str v s = false.
Proof.
  destruct v as [| b | z | r | t | l | kv]; simpl; try reflexivity.
  intros H. destruct (String.eqb_spec t s) as [-> |]; [contradiction | reflexivity].
Qed.

(** C6: a payload whose [type] is present but is neither ["movie"] nor
    ["tvseries"] is answered 400 and the database is unchanged, so
    [get_all_media] lists what it listed before. *)
Theorem add_media_rejects_unknown_type now items ty d :
  dict_get "type" items = Some ty ->
  ty <> JStr "movie" ->
  ty <> JStr "tvseries" ->
  (exists msg, add_media now (JObj items) d = (Reply 400 (BError msg), d)) /\
  get_all_media (snd (add_media now (JObj items) d)) = get_all_media d.
Proof.
  intros Hty Hmovie Hseries.
  assert (H : exists msg, add_media now (JObj items) d = (Reply 400 (BError msg), d)).
  { unfold add_media, serve, bind, lift, required_fields. simpl. rewrite Hty.
    destruct (dict_get "title" items) as [title |].
    - rewrite (py_eq_str_false ty "movie" Hmovie).
      rewrite (py_eq_str_false ty "tvseries" Hseries). simpl. eauto.
    - simpl. eauto. }
  split; [exact H |].
  destruct H as (msg & ->). reflexivity.
Qed.

(** ** The view [add_episodes] *)

Lemma wp_select_media media_id (Q : res (option media_row) -> conn -> Prop) c :
  (fits_int64 media_id = false -> Q (Err OverflowError) c) ->
  (fits_int64 media_id = true -> Q (Ok (lookup_media (pending c) media_id)) c) ->
  wp (select_media media_id) Q c.
Proof.
  intros Hbig Hfits. unfold select_media, bind_int.
  apply wp_bind_lift.
  destruct (fits_int64 media_id); [apply wp_query; auto | auto].
Qed.

Lemma add_episodes_tx_post media_id items c :
  wp (add_episodes_tx media_id items)
     (fun r c' =>
        match r with
        | Err e =>
            episodes_outcome media_id items (pending c)
                             (Reply 500 (BException e)) (pending c) /\
            stored c' = stored c
        | Ok o => episodes_outcome media_id items (pending c) o (pending c')
        end) c.
Proof.
  unfold add_episodes_tx. apply wp_bind. apply wp_select_media.
  - intros Hbig. split; [| reflexivity]. left. eauto.
  - intros Hfits.
    destruct (lookup_media (pending c) media_id) as [m |] eqn:Em.
    + destruct (sv_is_text (m_type m) "tvseries") eqn:Etype; simpl.
      * assert (Hs : is_series (pending c) media_id) by (exists m; auto).
        apply wp_bind.
        eapply wp_mono; [apply store_episodes_rows |].
        intros [[] | e] c1 [Hframe Hrows].
        -- destruct (Hrows eq_refl) as (rows & Heps & Hall & Hnn).
           unfold episodes_frame in Hframe.
           injection Hframe as Hstored Hmedia Hlinks Hseq.
           apply wp_bind, wp_commit. apply wp_ret. simpl.
           right. right. right. repeat split; try assumption. eauto.
        -- unfold episodes_frame in Hframe.
           injection Hframe as Hstored Hmedia Hlinks Hseq.
           split; [| exact Hstored]. left. eauto.
      * apply wp_ret. right. right. left. repeat split; eauto.
    + apply wp_ret. right. left. auto.
Qed.

(** Every request to [add_episodes] with a list body ends in one of the
    ways of [episodes_outcome]. *)
Lemma add_episodes_post media_id items d :
  episodes_outcome media_id items d
                   (fst (add_episodes media_id (JArr items) d))
                   (snd (add_episodes media_id (JArr items) d)).
Proof.
  unfold add_episodes.
  apply (wp_serve _ (fun o d' => episodes_outcome media_id items d o d')).
  apply wp_try_except, wp_with_get_db.
  eapply wp_mono; [apply add_episodes_tx_post |].
  intros [o | e] c; simpl; [auto |].
  intros [H ->]. exact H.
Qed.

Lemma add_episodes_not_list media_id data d :
  (forall items, data <> JArr items) ->
  add_episodes media_id data d = (Reply 400 (BError msg_expected_array), d).
Proof.
  intros H. destruct data; try reflexivity. exfalso. eapply H. reflexivity.
Qed.

(** C10: [add_episodes] never touches the [media] table nor the
    [movie_links] table, whatever the request and however it ends. *)
Theorem add_episodes_frame media_id data d :
  media (snd (add_episodes media_id data d)) = media d /\
  movie_links (snd (add_episodes media_id data d)) = movie_links d.
Proof.
  destruct data as [| b | z | r | s | items | kv]; try (split; reflexivity).
  destruct (add_episodes_post media_id items d)
    as [(-> & _) | [(-> & _) | [(-> & _) | (_ & _ & _ & Hm & Hl & _)]]]; auto.
Qed.

(** [add_episodes] on an id that SQLite can hold: a missing Media is
    answered 404 and a Media that is not a series 400, and the database
    is unchanged in both cases. *)
Lemma add_episodes_checks_media media_id items d :
  fits_int64 media_id = true ->
  (lookup_media d media_id = None ->
   add_episodes media_id (JArr items) d = (Reply 404 (BError msg_not_found), d)) /\
  (forall m,
      lookup_media d media_id = Some m ->
      sv_is_text (m_type m) "tvseries" = false ->
      add_episodes media_id (JArr items) d = (Reply 400 (BError msg_not_series), d)).
Proof.
  intros Hfits.
  pose proof (add_episodes_post media_id items d) as Hpost.
  destruct (add_episodes media_id (JArr items) d) as [o d']. simpl in Hpost.
  split.
  - intros Hnone.
    destruct Hpost as [(_ & _ & [Hbig | (m & Hm & _)]) |
                       [(-> & -> & _) |
                        [(_ & _ & _ & m & Hm & _) | (_ & _ & (m & Hm & _) & _)]]];
      congruence.
  - intros m Hm Htype.
    destruct Hpost as [(_ & _ & [Hbig | (m' & Hm' & Ht')]) |
                       [(_ & _ & _ & Hnone) |
                        [(-> & -> & _) | (_ & _ & (m' & Hm' & Ht') & _)]]];
      congruence.
Qed.

(** C3, at an id beyond SQLite's integers: no Media row can have the id
    [2^63], yet the answer is 500, not 404: binding the id to the
    [SELECT] raises [OverflowError] inside the [try] block. *)
Theorem add_episodes_oversized_id items d :
  lookup_media empty_db (2 ^ 63) = None /\
  add_episodes (2 ^ 63) (JArr items) d = (Reply 500 (BException OverflowError), d).
Proof. split; reflexivity. Qed.

(** C7, as the code has it: a body that is not a list is answered 400
    with the expected-array message; an empty list for an existing series
    is accepted, with 201, a count of 0 and the database unchanged; and
    every 201 answer reports the length of the list, which is the number
    of rows appended to [tv_episodes]. *)
Theorem add_episodes_array_and_count media_id data d :
  ((forall items, data <> JArr items) ->
   add_episodes media_id data d = (Reply 400 (BError msg_expected_array), d)) /\
  (fits_int64 media_id = true -> is_series d media_id ->
   add_episodes media_id (JArr []) d = (Reply 201 (BEpisodesAdded 0), d)) /\
  (forall items,
      data = JArr items ->
      status_of (fst (add_episodes media_id data d)) = 201 ->
      fst (add_episodes media_id data d)
        = Reply 201 (BEpisodesAdded (List.length items)) /\
      exists rows,
        tv_episodes (snd (add_episodes media_id data d)) = tv_episodes d ++ rows /\
        List.length rows = List.length items).
Proof.
  split; [apply add_episodes_not_list |]. split.
  - intros Hfits (m & Hm & Htype).
    unfold add_episodes, serve, try_except, with_get_db, add_episodes_tx,
      select_media, bind, lift, query, bind_int.
    rewrite Hfits. simpl. unfold lookup_media in Hm. rewrite Hm, Htype. simpl.
    destruct d; reflexivity.
  - intros items -> Hstatus.
    destruct (add_episodes_post media_id items d)
      as [(_ & (e & He) & _) | [(_ & He & _) | [(_ & He & _) |
          (He & _ & _ & _ & _ & _ & rows & Hrows & Hall & _)]]];
      try (rewrite He in Hstatus; discriminate).
    split; [exact He |]. exists rows. split; [exact Hrows |].
    symmetry. eapply Forall2_length. exact Hall.
Qed.

(** ** Read views leave the database alone *)

Lemma get_all_media_db d : snd (get_all_media d) = d.
Proof. reflexivity. Qed.

Lemma get_media_db media_id d : snd (get_media media_id d) = d.
Proof.
  unfold get_media, serve, with_get_db, select_media, select_links,
    select_episodes, bind, lift, query, bind_int.
  destruct (fits_int64 media_id); [| reflexivity]. simpl.
  destruct (find _ (media d)) as [m |]; [| reflexivity].
  destruct (sv_is_text (m_type m) "movie"); reflexivity.
Qed.

(** C9, as the code has it: the [NOT NULL] columns are all the schema
    asks of an episode.  If every stored episode has a [season_number],
    an [episode_number] and a [video_link] that are not NULL, the same
    holds after any request to any of the four views. *)
Theorem episode_columns_not_null d :
  Forall episode_not_null (tv_episodes d) ->
  (forall now data,
      Forall episode_not_null (tv_episodes (snd (add_media now data d)))) /\
  (forall media_id data,
      Forall episode_not_null (tv_episodes (snd (add_episodes media_id data d)))) /\
  (forall media_id,
      Forall episode_not_null (tv_episodes (snd (get_media media_id d)))) /\
  Forall episode_not_null (tv_episodes (snd (get_all_media d))).
Proof.
  intros Hd. repeat split.
  - intros now data.
    destruct (add_media_post now data d) as [(-> & _) | Hc]; [exact Hd |].
    destruct Hc as (mrow & links & eps & _ & Hc).
    unfold media_committed in Hc.
    destruct Hc as (_ & _ & -> & _ & _ & _ & _ & _ & _ & Hnn).
    apply Forall_app. auto.
  - intros media_id data.
    destruct data as [| b | z | r | s | items | kv]; try exact Hd.
    destruct (add_episodes_post media_id items d)
      as [(-> & _) | [(-> & _) | [(-> & _) |
          (_ & _ & _ & _ & _ & _ & rows & -> & _ & Hnn)]]]; try exact Hd.
    apply Forall_app. auto.
  - intros media_id. rewrite get_media_db. exact Hd.
  - exact Hd.
Qed.

(** ** Requests with a child that lacks a required key *)

Lemma store_episode_raises media_id episode c :
  lacks_episode_field episode ->
  wp (store_episode media_id episode) (fun r _ => exists e, r = Err e) c.
Proof.
  intros (items & -> & Hlack).
  apply wp_store_episode; [eauto |].
  intros row (_ & s & n & t & v & s' & n' & t' & v' & Hs & Hn & _ & Hv & _) _ _ _.
  simpl in Hs, Hn, Hv.
  destruct Hlack as [H | [H | H]]; rewrite H in *; discriminate.
Qed.

Lemma store_link_raises media_id link c :
  lacks_link_field link ->
  wp (store_link media_id link) (fun r _ => exists e, r = Err e) c.
Proof.
  intros (items & -> & Hlack).
  apply wp_store_link; [eauto |].
  intros row (_ & r & v & r' & v' & _ & Hv & _) _ _.
  simpl in Hv. rewrite Hlack in Hv. discriminate.
Qed.

(** If the children of a request raise, the transaction of [add_media]
    raises, and the view answers 500 with the database as before. *)
Lemma add_media_tx_raises now data c :
  (exists ty, py_getitem data "type" = Ok ty /\
              (py_eq_str ty "movie" || py_eq_str ty "tvseries") = true) ->
  (forall media_id c1,
      wp (add_children media_id data) (fun r _ => exists e, r = Err e) c1) ->
  wp (add_media_tx now data) (fun r _ => exists e, r = Err e) c.
Proof.
  intros (ty & Ety & Hty) Hchildren. unfold add_media_tx.
  apply wp_bind_lift. rewrite Ety.
  apply wp_bind_lift. destruct (py_getitem data "title"); [| eauto].
  apply wp_bind_lift. destruct (py_get data "thumbnail_url"); [| eauto].
  apply wp_bind_lift. destruct (py_get data "details"); [| eauto].
  apply wp_bind_lift. destruct (py_get data "release_date"); [| eauto].
  apply wp_bind. apply wp_insert_media; [exact Hty | eauto |].
  intros. apply wp_bind.
  eapply wp_mono; [apply Hchildren |].
  intros [[] | e] c1 (e' & He'); [discriminate | eauto].
Qed.

Lemma add_media_raises now data d :
  py_all_in required_fields data = Ok true ->
  (exists ty, py_getitem data "type" = Ok ty /\
              (py_eq_str ty "movie" || py_eq_str ty "tvseries") = true) ->
  (forall media_id c1,
      wp (add_children media_id data) (fun r _ => exists e, r = Err e) c1) ->
  exists e, add_media now data d = (Reply 500 (BException e), d).
Proof.
  intros Hall (ty & Ety & Hty) Hchildren.
  pose proof (wp_and _ _ _ _
                (add_media_tx_raises now data (get_db d)
                   (ex_intro _ ty (conj Ety Hty)) Hchildren)
                (add_media_tx_post now data (get_db d)
                   (ex_intro _ ty (conj Ety Hty)))) as H.
  unfold add_media, serve, bind, lift. rewrite Hall. simpl. rewrite Ety, Hty. simpl.
  unfold try_except, with_get_db. unfold wp in H.
  destruct (add_media_tx now data (get_db d)) as [[o | e] c]; simpl in *.
  - destruct H as ((e & He) & _). discriminate.
  - destruct H as (_ & ->). eauto.
Qed.

(** If an episode of the list raises, [add_episodes] for an existing
    series answers 500 with the database as before. *)
Lemma add_episodes_raises_on media_id items x d :
  fits_int64 media_id = true ->
  is_series d media_id ->
  In x items ->
  (forall c1, wp (store_episode media_id x) (fun r _ => exists e, r = Err e) c1) ->
  exists e, add_episodes media_id (JArr items) d = (Reply 500 (BException e), d).
Proof.
  intros Hfits (m & Hm & Htype) Hin Hraise.
  pose proof (wp_and _ _ _ _
                (wp_for_each_raises (store_episode media_id) items x (get_db d) Hin
                   Hraise)
                (store_episodes_rows media_id items (get_db d))) as H.
  unfold add_episodes, serve, try_except, with_get_db, add_episodes_tx,
    select_media, bind at 1 2, lift, query, bind_int.
  rewrite Hfits. simpl. unfold lookup_media in Hm. rewrite Hm, Htype. simpl.
  unfold bind at 1. unfold wp in H.
  destruct (for_each items (store_episode media_id) (get_db d)) as [[[] | e] c];
    simpl in *.
  - destruct H as ((e & He) & _). discriminate.
  - destruct H as (_ & Hframe & _). unfold episodes_frame in Hframe. simpl in Hframe.
    injection Hframe as Hstored _ _ _. rewrite Hstored. eauto.
Qed.

Lemma add_episodes_raises media_id items x d :
  fits_int64 media_id = true ->
  is_series d media_id ->
  In x items ->
  lacks_episode_field x ->
  exists e, add_episodes media_id (JArr items) d = (Reply 500 (BException e), d).
Proof.
  intros Hfits Hseries Hin Hlack.
  apply (add_episodes_raises_on media_id items x d Hfits Hseries Hin).
  intros c1. apply store_episode_raises. exact Hlack.
Qed.

Lemma series_children data items :
  py_getitem data "type" = Ok (JStr "tvseries") ->
  py_getitem data "episodes" = Ok (JArr items) ->
  type_is_and_has data "movie" "video_links" = Ok false /\
  type_is_and_has data "tvseries" "episodes" = Ok true /\
  supplied data "tvseries" "episodes" = items /\
  supplied data "movie" "video_links" = [].
Proof.
  intros Hty Heps.
  assert (H1 : type_is_and_has data "movie" "video_links" = Ok false)
    by (unfold type_is_and_has; rewrite Hty; reflexivity).
  assert (H2 : type_is_and_has data "tvseries" "episodes" = Ok true).
  { unfold type_is_and_has. rewrite Hty. simpl.
    destruct data; try discriminate. simpl in *.
    destruct (dict_get "episodes" items0); [reflexivity | discriminate]. }
  repeat split; try assumption.
  - unfold supplied. rewrite H2, Heps. reflexivity.
  - apply supplied_nothing. rewrite H1. discriminate.
Qed.

Lemma movie_children data items :
  py_getitem data "type" = Ok (JStr "movie") ->
  py_getitem data "video_links" = Ok (JArr items) ->
  type_is_and_has data "movie" "video_links" = Ok true /\
  supplied data "movie" "video_links" = items /\
  supplied data "tvseries" "episodes" = [].
Proof.
  intros Hty Hlinks.
  assert (H1 : type_is_and_has data "movie" "video_links" = Ok true).
  { unfold type_is_and_has. rewrite Hty. simpl.
    destruct data; try discriminate. simpl in *.
    destruct (dict_get "video_links" items0); [reflexivity | discriminate]. }
  repeat split; try assumption.
  - unfold supplied. rewrite H1, Hlinks. reflexivity.
  - apply supplied_nothing.
    rewrite (movie_is_not_series _ _ "episodes" H1). discriminate.
Qed.

Lemma required_present items ty title :
  dict_get "type" items = Some ty ->
  dict_get "title" items = Some title ->
  py_all_in required_fields (JObj items) = Ok true.
Proof. intros Hty Htitle. simpl. rewrite Hty, Htitle. reflexivity. Qed.

(** C2, as the code has it: a child object without a required key makes
    the whole request fail with status 500, the status of the catch-all
    handler, and nothing is stored.  This is so for an episode of a
    series and for a link of a movie in [add_media] (when [type] and
    [title] are present), and for an episode sent to [add_episodes] for
    an existing series. *)
Theorem missing_child_key_answers_500 now media_id kv title items x d :
  In x items ->
  (dict_get "type" kv = Some (JStr "tvseries") ->
   dict_get "title" kv = Some title ->
   dict_get "episodes" kv = Some (JArr items) ->
   lacks_episode_field x ->
   exists e, add_media now (JObj kv) d = (Reply 500 (BException e), d)) /\
  (dict_get "type" kv = Some (JStr "movie") ->
   dict_get "title" kv = Some title ->
   dict_get "video_links" kv = Some (JArr items) ->
   lacks_link_field x ->
   exists e, add_media now (JObj kv) d = (Reply 500 (BException e), d)) /\
  (fits_int64 media_id = true ->
   is_series d media_id ->
   lacks_episode_field x ->
   exists e, add_episodes media_id (JArr items) d = (Reply 500 (BException e), d)).
Proof.
  intros Hin. repeat split.
  - intros Hty Htitle Heps Hlack.
    assert (Ety : py_getitem (JObj kv) "type" = Ok (JStr "tvseries"))
      by (simpl; rewrite Hty; reflexivity).
    assert (Eeps : py_getitem (JObj kv) "episodes" = Ok (JArr items))
      by (simpl; rewrite Heps; reflexivity).
    destruct (series_children _ _ Ety Eeps) as (Hmovie & Hseries & _).
    apply add_media_raises.
    + eapply required_present; eassumption.
    + exists (JStr "tvseries"). split; [exact Ety | reflexivity].
    + intros id c1. unfold add_children.
      apply wp_bind_lift. rewrite Hmovie.
      apply wp_bind_lift. rewrite Hseries.
      apply wp_bind_lift. rewrite Eeps.
      apply wp_bind_lift. simpl.
      apply (wp_for_each_raises _ _ x); [exact Hin |].
      intros c2. apply store_episode_raises. exact Hlack.
  - intros Hty Htitle Hlinks Hlack.
    assert (Ety : py_getitem (JObj kv) "type" = Ok (JStr "movie"))
      by (simpl; rewrite Hty; reflexivity).
    assert (Elinks : py_getitem (JObj kv) "video_links" = Ok (JArr items))
      by (simpl; rewrite Hlinks; reflexivity).
    destruct (movie_children _ _ Ety Elinks) as (Hmovie & _).
    apply add_media_raises.
    + eapply required_present; eassumption.
    + exists (JStr "movie"). split; [exact Ety | reflexivity].
    + intros id c1. unfold add_children.
      apply wp_bind_lift. rewrite Hmovie.
      apply wp_bind_lift. rewrite Elinks.
      apply wp_bind_lift. simpl.
      apply (wp_for_each_raises _ _ x); [exact Hin |].
      intros c2. apply store_link_raises. exact Hlack.
  - intros Hfits Hseries Hlack.
    eapply add_episodes_raises; eassumption.
Qed.

(** ** [ORDER BY season_number, episode_number] *)

Lemma insert_sorted_perm x l : Permutation (insert_sorted x l) (x :: l).
Proof.
  induction l as [| y rest IH]; simpl.
  - apply Permutation_refl.
  - destruct (episode_leb x y).
    + apply Permutation_refl.
    + eapply Permutation_trans; [apply perm_skip, IH | apply perm_swap].
Qed.

Lemma order_episodes_perm l : Permutation (order_episodes l) l.
Proof.
  induction l as [| x rest IH]; simpl.
  - constructor.
  - eapply Permutation_trans; [apply insert_sorted_perm | apply perm_skip, IH].
Qed.

Lemma episode_leb_true a b :
  int_keyed a -> int_keyed b -> episode_leb a b = true -> by_season_episode a b.
Proof.
  intros (s1 & n1 & Hs1 & Hn1) (s2 & n2 & Hs2 & Hn2) H.
  exists s1, n1, s2, n2. repeat split; try assumption.
  unfold episode_leb in H. rewrite Hs1, Hn1, Hs2, Hn2 in H. simpl in H.
  destruct (Z.compare_spec s1 s2); [| lia | discriminate].
  destruct (Z.compare_spec n1 n2); [lia | lia | discriminate].
Qed.

Lemma episode_leb_false a b :
  int_keyed a -> int_keyed b -> episode_leb a b = false -> by_season_episode b a.
Proof.
  intros (s1 & n1 & Hs1 & Hn1) (s2 & n2 & Hs2 & Hn2) H.
  exists s2, n2, s1, n1. repeat split; try assumption.
  unfold episode_leb in H. rewrite Hs1, Hn1, Hs2, Hn2 in H. simpl in H.
  destruct (Z.compare_spec s1 s2); [| discriminate | lia].
  destruct (Z.compare_spec n1 n2); [discriminate | discriminate | lia].
Qed.

Lemma by_season_episode_trans a b c :
  by_season_episode a b -> by_season_episode b c -> by_season_episode a c.
Proof.
  intros (s1 & n1 & s2 & n2 & Ha1 & Ha2 & Hb1 & Hb2 & H12)
         (s2' & n2' & s3 & n3 & Hb1' & Hb2' & Hc1 & Hc2 & H23).
  rewrite Hb1 in Hb1'. rewrite Hb2 in Hb2'.
  injection Hb1' as <-. injection Hb2' as <-.
  exists s1, n1, s3, n3. repeat split; try assumption. lia.
Qed.

Lemma insert_sorted_sorted x l :
  int_keyed x -> Forall int_keyed l ->
  StronglySorted by_season_episode l ->
  StronglySorted by_season_episode (insert_sorted x l).
Proof.
  intros Hx. induction l as [| y rest IH]; intros Hkeys Hsorted; simpl.
  - constructor; constructor.
  - inversion Hkeys as [| ? ? Hy Hrest]; subst.
    inversion Hsorted as [| ? ? Hsrest Hyrest]; subst.
    destruct (episode_leb x y) eqn:Hleb.
    + constructor; [exact Hsorted |].
      pose proof (episode_leb_true x y Hx Hy Hleb) as Hxy.
      constructor; [exact Hxy |].
      eapply Forall_impl; [| exact Hyrest].
      intros z Hyz. eapply by_season_episode_trans; eassumption.
    + constructor; [apply IH; assumption |].
      eapply Permutation_Forall;
        [apply Permutation_sym, insert_sorted_perm |].
      constructor; [| exact Hyrest].
      apply episode_leb_false; assumption.
Qed.

Lemma order_episodes_sorted l :
  Forall int_keyed l -> StronglySorted by_season_episode (order_episodes l).
Proof.
  induction l as [| x rest IH]; intros Hkeys; simpl.
  - constructor.
  - inversion Hkeys as [| ? ? Hx Hrest]; subst.
    apply insert_sorted_sorted; [exact Hx | | apply IH; exact Hrest].
    eapply Permutation_Forall;
      [apply Permutation_sym, order_episodes_perm | exact Hrest].
Qed.

(** ** Requests that succeed *)

Lemma add_media_tx_succeeds now data c :
  (exists ty, py_getitem data "type" = Ok ty /\
              (py_eq_str ty "movie" || py_eq_str ty "tvseries") = true) ->
  media_storable data ->
  media_room (pending c) 1 ->
  0 <= seq_media (pending c) ->
  (forall media_id c1,
      fits_int64 media_id = true ->
      children_frame c1 = children_frame c ->
      wp (add_children media_id data) (fun r _ => r = Ok tt) c1) ->
  wp (add_media_tx now data) (fun r _ => exists o, r = Ok o) c.
Proof.
  intros (ty & Ety & Hty)
         (title & thumb & details & rdate & Etitle & Ethumb & Edetails & Erdate &
          Htitle & Hthumb & Hdetails & Hrdate) Hroom Hseq Hchildren.
  unfold add_media_tx.
  apply wp_bind_lift. rewrite Ety.
  apply wp_bind_lift. rewrite Etitle.
  apply wp_bind_lift. rewrite Ethumb.
  apply wp_bind_lift. rewrite Edetails.
  apply wp_bind_lift. rewrite Erdate.
  apply wp_bind. apply wp_insert_media; [exact Hty | |].
  - intros e Hbad. exfalso. apply Hbad. auto.
  - intros ty' title' thumb' details' rdate' row _ _ _ _ _ -> Hmax.
    apply wp_bind. simpl in Hmax.
    eapply wp_mono; [apply Hchildren |].
    + apply fits_int64_iff. simpl.
      pose proof (last_rowid_seq (seq_media (pending c)) (map m_id (media (pending c)))).
      unfold min_int64. lia.
    + reflexivity.
    + intros r c1 ->. apply wp_bind, wp_commit. apply wp_ret. eauto.
Qed.

Lemma add_media_succeeds now data d :
  py_all_in required_fields data = Ok true ->
  (exists ty, py_getitem data "type" = Ok ty /\
              (py_eq_str ty "movie" || py_eq_str ty "tvseries") = true) ->
  media_storable data ->
  media_room d 1 ->
  0 <= seq_media d ->
  (forall media_id c1,
      fits_int64 media_id = true ->
      children_frame c1 = children_frame (get_db d) ->
      wp (add_children media_id data) (fun r _ => r = Ok tt) c1) ->
  exists d' mrow links eps,
    add_media now data d = (Reply 201 (BCreated (m_id mrow)), d') /\
    media_committed now data d d' mrow links eps.
Proof.
  intros Hall (ty & Ety & Hty) Hmedia Hroom Hseq Hchildren.
  pose proof (wp_and _ _ _ _
                (add_media_tx_succeeds now data (get_db d)
                   (ex_intro _ ty (conj Ety Hty)) Hmedia Hroom Hseq Hchildren)
                (add_media_tx_post now data (get_db d)
                   (ex_intro _ ty (conj Ety Hty)))) as H.
  unfold add_media, serve, bind, lift. rewrite Hall. simpl. rewrite Ety, Hty. simpl.
  unfold try_except, with_get_db. unfold wp in H.
  destruct (add_media_tx now data (get_db d)) as [[o | e] c]; simpl in *.
  - destruct H as (_ & _ & mrow & links & eps & -> & Hc).
    exists (pending c), mrow, links, eps. split; [reflexivity | exact Hc].
  - destruct H as ((o & Ho) & _). discriminate.
Qed.

Lemma Forall2_nil_left {A B : Type} (P : A -> B -> Prop) l :
  Forall2 P [] l -> l = [].
Proof. intros H. inversion H. reflexivity. Qed.

(** C8: a child array that does not match the type is ignored.  Take a
    payload whose Media fields can be stored: a [title] that sqlite3 can
    bind and that is not NULL, and optional fields that it can bind,
    which leaves out a string with a lone surrogate.  For a series that
    sends [video_links] and no [episodes], and for a movie that sends
    [episodes] and no [video_links], the request succeeds, one Media row
    is appended and both child tables are as before.  Whatever else the
    request holds, a series never adds a row to [movie_links] and a movie
    never adds one to [tv_episodes]. *)
Theorem mismatched_children_ignored now kv v d :
  db_consistent d ->
  media_room d 1 ->
  media_storable (JObj kv) ->
  (dict_get "type" kv = Some (JStr "tvseries") ->
   dict_get "video_links" kv = Some v ->
   dict_get "episodes" kv = None ->
   exists d' mrow,
     add_media now (JObj kv) d = (Reply 201 (BCreated (m_id mrow)), d') /\
     media d' = media d ++ [mrow] /\
     movie_links d' = movie_links d /\
     tv_episodes d' = tv_episodes d) /\
  (dict_get "type" kv = Some (JStr "movie") ->
   dict_get "episodes" kv = Some v ->
   dict_get "video_links" kv = None ->
   exists d' mrow,
     add_media now (JObj kv) d = (Reply 201 (BCreated (m_id mrow)), d') /\
     media d' = media d ++ [mrow] /\
     movie_links d' = movie_links d /\
     tv_episodes d' = tv_episodes d) /\
  (dict_get "type" kv = Some (JStr "tvseries") ->
   movie_links (snd (add_media now (JObj kv) d)) = movie_links d) /\
  (dict_get "type" kv = Some (JStr "movie") ->
   tv_episodes (snd (add_media now (JObj kv) d)) = tv_episodes d).
Proof.
  intros (_ & _ & Hseq) Hroom Hmedia.
  assert (Htitle : exists title, dict_get "title" kv = Some title).
  { destruct Hmedia as (title & _ & _ & _ & Et & _).
    apply py_getitem_obj in Et. destruct Et as (items & Heq & Et).
    injection Heq as <-. eauto. }
  destruct Htitle as (title & Htitle).
  assert (Hignored :
            forall lit,
              (lit = "movie" \/ lit = "tvseries") ->
              dict_get "type" kv = Some (JStr lit) ->
              type_is_and_has (JObj kv) "movie" "video_links" <> Ok true ->
              type_is_and_has (JObj kv) "tvseries" "episodes" <> Ok true ->
              (forall media_id c1,
                  wp (add_children media_id (JObj kv)) (fun r _ => r = Ok tt) c1) ->
              exists d' mrow,
                add_media now (JObj kv) d = (Reply 201 (BCreated (m_id mrow)), d') /\
                media d' = media d ++ [mrow] /\
                movie_links d' = movie_links d /\
                tv_episodes d' = tv_episodes d).
  { intros lit Hlit Hty Hm Hs Hchildren.
    destruct (add_media_succeeds now (JObj kv) d) as (d' & mrow & links & eps & Hadd & Hc);
      try assumption.
    - eapply required_present; eassumption.
    - exists (JStr lit). simpl. rewrite Hty. split; [reflexivity |].
      destruct Hlit as [-> | ->]; reflexivity.
    - intros media_id c1 _ _. apply Hchildren.
    - exists d', mrow. split; [exact Hadd |].
      unfold media_committed in Hc.
      destruct Hc as (Hm' & Hl & He & _ & _ & _ & _ & Hfl & Hfe & _).
      rewrite (supplied_nothing _ _ _ Hm) in Hfl.
      rewrite (supplied_nothing _ _ _ Hs) in Hfe.
      apply Forall2_nil_left in Hfl. apply Forall2_nil_left in Hfe. subst.
      rewrite app_nil_r in *. auto. }
  repeat split.
  - intros Hty Hlinks Heps.
    apply (Hignored "tvseries"); auto.
    + unfold type_is_and_has. simpl. rewrite Hty. discriminate.
    + unfold type_is_and_has. simpl. rewrite Hty. simpl. rewrite Heps. discriminate.
    + intros media_id c1.
      unfold add_children, type_is_and_has. simpl. rewrite Hty. simpl.
      rewrite Heps. apply wp_bind_lift. apply wp_bind_lift. apply wp_ret. reflexivity.
  - intros Hty Heps Hlinks.
    apply (Hignored "movie"); auto.
    + unfold type_is_and_has. simpl. rewrite Hty. simpl. rewrite Hlinks. discriminate.
    + unfold type_is_and_has. simpl. rewrite Hty. discriminate.
    + intros media_id c1.
      unfold add_children, type_is_and_has. simpl. rewrite Hty. simpl.
      rewrite Hlinks. apply wp_bind_lift. apply wp_bind_lift. apply wp_ret. reflexivity.
  - intros Hty.
    destruct (add_media_post now (JObj kv) d) as [(-> & _) | Hc]; [reflexivity |].
    destruct Hc as (mrow & links & eps & _ & Hc). unfold media_committed in Hc.
    destruct Hc as (_ & -> & _ & _ & _ & _ & _ & Hfl & _).
    rewrite supplied_nothing in Hfl
      by (unfold type_is_and_has; simpl; rewrite Hty; discriminate).
    apply Forall2_nil_left in Hfl. subst. apply app_nil_r.
  - intros Hty.
    destruct (add_media_post now (JObj kv) d) as [(-> & _) | Hc]; [reflexivity |].
    destruct Hc as (mrow & links & eps & _ & Hc). unfold media_committed in Hc.
    destruct Hc as (_ & _ & -> & _ & _ & _ & _ & _ & Hfe & _).
    rewrite supplied_nothing in Hfe
      by (unfold type_is_and_has; simpl; rewrite Hty; discriminate).
    apply Forall2_nil_left in Hfe. subst. apply app_nil_r.
Qed.

(** ** Reading back a Media that was just added *)

Lemma find_fresh (f : media_row -> bool) l x :
  (forall y, In y l -> f y = false) -> f x = true -> find f (l ++ [x]) = Some x.
Proof.
  intros Hl Hx. induction l as [| y rest IH]; simpl.
  - rewrite Hx. reflexivity.
  - rewrite (Hl y) by (left; reflexivity).
    apply IH. intros z Hz. apply Hl. right. exact Hz.
Qed.

Lemma filter_none {A : Type} (f : A -> bool) l :
  (forall x, In x l -> f x = false) -> filter f l = [].
Proof.
  induction l as [| x rest IH]; intros H; simpl; [reflexivity |].
  rewrite (H x) by (left; reflexivity).
  apply IH. intros y Hy. apply H. right. exact Hy.
Qed.

Lemma filter_all {A : Type} (f : A -> bool) l :
  (forall x, In x l -> f x = true) -> filter f l = l.
Proof.
  induction l as [| x rest IH]; intros H; simpl; [reflexivity |].
  rewrite (H x) by (left; reflexivity).
  f_equal. apply IH. intros y Hy. apply H. right. exact Hy.
Qed.

Lemma Forall2_right {A B : Type} (P : A -> B -> Prop) (Q : B -> Prop) l l' :
  Forall2 P l l' -> (forall a b, P a b -> Q b) -> Forall Q l'.
Proof.
  intros H HPQ. induction H; constructor; eauto.
Qed.

(** The id [add_media] has given the new row is one no row used. *)
Lemma new_id_unused d media_id :
  media_id = last_rowid (seq_media d) (map m_id (media d)) + 1 ->
  forall i, In i (map m_id (media d)) -> (i =? media_id) = false.
Proof.
  intros -> i Hi. apply Z.eqb_neq.
  pose proof (last_rowid_ids (seq_media d) _ i Hi). lia.
Qed.

(** After a committed [add_media], the new id finds the new row, and
    the only children found under it are the rows just added. *)
Lemma committed_lookup now data d d' mrow links eps :
  db_consistent d ->
  media_committed now data d d' mrow links eps ->
  fits_int64 (m_id mrow) = true /\
  lookup_media d' (m_id mrow) = Some mrow /\
  filter (fun l => l_movie_id l =? m_id mrow) (movie_links d') = links /\
  filter (fun e => e_series_id e =? m_id mrow) (tv_episodes d') = eps.
Proof.
  intros (Hlinks & Heps & Hseq)
         (Hm & Hl & He & _ & Hid & Hmax & _ & Hfl & Hfe & _).
  pose proof (new_id_unused d (m_id mrow) Hid) as Hunused.
  split; [| split; [| split]].
  - apply fits_int64_iff.
    pose proof (last_rowid_seq (seq_media d) (map m_id (media d))).
    unfold min_int64. lia.
  - unfold lookup_media. rewrite Hm. apply find_fresh.
    + intros y Hy. apply Hunused. apply in_map. exact Hy.
    + apply Z.eqb_refl.
  - rewrite Hl, filter_app, filter_none, filter_all; [reflexivity | |].
    + apply Forall_forall.
      eapply Forall2_right; [exact Hfl |].
      intros a b (Hb & _). rewrite Hb. apply Z.eqb_refl.
    + intros l Hin. apply Hunused.
      rewrite Forall_forall in Hlinks. apply Hlinks. exact Hin.
  - rewrite He, filter_app, filter_none, filter_all; [reflexivity | |].
    + apply Forall_forall.
      eapply Forall2_right; [exact Hfe |].
      intros a b (Hb & _). rewrite Hb. apply Z.eqb_refl.
    + intros e Hin. apply Hunused.
      rewrite Forall_forall in Heps. apply Heps. exact Hin.
Qed.

Lemma get_media_movie d media_id m :
  fits_int64 media_id = true ->
  lookup_media d media_id = Some m ->
  sv_is_text (m_type m) "movie" = true ->
  get_media media_id d
  = (Reply 200 (BMedia
       (flat_fields m ++
        [("video_links",
          FRows (map link_fields
                     (filter (fun l => l_movie_id l =? media_id) (movie_links d))))])),
     d).
Proof.
  intros Hfits Hm Htype.
  unfold get_media, serve, with_get_db, select_media, select_links,
    bind, lift, query, bind_int.
  rewrite Hfits. simpl. unfold lookup_media in Hm. rewrite Hm, Htype.
  reflexivity.
Qed.

Lemma get_media_series d media_id m :
  fits_int64 media_id = true ->
  lookup_media d media_id = Some m ->
  sv_is_text (m_type m) "movie" = false ->
  get_media media_id d
  = (Reply 200 (BMedia
       (flat_fields m ++
        [("episodes",
          FRows (map episode_fields
                     (order_episodes
                        (filter (fun e => e_series_id e =? media_id)
                                (tv_episodes d)))))])),
     d).
Proof.
  intros Hfits Hm Htype.
  unfold get_media, serve, with_get_db, select_media, select_episodes,
    bind, lift, query, bind_int.
  rewrite Hfits. simpl. unfold lookup_media in Hm. rewrite Hm, Htype.
  reflexivity.
Qed.

Lemma stored_type now data mrow lit :
  py_getitem data "type" = Ok (JStr lit) ->
  stores_media now data mrow ->
  m_type mrow = SText lit.
Proof.
  intros Hty (ty & title & thumb & details & rdate & ty' & title' & thumb' &
              details' & rdate' & Ety & _ & _ & _ & _ & Hb & _ & _ & _ & _ & Ht & _).
  rewrite Hty in Ety. injection Ety as <-.
  apply bind_param_str in Hb. destruct Hb as (-> & _).
  exact Ht.
Qed.

Lemma optional_text_storable v : optional_text v = true -> storable v = true.
Proof.
  destruct v as [| b | z | r | s | l | kv]; simpl; try discriminate; [reflexivity |].
  intros H. apply negb_true_iff in H.
  unfold storable. rewrite (bind_param_text s H). reflexivity.
Qed.

(** What is stored of an optional text is the text, or NULL. *)
Lemma optional_text_stored v v' :
  optional_text v = true ->
  bind_param v = Ok v' ->
  text_affinity v' = match v with JStr s => SText s | _ => SNull end.
Proof.
  destruct v as [| b | z | r | s | l | kv]; simpl optional_text; try discriminate.
  - intros _ H. injection H as <-. reflexivity.
  - intros _ H. apply bind_param_str in H. destruct H as (-> & _). reflexivity.
Qed.

Lemma valid_link_storable link : valid_link link -> link_storable link.
Proof.
  intros (resolution & url & Hr & Hopt & Hv & Hurl).
  exists resolution, (JStr url). repeat split; try assumption.
  - apply optional_text_storable. exact Hopt.
  - unfold storable_not_null. rewrite (bind_param_text url Hurl). reflexivity.
Qed.

Lemma stored_pairs media_id items rows :
  Forall valid_link items ->
  Forall2 (stores_link media_id) items rows ->
  map link_fields rows = map submitted_pair items.
Proof.
  intros Hvalid Hrows. induction Hrows as [| link row items rows Hrow _ IH]; simpl.
  - reflexivity.
  - inversion Hvalid as [| ? ? Hlink Hrest]; subst.
    rewrite (IH Hrest). f_equal.
    destruct Hlink as (resolution & url & Hr & Hopt & Hv & _).
    destruct Hrow as (_ & r & v & r' & v' & Er & Ev & Hbr & Hbv & Hlr & Hlv).
    unfold link_fields, submitted_pair. rewrite Hlr, Hlv, Hr, Hv.
    rewrite Hr in Er. injection Er as <-. rewrite Hv in Ev. injection Ev as <-.
    apply bind_param_str in Hbv. destruct Hbv as (-> & _).
    rewrite (optional_text_stored _ _ Hopt Hbr).
    destruct resolution; reflexivity.
Qed.

(** C5: a valid movie payload with its links is read back as sent.
    The payload is valid when its Media fields can be stored and every
    link has a [video_link] that is a string and a [resolution] that is a
    string, [null] or absent, the strings being well-formed Unicode (no
    lone surrogate, which sqlite3 cannot encode).  When the tables have
    room, [add_media] answers 201 with an id, and [get_media] on that id
    answers 200 with the seven flat fields of the stored Media row
    followed by [video_links], which holds one entry per submitted link,
    in order, each the submitted pair; there is no [episodes] key. *)
Theorem movie_round_trip now kv links d :
  db_consistent d ->
  media_room d 1 ->
  links_room d (List.length links) ->
  dict_get "type" kv = Some (JStr "movie") ->
  media_storable (JObj kv) ->
  dict_get "video_links" kv = Some (JArr links) ->
  Forall valid_link links ->
  exists d' mrow rows,
    add_media now (JObj kv) d = (Reply 201 (BCreated (m_id mrow)), d') /\
    stores_media now (JObj kv) mrow /\
    get_media (m_id mrow) d'
    = (Reply 200 (BMedia (flat_fields mrow ++ [("video_links", FRows rows)])), d') /\
    rows = map submitted_pair links /\
    List.length rows = List.length links /\
    dict_get "episodes" (flat_fields mrow ++ [("video_links", FRows rows)]) = None.
Proof.
  intros Hd Hroom Hlroom Hty Hmedia Hlinks Hvalid.
  assert (Ety : py_getitem (JObj kv) "type" = Ok (JStr "movie"))
    by (simpl; rewrite Hty; reflexivity).
  assert (Elinks : py_getitem (JObj kv) "video_links" = Ok (JArr links))
    by (simpl; rewrite Hlinks; reflexivity).
  destruct (movie_children _ _ Ety Elinks) as (Hmovie & Hsupplied & _).
  destruct (add_media_succeeds now (JObj kv) d)
    as (d' & mrow & lrows & eps & Hadd & Hc); try assumption.
  - destruct Hmedia as (title & _ & _ & _ & Et & _).
    apply py_getitem_obj in Et. destruct Et as (items & Heq & Et).
    injection Heq as <-. eapply required_present; eassumption.
  - exists (JStr "movie"). split; [exact Ety | reflexivity].
  - apply Hd.
  - intros media_id c1 Hfits Hframe. unfold add_children.
    apply wp_bind_lift. rewrite Hmovie.
    apply wp_bind_lift. rewrite Elinks.
    apply wp_bind_lift. simpl.
    apply store_links_succeed; [exact Hfits | |].
    + eapply Forall_impl; [| exact Hvalid]. apply valid_link_storable.
    + unfold children_frame in Hframe. simpl in Hframe.
      injection Hframe as Hl Hs _ _. unfold links_room. rewrite Hl, Hs. exact Hlroom.
  - destruct (committed_lookup _ _ _ _ _ _ _ Hd Hc) as (Hfits & Hlook & Hfilter & _).
    pose proof Hc as (_ & _ & _ & _ & _ & _ & Hstores & Hfl & _).
    rewrite Hsupplied in Hfl.
    exists d', mrow, (map submitted_pair links).
    split; [exact Hadd |]. split; [exact Hstores |]. split.
    + rewrite (get_media_movie d' (m_id mrow) mrow Hfits Hlook).
      * rewrite Hfilter, (stored_pairs _ _ _ Hvalid Hfl). reflexivity.
      * rewrite (stored_type now (JObj kv) mrow "movie" Ety Hstores). reflexivity.
    + split; [reflexivity |]. split; [apply length_map | reflexivity].
Qed.

Lemma bind_param_int z v : bind_param (JInt z) = Ok v -> v = SInt z.
Proof.
  simpl. unfold bind_int. destruct (fits_int64 z); intros H; inversion H.
  reflexivity.
Qed.

Lemma positive_integer_numbers episode :
  positive_numbers episode -> integer_numbers episode.
Proof. intros (season & number & Hs & Hn & _). exists season, number. auto. Qed.

Lemma stored_integer_keys media_id episode row :
  integer_numbers episode ->
  stores_episode media_id episode row ->
  int_keyed row.
Proof.
  intros Hint Hrow. destruct Hint as (season & number & Hs & Hn).
  destruct Hrow
    as (_ & s & n & t & v & s' & n' & t' & v' & Es & En & _ & _ & Hbs & Hbn & _ & _ &
        Hrs & Hrn & _).
  rewrite Hs in Es. injection Es as <-. rewrite Hn in En. injection En as <-.
  apply bind_param_int in Hbs. apply bind_param_int in Hbn. subst.
  exists season, number. auto.
Qed.

Lemma stored_all_integer_keys media_id items rows :
  Forall integer_numbers items ->
  Forall2 (stores_episode media_id) items rows ->
  Forall int_keyed rows.
Proof.
  intros Hitems Hrows. induction Hrows as [| x row xs rows Hrow _ IH].
  - constructor.
  - inversion Hitems; subst. constructor; [| auto].
    eapply stored_integer_keys; eassumption.
Qed.

(** The entries read back for stored episodes with integer numbers and
    text fields are the episodes as they were submitted. *)
Lemma stored_entries media_id items rows :
  Forall integer_numbers items ->
  Forall episode_text items ->
  Forall2 (stores_episode media_id) items rows ->
  map episode_fields rows = map submitted_episode items.
Proof.
  intros Hint Htext Hrows.
  induction Hrows as [| x row xs rows Hrow _ IH]; simpl; [reflexivity |].
  inversion Hint as [| ? ? Hx Hxs]; subst.
  inversion Htext as [| ? ? Tx Txs]; subst.
  rewrite (IH Hxs Txs). f_equal.
  destruct Hx as (season & number & Hs & Hn).
  destruct Tx as (title & url & Ht & Hopt & Hv).
  destruct Hrow
    as (_ & s & n & t & v & s' & n' & t' & v' & Es & En & Et & Ev &
        Hbs & Hbn & Hbt & Hbv & Hrs & Hrn & Hrt & Hrv).
  rewrite Hs in Es. injection Es as <-. rewrite Hn in En. injection En as <-.
  rewrite Ht in Et. injection Et as <-. rewrite Hv in Ev. injection Ev as <-.
  apply bind_param_int in Hbs. apply bind_param_int in Hbn.
  apply bind_param_str in Hbv. destruct Hbv as (Hbv & _). subst.
  unfold episode_fields, submitted_episode.
  rewrite Hrs, Hrn, Hrt, Hrv, Hs, Hn, Ht, Hv.
  rewrite (optional_text_stored _ _ Hopt Hbt).
  destruct title; reflexivity.
Qed.

Lemma ascending_fields a b :
  by_season_episode a b -> ascending (episode_fields a) (episode_fields b).
Proof.
  intros (s1 & n1 & s2 & n2 & Ha1 & Ha2 & Hb1 & Hb2 & H).
  exists s1, n1, s2, n2. simpl. rewrite Ha1, Ha2, Hb1, Hb2. auto.
Qed.

Lemma sorted_map {A B : Type} (lt : A -> A -> Prop) (lt' : B -> B -> Prop)
      (f : A -> B) l :
  (forall a b, lt a b -> lt' (f a) (f b)) ->
  StronglySorted lt l -> StronglySorted lt' (map f l).
Proof.
  intros H Hs. induction Hs as [| x l _ IH Hx]; simpl; constructor; [exact IH |].
  apply Forall_map. eapply Forall_impl; [| exact Hx]. intros y. apply H.
Qed.

Lemma sorted_entries rows :
  Forall int_keyed rows ->
  StronglySorted by_season_episode (order_episodes rows) /\
  StronglySorted ascending (map episode_fields (order_episodes rows)).
Proof.
  intros Hkeys. pose proof (order_episodes_sorted rows Hkeys) as Hs.
  split; [exact Hs |].
  eapply sorted_map; [| exact Hs]. apply ascending_fields.
Qed.

(** C4: a series created with N episodes whose season and episode
    numbers are positive integers is read back with exactly N entries
    under [episodes], after the seven flat fields of the Media row and
    without a [video_links] key.  Each entry holds the four fields of one
    stored episode, the entries are in ascending order of
    [(season_number, episode_number)] whatever the order the episodes
    were sent in, and the stored episodes are those of the request, one
    per element.  When titles and links are text, the entries are the
    submitted episodes themselves, rearranged. *)
Theorem series_episodes_sorted now data items media_id d d' :
  db_consistent d ->
  py_getitem data "type" = Ok (JStr "tvseries") ->
  py_getitem data "episodes" = Ok (JArr items) ->
  Forall positive_numbers items ->
  add_media now data d = (Reply 201 (BCreated media_id), d') ->
  exists mrow entries rows stored_rows,
    m_id mrow = media_id /\
    stores_media now data mrow /\
    get_media media_id d'
    = (Reply 200 (BMedia (flat_fields mrow ++ [("episodes", FRows entries)])), d') /\
    List.length entries = List.length items /\
    StronglySorted ascending entries /\
    entries = map episode_fields rows /\
    StronglySorted by_season_episode rows /\
    Permutation rows stored_rows /\
    Forall2 (stores_episode media_id) items stored_rows /\
    (Forall episode_text items ->
     Permutation entries (map submitted_episode items)) /\
    dict_get "video_links" (flat_fields mrow ++ [("episodes", FRows entries)]) = None.
Proof.
  intros Hd Ety Eeps Hvalid Hadd.
  destruct (series_children _ _ Ety Eeps) as (_ & _ & Hsupplied & _).
  destruct (add_media_created _ _ _ _ _ Hadd) as (mrow & links & eps & Hid & Hc).
  destruct (committed_lookup _ _ _ _ _ _ _ Hd Hc) as (Hfits & Hlook & _ & Hfilter).
  pose proof Hc as (_ & _ & _ & _ & _ & _ & Hstores & _ & Hfe & _).
  rewrite Hsupplied, Hid in Hfe. rewrite Hid in Hfits, Hlook, Hfilter.
  assert (Hint : Forall integer_numbers items)
    by (eapply Forall_impl; [apply positive_integer_numbers | exact Hvalid]).
  pose proof (stored_all_integer_keys _ _ _ Hint Hfe) as Hkeys.
  destruct (sorted_entries eps Hkeys) as (Hsorted & Hascending).
  exists mrow, (map episode_fields (order_episodes eps)), (order_episodes eps), eps.
  split; [exact Hid |]. split; [exact Hstores |]. split.
  - rewrite (get_media_series d' media_id mrow Hfits Hlook).
    + rewrite Hfilter. reflexivity.
    + rewrite (stored_type now data mrow "tvseries" Ety Hstores). reflexivity.
  - split.
    + rewrite length_map, (Permutation_length (order_episodes_perm eps)).
      symmetry. eapply Forall2_length. exact Hfe.
    + split; [exact Hascending |]. split; [reflexivity |].
      split; [exact Hsorted |].
      split; [apply order_episodes_perm |].
      split; [exact Hfe |].
      split; [| reflexivity].
      intros Htext. rewrite <- (stored_entries _ _ _ Hint Htext Hfe).
      apply Permutation_map, order_episodes_perm.
Qed.

(** ** Referential integrity is an invariant *)

Lemma stored_owner_link media_id items rows :
  Forall2 (stores_link media_id) items rows ->
  Forall (fun l => l_movie_id l = media_id) rows.
Proof.
  intros H. eapply Forall2_right; [exact H |]. intros a b (Hb & _). exact Hb.
Qed.

Lemma stored_owner_episode media_id items rows :
  Forall2 (stores_episode media_id) items rows ->
  Forall (fun e => e_series_id e = media_id) rows.
Proof.
  intros H. eapply Forall2_right; [exact H |]. intros a b (Hb & _). exact Hb.
Qed.

Lemma lookup_media_in d media_id m :
  lookup_media d media_id = Some m -> In media_id (map m_id (media d)).
Proof.
  unfold lookup_media. intros H. apply find_some in H. destruct H as (Hin & Heq).
  apply Z.eqb_eq in Heq. subst. apply in_map. exact Hin.
Qed.

(** The database is consistent when the service starts on no file, and
    every view keeps it so. *)
Lemma db_consistent_invariant :
  db_consistent (init_db None) /\
  forall d,
    db_consistent d ->
    (forall now data, db_consistent (snd (add_media now data d))) /\
    (forall media_id data, db_consistent (snd (add_episodes media_id data d))) /\
    (forall media_id, db_consistent (snd (get_media media_id d))) /\
    db_consistent (snd (get_all_media d)).
Proof.
  split; [repeat split; simpl; try constructor; lia |].
  intros d Hd. repeat split; try (rewrite ?get_media_db; apply Hd).
  - destruct (add_media_post now data d) as [(-> & _) | Hc]; [apply Hd |].
    destruct Hc as (mrow & links & eps & _ & Hm & Hl & He & _ & _ & _ & _ & Hfl & _).
    destruct Hd as (Hlinks & _).
    rewrite Hl, Hm, map_app. apply Forall_app. split.
    + eapply Forall_impl; [| exact Hlinks].
      intros l Hin. apply in_or_app. left. exact Hin.
    + eapply Forall_impl; [| apply (stored_owner_link _ _ _ Hfl)].
      intros l ->. apply in_or_app. right. left. reflexivity.
  - destruct (add_media_post now data d) as [(-> & _) | Hc]; [apply Hd |].
    destruct Hc as (mrow & links & eps & _ & Hm & Hl & He & _ & _ & _ & _ & _ & Hfe & _).
    destruct Hd as (_ & Heps & _).
    rewrite He, Hm, map_app. apply Forall_app. split.
    + eapply Forall_impl; [| exact Heps].
      intros e Hin. apply in_or_app. left. exact Hin.
    + eapply Forall_impl; [| apply (stored_owner_episode _ _ _ Hfe)].
      intros e ->. apply in_or_app. right. left. reflexivity.
  - destruct (add_media_post now data d) as [(-> & _) | Hc]; [apply Hd |].
    destruct Hc as (mrow & links & eps & _ & _ & _ & _ & -> & -> & _).
    pose proof (last_rowid_seq (seq_media d) (map m_id (media d))).
    destruct Hd as (_ & _ & Hseq). lia.
  - destruct data as [| b | z | r | s | items | kv]; try apply Hd.
    destruct (add_episodes_post media_id items d)
      as [(-> & _) | [(-> & _) | [(-> & _) |
          (_ & _ & _ & -> & -> & _)]]]; apply Hd.
  - destruct data as [| b | z | r | s | items | kv]; try apply Hd.
    destruct (add_episodes_post media_id items d)
      as [(-> & _) | [(-> & _) | [(-> & _) |
          (_ & _ & (m & Hm & _) & -> & _ & _ & rows & -> & Hall & _)]]];
      try apply Hd.
    destruct Hd as (_ & Heps & _).
    apply Forall_app. split; [exact Heps |].
    eapply Forall_impl; [| apply (stored_owner_episode _ _ _ Hall)].
    intros e ->. eapply lookup_media_in. exact Hm.
  - destruct data as [| b | z | r | s | items | kv]; try apply Hd.
    destruct (add_episodes_post media_id items d)
      as [(-> & _) | [(-> & _) | [(-> & _) |
          (_ & _ & _ & _ & _ & -> & _)]]]; apply Hd.
Qed.

End Properties.

(** * The views on the sample requests *)

Module SampleRuns.

Import Samples.

#[local] Existing Instance IntegerFragment.

Lemma empty_db_consistent : db_consistent empty_db.
Proof. unfold db_consistent. simpl. repeat split; try constructor. lia. Defined.

Lemma db_movie_consistent : db_consistent db_movie.
Proof.
  unfold db_consistent. simpl. repeat split; try lia.
  - constructor; [left; reflexivity | constructor].
  - constructor.
Defined.

Lemma db_catalog_consistent : db_consistent db_catalog.
Proof.
  unfold db_consistent. simpl. repeat split; try lia.
  - constructor; [left; reflexivity | constructor].
  - repeat (constructor; [right; left; reflexivity |]). constructor.
Defined.

Lemma db_catalog_series : is_series db_catalog 2.
Proof. eexists. split; reflexivity. Defined.

(** C2 fails as stated: the second episode of [series_partial] has no
    [video_link], and the answer is 500 with the [KeyError], not 400.
    Nothing is stored. *)
Lemma missing_video_link_is_500 :
  add_media clock series_partial empty_db
  = (Reply 500 (BException (KeyError "video_link")), empty_db) /\
  status_of (fst (add_media clock series_partial empty_db)) <> 400.
Proof. split; [reflexivity | discriminate]. Qed.

Lemma missing_child_key_answers_500_witness :
  In (JObj [("season_number", JInt 1); ("episode_number", JInt 2)])
     [episode 1 1 "http://s1e1";
      JObj [("season_number", JInt 1); ("episode_number", JInt 2)]] /\
  exists e, add_media clock series_partial empty_db = (Reply 500 (BException e), empty_db).
Proof.
  assert (Hin : In (JObj [("season_number", JInt 1); ("episode_number", JInt 2)])
                   [episode 1 1 "http://s1e1";
                    JObj [("season_number", JInt 1); ("episode_number", JInt 2)]])
    by (right; left; reflexivity).
  split; [exact Hin |].
  apply (proj1 (missing_child_key_answers_500 clock 0 _ (JStr "Lost") _ _ empty_db Hin));
    try reflexivity.
  eexists. split; [reflexivity |]. right. right. reflexivity.
Defined.

Lemma series_episodes_sorted_witness :
  exists mrow entries,
    m_id mrow = 2 /\
    get_media 2 db_catalog
    = (Reply 200 (BMedia (flat_fields mrow ++ [("episodes", FRows entries)])),
       db_catalog) /\
    List.length entries = 3%nat /\
    StronglySorted ascending entries /\
    Permutation entries
      (map submitted_episode
           [episode 2 1 "http://s2e1"; episode 1 2 "http://s1e2";
            episode 1 1 "http://s1e1"]).
Proof.
  assert (Hpositive : Forall positive_numbers
                        [episode 2 1 "http://s2e1"; episode 1 2 "http://s1e2";
                         episode 1 1 "http://s1e1"]).
  { repeat constructor; eexists; eexists;
      (split; [reflexivity | split; [reflexivity | split; reflexivity]]). }
  assert (Htext : Forall episode_text
                    [episode 2 1 "http://s2e1"; episode 1 2 "http://s1e2";
                     episode 1 1 "http://s1e1"]).
  { repeat constructor; eexists; eexists;
      (split; [reflexivity | split; reflexivity]). }
  destruct (series_episodes_sorted clock series_dark
              [episode 2 1 "http://s2e1"; episode 1 2 "http://s1e2";
               episode 1 1 "http://s1e1"]
              2 db_movie db_catalog
              db_movie_consistent eq_refl eq_refl Hpositive eq_refl)
    as (mrow & entries & rows & stored_rows & Hid & _ & Hget & Hlen & Hasc & _ & _ &
        _ & _ & Hsent & _).
  exists mrow, entries.
  split; [exact Hid |]. split; [exact Hget |]. split; [exact Hlen |].
  split; [exact Hasc | exact (Hsent Htext)].
Defined.

Lemma movie_round_trip_witness :
  exists d' mrow rows,
    add_media clock movie_x empty_db = (Reply 201 (BCreated (m_id mrow)), d') /\
    stores_media clock movie_x mrow /\
    get_media (m_id mrow) d'
    = (Reply 200 (BMedia (flat_fields mrow ++ [("video_links", FRows rows)])), d') /\
    rows = [[("resolution", SText "720p"); ("video_link", SText "http://a")]] /\
    List.length rows = 1%nat /\
    dict_get "episodes" (flat_fields mrow ++ [("video_links", FRows rows)]) = None.
Proof.
  apply (movie_round_trip clock _
           [JObj [("resolution", JStr "720p"); ("video_link", JStr "http://a")]]
           empty_db).
  - exact empty_db_consistent.
  - unfold media_room. simpl. unfold max_int64. lia.
  - unfold links_room. simpl. unfold max_int64. lia.
  - reflexivity.
  - exists (JStr "X"), JNull, JNull, JNull. repeat split; reflexivity.
  - reflexivity.
  - constructor; [| constructor].
    exists (JStr "720p"), "http://a". repeat split; reflexivity.
Defined.

Lemma add_media_rejects_unknown_type_witness :
  (exists msg, add_media clock podcast db_catalog = (Reply 400 (BError msg), db_catalog)) /\
  get_all_media (snd (add_media clock podcast db_catalog)) = get_all_media db_catalog.
Proof.
  apply (add_media_rejects_unknown_type clock _ (JStr "podcast") db_catalog).
  - reflexivity.
  - discriminate.
  - discriminate.
Defined.

(** C7 fails as stated: an empty list for the series 2 is accepted, with
    201 and a count of 0. *)
Lemma empty_array_accepted :
  add_episodes 2 (JArr []) db_catalog = (Reply 201 (BEpisodesAdded 0), db_catalog).
Proof. reflexivity. Qed.

Lemma add_episodes_array_and_count_witness :
  add_episodes 2 (JStr "episodes") db_catalog
  = (Reply 400 (BError msg_expected_array), db_catalog) /\
  add_episodes 2 (JArr []) db_catalog = (Reply 201 (BEpisodesAdded 0), db_catalog).
Proof.
  split.
  - apply (proj1 (add_episodes_array_and_count 2 (JStr "episodes") db_catalog)).
    discriminate.
  - apply (proj1 (proj2 (add_episodes_array_and_count 2 (JArr []) db_catalog))).
    + reflexivity.
    + exact db_catalog_series.
Defined.

Lemma mismatched_children_ignored_witness :
  (exists d' mrow,
      add_media clock series_with_links db_catalog
      = (Reply 201 (BCreated (m_id mrow)), d') /\
      media d' = media db_catalog ++ [mrow] /\
      movie_links d' = movie_links db_catalog /\
      tv_episodes d' = tv_episodes db_catalog) /\
  (exists d' mrow,
      add_media clock movie_with_episodes db_catalog
      = (Reply 201 (BCreated (m_id mrow)), d') /\
      media d' = media db_catalog ++ [mrow] /\
      movie_links d' = movie_links db_catalog /\
      tv_episodes d' = tv_episodes db_catalog).
Proof.
  assert (Hroom : media_room db_catalog 1)
    by (unfold media_room; simpl; unfold max_int64; lia).
  assert (Hseries : media_storable series_with_links)
    by (exists (JStr "Fargo"), JNull, JNull, JNull; repeat split; reflexivity).
  assert (Hmovie : media_storable movie_with_episodes)
    by (exists (JStr "Heat"), JNull, JNull, JNull; repeat split; reflexivity).
  split.
  - apply (proj1 (mismatched_children_ignored clock _
                    (JArr [JObj [("video_link", JStr "http://f")]]) db_catalog
                    db_catalog_consistent Hroom Hseries));
      reflexivity.
  - apply (proj1 (proj2 (mismatched_children_ignored clock _
                           (JArr [episode 1 1 "http://h"]) db_catalog
                           db_catalog_consistent Hroom Hmovie)));
      reflexivity.
Defined.

(** C9 fails as stated: an episode with season 0 and episode -3, and one
    whose season is the text [pilot], are stored as sent. *)
Lemma nonpositive_numbers_stored :
  add_episodes 2
    (JArr [ episode 0 (-3) "http://x";
            JObj [ ("season_number", JStr "pilot");
                   ("episode_number", JInt 1);
                   ("video_link", JStr "http://p") ] ])
    db_catalog
  = (Reply 201 (BEpisodesAdded 2),
     put_episode
       {| e_id := 5; e_series_id := 2;
          e_season_number := SText "pilot"; e_episode_number := SInt 1;
          e_title := SNull; e_video_link := SText "http://p" |}
       (put_episode
          {| e_id := 4; e_series_id := 2;
             e_season_number := SInt 0; e_episode_number := SInt (-3);
             e_title := SNull; e_video_link := SText "http://x" |}
          db_catalog)).
Proof. reflexivity. Qed.

Lemma episode_columns_not_null_witness :
  Forall episode_not_null (tv_episodes db_catalog) /\
  Forall episode_not_null
         (tv_episodes (snd (add_episodes 2 (JArr [episode 0 (-3) "http://x"]) db_catalog))).
Proof.
  assert (H : Forall episode_not_null (tv_episodes db_catalog))
    by (repeat constructor).
  split; [exact H |].
  apply (proj1 (proj2 (episode_columns_not_null db_catalog H))).
Defined.

End SampleRuns.

(** * The rest of the service

    The auth gate in front of the write views, requests served one after
    the other, and what the views guarantee beyond single requests. *)

(** ** The auth gate

    [check_password_hash] is werkzeug's, and the one entry of [users] is
    the salted hash [generate_password_hash("Venera")] computed when the
    module is loaded: both are taken as given. *)

Section AuthGate.

Context {R : SqlReal}.

Variable check_password_hash : string -> string -> bool.
Variable venera_hash : string.

Definition users : list (string * string) := [("Venera", venera_hash)].

(** [verify_password]: the username when it is a key of [users] and the
    password matches its hash, else Python's [None]. *)
Definition verify_password (username password : string) : option string :=
  match dict_get username users with
  | Some pwhash =>
      if check_password_hash pwhash password then Some username else None
  | None => None
  end.

(** The end of a request to a guarded view: the 401 answer of the gate,
    or what the view answered. *)
Inductive guarded : Type :=
| Unauthorized
| Served (o : outcome).

(** [@auth.login_required]: the credentials of the [Authorization]
    header, or an empty username and password when there is none, are
    given to [verify_password]; the view runs only when it returns a
    user. *)
Definition login_required (credentials : option (string * string))
           (view : db -> outcome * db) (d : db) : guarded * db :=
  let (username, password) :=
    match credentials with
    | Some given => given
    | None => ("", "")
    end in
  match verify_password username password with
  | Some _ => let (o, d') := view d in (Served o, d')
  | None => (Unauthorized, d)
  end.

(** The two write routes as Flask serves them. *)
Definition post_admin_media (credentials : option (string * string))
           (now : string) (data : json) : db -> guarded * db :=
  login_required credentials (add_media now data).

Definition post_admin_episodes (credentials : option (string * string))
           (media_id : Z) (data : json) : db -> guarded * db :=
  login_required credentials (add_episodes media_id data).

End AuthGate.

(** ** Requests in sequence *)

Section Service.

Context {R : SqlReal}.

(** A request that reached one of the four views. *)
Inductive request : Type :=
| GetAllMedia
| GetMedia (media_id : Z)
| AddMedia (now : string) (data : json)
| AddEpisodes (media_id : Z) (data : json).

Definition handle (r : request) : db -> outcome * db :=
  match r with
  | GetAllMedia => get_all_media
  | GetMedia media_id => get_media media_id
  | AddMedia now data => add_media now data
  | AddEpisodes media_id data => add_episodes media_id data
  end.

(** The database after the requests [rs], served in order. *)
Definition serve_all (rs : list request) (d : db) : db :=
  fold_left (fun d' r => snd (handle r d')) rs d.

(** The keys of a request body that [add_media] looks at. *)
Definition media_keys : list string :=
  ["type"; "title"; "thumbnail_url"; "details"; "release_date";
   "video_links"; "episodes"].

(** A child value a [for] loop cannot walk without raising: a scalar
    that is not iterable, or a non-empty string, whose characters have no
    [.get] and no string subscript. *)
Definition not_walkable (v : json) : Prop :=
  v = JNull \/ (exists b, v = JBool b) \/ (exists z, v = JInt z) \/
  (exists r, v = JFloat r) \/
  (exists c s, v = JStr (String c s)).

(** The Media rows of a database: ids positive, within 64 bits and
    increasing in table order, a type of the allowed set, a title. *)
Definition media_well_formed (d : db) : Prop :=
  StronglySorted Z.lt (map m_id (media d)) /\
  Forall (fun m =>
            1 <= m_id m <= max_int64 /\
            (m_type m = SText "movie" \/ m_type m = SText "tvseries") /\
            is_null (m_title m) = false) (media d) /\
  0 <= seq_media d.

(** Every link belongs to a movie and every episode to a series. *)
Definition owned_by_type (d : db) : Prop :=
  Forall (fun l => exists m, In m (media d) /\ m_id m = l_movie_id l /\
                             m_type m = SText "movie") (movie_links d) /\
  Forall (fun e => exists m, In m (media d) /\ m_id m = e_series_id e /\
                             m_type m = SText "tvseries") (tv_episodes d).

(** The child rows of a database: rowids increasing in table order, and
    a value in every [NOT NULL] column. *)
Definition children_well_formed (d : db) : Prop :=
  StronglySorted Z.lt (map l_id (movie_links d)) /\
  Forall (fun l => is_null (l_video_link l) = false) (movie_links d) /\
  StronglySorted Z.lt (map e_id (tv_episodes d)) /\
  Forall episode_not_null (tv_episodes d).

(** One row inserted by one statement of a view. *)
Inductive insert_step (d : db) : db -> Prop :=
| step_media row :
    m_id row = last_rowid (seq_media d) (map m_id (media d)) + 1 ->
    m_id row <= max_int64 ->
    m_type row = SText "movie" \/ m_type row = SText "tvseries" ->
    is_null (m_title row) = false ->
    insert_step d (put_media row d)
| step_link row :
    l_id row = last_rowid (seq_links d) (map l_id (movie_links d)) + 1 ->
    is_null (l_video_link row) = false ->
    insert_step d (put_link row d)
| step_episode row :
    e_id row = last_rowid (seq_episodes d) (map e_id (tv_episodes d)) + 1 ->
    episode_not_null row ->
    insert_step d (put_episode row d).

(** Any number of such inserts. *)
Inductive grows (d : db) : db -> Prop :=
| grows_none : grows d d
| grows_more d1 d2 : grows d d1 -> insert_step d1 d2 -> grows d d2.

End Service.

(** * Further properties *)

Section Coverage.

Context {R : SqlReal}.

(** ** The read views *)

Lemma lookup_media_none d media_id :
  ~ In media_id (map m_id (media d)) -> lookup_media d media_id = None.
Proof.
  intros Hnot. unfold lookup_media.
  destruct (find (fun m => m_id m =? media_id) (media d)) as [m |] eqn:E;
    [| reflexivity].
  exfalso. apply Hnot. eapply lookup_media_in. exact E.
Qed.

Lemma lookup_media_id d media_id m :
  lookup_media d media_id = Some m -> In m (media d) /\ m_id m = media_id.
Proof.
  unfold lookup_media. intros H. apply find_some in H.
  destruct H as (Hin & Heq). apply Z.eqb_eq in Heq. auto.
Qed.

(** X1: [get_media] on an id that no Media row has answers 404 with the
    not-found message when SQLite can hold the id; an id beyond 64 bits
    raises [OverflowError] out of the view, which has no [try].  The
    database is unchanged in both cases. *)
Theorem get_media_absent media_id d :
  (fits_int64 media_id = true ->
   ~ In media_id (map m_id (media d)) ->
   get_media media_id d = (Reply 404 (BError msg_not_found), d)) /\
  (fits_int64 media_id = false ->
   get_media media_id d = (Unhandled OverflowError, d)).
Proof.
  split.
  - intros Hfits Hnot. apply lookup_media_none in Hnot.
    unfold get_media, serve, with_get_db, select_media, bind, lift, query, bind_int.
    rewrite Hfits. simpl. unfold lookup_media in Hnot. rewrite Hnot. reflexivity.
  - intros Hbig.
    unfold get_media, serve, with_get_db, select_media, bind, lift, query, bind_int.
    rewrite Hbig. reflexivity.
Qed.

(** X2: for a stored Media, [get_media] answers 200 with the seven
    fields of its row followed by exactly one collection, chosen by the
    type.  For a movie it is [video_links], with one entry of two fields
    for every link row of that movie, in table order.  Otherwise it is
    [episodes], with one entry of four fields for every episode row of
    that id, each row once, and in ascending order of
    [(season_number, episode_number)] when these are integers.  The
    other key is absent. *)
Theorem get_media_one_collection media_id d m :
  fits_int64 media_id = true ->
  lookup_media d media_id = Some m ->
  exists key entries,
    get_media media_id d
    = (Reply 200 (BMedia (flat_fields m ++ [(key, FRows entries)])), d) /\
    m_id m = media_id /\
    In m (media d) /\
    (if sv_is_text (m_type m) "movie"
     then key = "video_links" /\
          entries
          = map link_fields
                (filter (fun l => l_movie_id l =? media_id) (movie_links d)) /\
          dict_get "episodes" (flat_fields m ++ [(key, FRows entries)]) = None
     else key = "episodes" /\
          (exists rows,
              entries = map episode_fields rows /\
              Permutation rows
                (filter (fun e => e_series_id e =? media_id) (tv_episodes d)) /\
              (Forall int_keyed rows ->
               StronglySorted by_season_episode rows /\
               StronglySorted ascending entries)) /\
          dict_get "video_links" (flat_fields m ++ [(key, FRows entries)]) = None).
Proof.
  intros Hfits Hm.
  destruct (lookup_media_id _ _ _ Hm) as (Hin & Hid).
  destruct (sv_is_text (m_type m) "movie") eqn:Htype.
  - exists "video_links",
      (map link_fields (filter (fun l => l_movie_id l =? media_id) (movie_links d))).
    rewrite (get_media_movie d media_id m Hfits Hm Htype).
    repeat split; assumption || reflexivity.
  - exists "episodes",
      (map episode_fields
           (order_episodes (filter (fun e => e_series_id e =? media_id) (tv_episodes d)))).
    rewrite (get_media_series d media_id m Hfits Hm Htype).
    split; [reflexivity |]. split; [exact Hid |]. split; [exact Hin |].
    split; [reflexivity |]. split; [| reflexivity].
    eexists. split; [reflexivity |]. split; [apply order_episodes_perm |].
    intros Hkeys. apply sorted_entries.
    eapply Permutation_Forall; [apply order_episodes_perm | exact Hkeys].
Qed.

(** X3: the read views never write, and reading again gives the same
    answer: the database after [get_all_media] and after [get_media] is
    the database before. *)
Theorem reads_do_not_write media_id d :
  snd (get_all_media d) = d /\
  snd (get_media media_id d) = d /\
  get_media media_id (snd (get_media media_id d)) = get_media media_id d /\
  get_all_media (snd (get_media media_id d)) = get_all_media d /\
  get_media media_id (snd (get_all_media d)) = get_media media_id d.
Proof.
  rewrite get_media_db. repeat split.
Qed.

(** X4: what [GET /media] lists after a write.  It lists the seven
    fields of every Media row, in table order.  After an [add_media]
    answered 201 the list is the list before followed by one entry, the
    seven fields of the new row, whose [id] is the id answered; after
    any other answer of [add_media], and after [add_episodes] however it
    ends, the list is the list before. *)
Theorem listing_after_writes now data media_id body d :
  get_all_media d = (Reply 200 (BMediaList (map media_fields (media d))), d) /\
  (forall id,
      fst (add_media now data d) = Reply 201 (BCreated id) ->
      exists mrow,
        m_id mrow = id /\ stores_media now data mrow /\
        dict_get "id" (media_fields mrow) = Some (SInt id) /\
        fst (get_all_media (snd (add_media now data d)))
        = Reply 200 (BMediaList (map media_fields (media d) ++ [media_fields mrow]))) /\
  (status_of (fst (add_media now data d)) <> 201 ->
   get_all_media (snd (add_media now data d)) = get_all_media d) /\
  fst (get_all_media (snd (add_episodes media_id body d))) = fst (get_all_media d).
Proof.
  split; [destruct d; reflexivity |]. repeat split.
  - intros id Hid.
    destruct (add_media_created now data d id (snd (add_media now data d)))
      as (mrow & links & eps & Hm & Hc).
    + rewrite <- Hid. destruct (add_media now data d); reflexivity.
    + exists mrow. split; [exact Hm |].
      destruct Hc as (Hmedia & _ & _ & _ & _ & _ & Hstores & _).
      split; [exact Hstores |].
      split; [simpl; rewrite Hm; reflexivity |].
      unfold get_all_media, serve, with_get_db, select_all_media, bind, query, ret.
      simpl. rewrite Hmedia, map_app. reflexivity.
  - intros Hstatus.
    destruct (add_media_post now data d) as [(-> & _) | Hc]; [reflexivity |].
    destruct Hc as (mrow & links & eps & Ho & _). rewrite Ho in Hstatus.
    simpl in Hstatus. contradiction.
  - destruct body as [| b | z | r | s | items | kv]; try reflexivity.
    destruct (add_episodes_post media_id items d)
      as [(-> & _) | [(-> & _) | [(-> & _) | (_ & _ & _ & Hm & _)]]];
      try reflexivity.
    unfold get_all_media, serve, with_get_db, select_all_media, bind, query, ret.
    simpl. rewrite Hm. reflexivity.
Qed.

(** ** The checks at the head of [add_media] *)

(** X5: a JSON object without the key [type] or without the key [title]
    is answered 400 with the missing-fields message, whatever else it
    holds, and the database is unchanged. *)
Theorem add_media_missing_required now kv d :
  dict_get "type" kv = None \/ dict_get "title" kv = None ->
  add_media now (JObj kv) d = (Reply 400 (BError msg_missing_fields), d).
Proof.
  intros H. unfold add_media, serve, bind, lift, required_fields. simpl.
  destruct (dict_get "type" kv) as [ty |]; [| reflexivity].
  destruct H as [H | H]; [discriminate |]. rewrite H. reflexivity.
Qed.

(** X6: a body that is not a JSON object never creates anything.  The
    database is unchanged, and the answer is either 400 with the
    missing-fields message or a [TypeError] that leaves the view: [null],
    booleans and numbers do not support [in], and a list or a string in
    which both field names are found cannot be subscripted by
    ['type']. *)
Theorem add_media_not_an_object now data d :
  (forall kv, data <> JObj kv) ->
  snd (add_media now data d) = d /\
  (fst (add_media now data d) = Reply 400 (BError msg_missing_fields) \/
   fst (add_media now data d) = Unhandled TypeError).
Proof.
  intros Hno.
  destruct data as [| b | z | r | s | items | kv];
    try (split; [reflexivity | right; reflexivity]).
  - unfold add_media, serve, bind, lift, required_fields. simpl.
    destruct (str_contains "type" s); [| split; [reflexivity | left; reflexivity]].
    destruct (str_contains "title" s); split; reflexivity || (right; reflexivity)
                                              || (left; reflexivity).
  - unfold add_media, serve, bind, lift, required_fields. simpl.
    destruct (existsb (fun x => py_eq_str x "type") items);
      [| split; [reflexivity | left; reflexivity]].
    destruct (existsb (fun x => py_eq_str x "title") items);
      split; reflexivity || (right; reflexivity) || (left; reflexivity).
  - exfalso. eapply Hno. reflexivity.
Qed.

(** X7: [add_media] reads seven keys of the request object and no other.
    Two objects that agree on [media_keys] get the same answer and leave
    the same database, so a client cannot set [id] or [created_at], and
    unknown keys are ignored. *)
Theorem add_media_reads_media_keys now kv kv' d :
  (forall k, In k media_keys -> dict_get k kv = dict_get k kv') ->
  add_media now (JObj kv) d = add_media now (JObj kv') d.
Proof.
  intros H.
  assert (H1 := H "type"). assert (H2 := H "title").
  assert (H3 := H "thumbnail_url"). assert (H4 := H "details").
  assert (H5 := H "release_date"). assert (H6 := H "video_links").
  assert (H7 := H "episodes"). clear H.
  unfold media_keys in *. simpl in *.
  unfold add_media, add_media_tx, add_children, type_is_and_has,
    py_all_in, required_fields, py_in, py_getitem, py_get.
  rewrite H1, H2, H3, H4, H5, H6, H7 by tauto.
  reflexivity.
Qed.

(** The view [add_media] past its two checks is its transaction under the
    catch-all handler. *)
Lemma add_media_validated now data ty d :
  py_all_in required_fields data = Ok true ->
  py_getitem data "type" = Ok ty ->
  (py_eq_str ty "movie" || py_eq_str ty "tvseries") = true ->
  add_media now data d
  = match add_media_tx now data (get_db d) with
    | (Ok o, c) => (o, pending c)
    | (Err e, c) => (Reply 500 (BException e), stored c)
    end.
Proof.
  intros Hall Ety Hty.
  unfold add_media, serve, bind, lift. rewrite Hall. simpl. rewrite Ety, Hty. simpl.
  unfold try_except, with_get_db.
  destruct (add_media_tx now data (get_db d)) as [[o | e] c]; reflexivity.
Qed.

(** X8: a [title] that is present but [null] passes the required-field
    check and is refused by the schema.  With an allowed type, optional
    fields that sqlite3 can bind (not a string with a lone surrogate, an
    integer beyond 64 bits, a list or an object) and room in the table,
    the answer is 500 with the [NOT NULL] failure of [media.title], and
    nothing is stored. *)
Theorem add_media_null_title now kv ty d :
  dict_get "type" kv = Some ty ->
  (py_eq_str ty "movie" || py_eq_str ty "tvseries") = true ->
  dict_get "title" kv = Some JNull ->
  (forall k v,
      In k ["thumbnail_url"; "details"; "release_date"] ->
      py_get (JObj kv) k = Ok v -> storable v = true) ->
  media_room d 1 ->
  add_media now (JObj kv) d
  = (Reply 500 (BException (IntegrityError "NOT NULL constraint failed: media.title")), d).
Proof.
  intros Hty Hallowed Htitle Hopt Hroom.
  assert (Ety : py_getitem (JObj kv) "type" = Ok ty) by (simpl; rewrite Hty; reflexivity).
  rewrite (add_media_validated now (JObj kv) ty d
             (required_present kv ty JNull Hty Htitle) Ety Hallowed).
  assert (Hbind : forall k,
             In k ["thumbnail_url"; "details"; "release_date"] ->
             exists v sv, py_get (JObj kv) k = Ok v /\ bind_param v = Ok sv).
  { intros k Hk.
    assert (Hv : exists v, py_get (JObj kv) k = Ok v)
      by (simpl; destruct (dict_get k kv); eauto).
    destruct Hv as (v & Hv). specialize (Hopt k v Hk Hv).
    unfold storable in Hopt. destruct (bind_param v) as [sv |] eqn:E; [| discriminate].
    eauto. }
  destruct (Hbind "thumbnail_url") as (thumb & thumb' & Ethumb & Bthumb);
    [simpl; tauto |].
  destruct (Hbind "details") as (details & details' & Edetails & Bdetails);
    [simpl; tauto |].
  destruct (Hbind "release_date") as (rdate & rdate' & Erdate & Brdate);
    [simpl; tauto |].
  destruct (allowed_type ty Hallowed) as (s & -> & Hs).
  unfold add_media_tx, insert_media, statement, bind, lift.
  rewrite Ety, Ethumb, Edetails, Erdate. simpl py_getitem. rewrite Htitle.
  rewrite (bind_param_allowed s Hs).
  simpl bind_param. rewrite Bthumb, Bdetails, Brdate.
  unfold media_room in Hroom.
  rewrite next_rowid_room by (simpl in *; lia).
  reflexivity.
Qed.

(** ** Values that cannot be bound *)

Lemma add_media_title_error now kv ty title e d :
  dict_get "type" kv = Some ty ->
  (py_eq_str ty "movie" || py_eq_str ty "tvseries") = true ->
  dict_get "title" kv = Some title ->
  bind_param title = Err e ->
  add_media now (JObj kv) d = (Reply 500 (BException e), d).
Proof.
  intros Hty Hallowed Htitle Hbind.
  assert (Ety : py_getitem (JObj kv) "type" = Ok ty) by (simpl; rewrite Hty; reflexivity).
  rewrite (add_media_validated now (JObj kv) ty d
             (required_present kv ty title Hty Htitle) Ety Hallowed).
  destruct (allowed_type ty Hallowed) as (s & -> & Hs).
  unfold add_media_tx, insert_media, bind, lift.
  rewrite Ety. simpl py_getitem. rewrite Htitle. simpl py_get.
  rewrite (bind_param_allowed s Hs), Hbind.
  destruct (dict_get "thumbnail_url" kv), (dict_get "details" kv),
    (dict_get "release_date" kv); reflexivity.
Qed.

(** X23: a [title] that sqlite3 cannot bind is refused before any row is
    written.  With an allowed type, a title that is a string with a lone
    surrogate is answered 500 with [UnicodeEncodeError], an integer
    beyond 64 bits with [OverflowError], and a list or an object with
    [ProgrammingError]; the database is unchanged. *)
Theorem add_media_unbindable_title now kv ty title d :
  dict_get "type" kv = Some ty ->
  (py_eq_str ty "movie" || py_eq_str ty "tvseries") = true ->
  dict_get "title" kv = Some title ->
  ((exists s, title = JStr s /\ has_surrogate s = true) ->
   add_media now (JObj kv) d = (Reply 500 (BException UnicodeEncodeError), d)) /\
  ((exists z, title = JInt z /\ fits_int64 z = false) ->
   add_media now (JObj kv) d = (Reply 500 (BException OverflowError), d)) /\
  ((exists l, title = JArr l) \/ (exists o, title = JObj o) ->
   add_media now (JObj kv) d = (Reply 500 (BException ProgrammingError), d)).
Proof.
  intros Hty Hallowed Htitle. repeat split.
  - intros (s & -> & Hs).
    apply (add_media_title_error now kv ty (JStr s)); try assumption.
    simpl. unfold bind_str. rewrite Hs. reflexivity.
  - intros (z & -> & Hz).
    apply (add_media_title_error now kv ty (JInt z)); try assumption.
    simpl. unfold bind_int. rewrite Hz. reflexivity.
  - intros [(l & ->) | (o & ->)];
      eapply add_media_title_error; try eassumption; reflexivity.
Qed.

Lemma store_episode_unencodable media_id episode s c :
  py_getitem episode "video_link" = Ok (JStr s) ->
  has_surrogate s = true ->
  wp (store_episode media_id episode) (fun r _ => exists e, r = Err e) c.
Proof.
  intros Hv Hs. apply wp_store_episode; [eauto |].
  intros row (_ & a & b & t & v & a' & b' & t' & v' & _ & _ & _ & Ev & _ & _ & _ & Hbv & _)
         _ _ _.
  rewrite Hv in Ev. injection Ev as <-.
  apply bind_param_str in Hbv. destruct Hbv as (_ & Hbv). congruence.
Qed.

Lemma store_link_unencodable media_id link s c :
  py_getitem link "video_link" = Ok (JStr s) ->
  has_surrogate s = true ->
  wp (store_link media_id link) (fun r _ => exists e, r = Err e) c.
Proof.
  intros Hv Hs. apply wp_store_link; [eauto |].
  intros row (_ & r & v & r' & v' & _ & Ev & _ & Hbv & _) _ _.
  rewrite Hv in Ev. injection Ev as <-.
  apply bind_param_str in Hbv. destruct Hbv as (_ & Hbv). congruence.
Qed.

(** X24: one child whose [video_link] is a string with a lone surrogate
    makes the whole request fail.  For a link of a movie and for an
    episode of a series in [add_media], and for an episode sent to
    [add_episodes] for an existing series, the answer is 500 and nothing
    is stored, the children before it and the Media row included. *)
Theorem unencodable_child_refused now media_id kv title items x s d :
  In x items ->
  py_getitem x "video_link" = Ok (JStr s) ->
  has_surrogate s = true ->
  (dict_get "type" kv = Some (JStr "movie") ->
   dict_get "title" kv = Some title ->
   dict_get "video_links" kv = Some (JArr items) ->
   exists e, add_media now (JObj kv) d = (Reply 500 (BException e), d)) /\
  (dict_get "type" kv = Some (JStr "tvseries") ->
   dict_get "title" kv = Some title ->
   dict_get "episodes" kv = Some (JArr items) ->
   exists e, add_media now (JObj kv) d = (Reply 500 (BException e), d)) /\
  (fits_int64 media_id = true ->
   is_series d media_id ->
   exists e, add_episodes media_id (JArr items) d = (Reply 500 (BException e), d)).
Proof.
  intros Hin Hv Hs. repeat split.
  - intros Hty Htitle Hlinks.
    assert (Ety : py_getitem (JObj kv) "type" = Ok (JStr "movie"))
      by (simpl; rewrite Hty; reflexivity).
    assert (Elinks : py_getitem (JObj kv) "video_links" = Ok (JArr items))
      by (simpl; rewrite Hlinks; reflexivity).
    destruct (movie_children _ _ Ety Elinks) as (Hmovie & _).
    apply add_media_raises.
    + eapply required_present; eassumption.
    + exists (JStr "movie"). split; [exact Ety | reflexivity].
    + intros id c1. unfold add_children.
      apply wp_bind_lift. rewrite Hmovie.
      apply wp_bind_lift. rewrite Elinks.
      apply wp_bind_lift. simpl.
      apply (wp_for_each_raises _ _ x); [exact Hin |].
      intros c2. eapply store_link_unencodable; eassumption.
  - intros Hty Htitle Heps.
    assert (Ety : py_getitem (JObj kv) "type" = Ok (JStr "tvseries"))
      by (simpl; rewrite Hty; reflexivity).
    assert (Eeps : py_getitem (JObj kv) "episodes" = Ok (JArr items))
      by (simpl; rewrite Heps; reflexivity).
    destruct (series_children _ _ Ety Eeps) as (Hmovie & Hseries & _).
    apply add_media_raises.
    + eapply required_present; eassumption.
    + exists (JStr "tvseries"). split; [exact Ety | reflexivity].
    + intros id c1. unfold add_children.
      apply wp_bind_lift. rewrite Hmovie.
      apply wp_bind_lift. rewrite Hseries.
      apply wp_bind_lift. rewrite Eeps.
      apply wp_bind_lift. simpl.
      apply (wp_for_each_raises _ _ x); [exact Hin |].
      intros c2. eapply store_episode_unencodable; eassumption.
  - intros Hfits Hseries.
    apply (add_episodes_raises_on media_id items x d Hfits Hseries Hin).
    intros c1. eapply store_episode_unencodable; eassumption.
Qed.

(** A string that is not empty has a first character. *)
Lemma str_chars_first c s : exists ch chars, str_chars (String c s) = ch :: chars.
Proof.
  simpl. destruct (str_chars s) as [| ch chars]; [eauto |].
  destruct s as [| c' s']; [eauto |].
  destruct (is_continuation c'); eauto.
Qed.

Lemma walk_raises v (body : json -> M conn unit) c :
  not_walkable v ->
  (forall s c1, wp (body (JStr s)) (fun r _ => exists e, r = Err e) c1) ->
  wp (items <- lift (py_iter v) ;; for_each items body)
     (fun r _ => exists e, r = Err e) c.
Proof.
  intros Hbad Hbody. apply wp_bind_lift.
  destruct Hbad as [-> | [(b & ->) | [(z & ->) | [(r & ->) | (ch & s & ->)]]]];
    try (simpl; eauto; fail).
  cbv beta iota delta [py_iter].
  destruct (str_chars_first ch s) as (first & chars & ->).
  apply (wp_for_each_raises body _ (JStr first));
    [left; reflexivity | intros c1; apply Hbody].
Qed.

(** X9: a type-matched child value that cannot be walked makes the
    whole request fail.  When [video_links] of a movie, or [episodes] of
    a series, is [null], a boolean, a number or a non-empty string, the
    answer is 500 and nothing is stored, the Media row included. *)
Theorem add_media_unwalkable_children now kv title lit key v d :
  (lit = "movie" /\ key = "video_links") \/ (lit = "tvseries" /\ key = "episodes") ->
  dict_get "type" kv = Some (JStr lit) ->
  dict_get "title" kv = Some title ->
  dict_get key kv = Some v ->
  not_walkable v ->
  exists e, add_media now (JObj kv) d = (Reply 500 (BException e), d).
Proof.
  intros Hkind Hty Htitle Hv Hbad.
  assert (Ety : py_getitem (JObj kv) "type" = Ok (JStr lit))
    by (simpl; rewrite Hty; reflexivity).
  apply add_media_raises.
  - eapply required_present; eassumption.
  - exists (JStr lit). split; [exact Ety |].
    destruct Hkind as [(-> & _) | (-> & _)]; reflexivity.
  - intros media_id c1.
    unfold add_children, type_is_and_has. rewrite Ety.
    destruct Hkind as [(-> & ->) | (-> & ->)]; simpl; rewrite Hv.
    + apply wp_bind_lift. apply wp_bind_lift.
      apply walk_raises; [exact Hbad |].
      intros s c2. unfold store_link. apply wp_bind_lift. simpl. eauto.
    + apply wp_bind_lift. apply wp_bind_lift. apply wp_bind_lift.
      apply walk_raises; [exact Hbad |].
      intros s c2. unfold store_episode. apply wp_bind_lift. simpl. eauto.
Qed.

(** ** [add_episodes] *)

(** X10: [add_episodes] is all or nothing.  Either the database is
    exactly as before and the answer is 400, 404 or 500, or the body is a
    list, the answer is 201 with its length, and one row per element has
    been appended to [tv_episodes], each owned by the series, with the
    other two tables untouched. *)
Theorem add_episodes_all_or_nothing media_id data d :
  (snd (add_episodes media_id data d) = d /\
   (status_of (fst (add_episodes media_id data d)) = 400 \/
    status_of (fst (add_episodes media_id data d)) = 404 \/
    status_of (fst (add_episodes media_id data d)) = 500)) \/
  (exists items rows,
      data = JArr items /\
      fst (add_episodes media_id data d)
      = Reply 201 (BEpisodesAdded (List.length items)) /\
      media (snd (add_episodes media_id data d)) = media d /\
      movie_links (snd (add_episodes media_id data d)) = movie_links d /\
      tv_episodes (snd (add_episodes media_id data d)) = tv_episodes d ++ rows /\
      Forall2 (stores_episode media_id) items rows).
Proof.
  destruct data as [| b | z | r | s | items | kv];
    try (left; split; [reflexivity | left; reflexivity]).
  destruct (add_episodes_post media_id items d)
    as [(Hd & (e & He) & _) | [(Hd & He & _) | [(Hd & He & _) |
        (He & _ & _ & Hm & Hl & _ & rows & Hrows & Hall & _)]]].
  - left. rewrite He. simpl. auto.
  - left. rewrite He. simpl. auto.
  - left. rewrite He. simpl. auto.
  - right. exists items, rows. auto 8.
Qed.

(** X11: for an id that SQLite can hold and a list body, the status of
    [add_episodes] is decided by the Media row alone: 404 exactly when no
    row has the id, 400 exactly when the row is not a series, and 201 or
    500 exactly when it is a series, 500 being an exception raised by
    one of the episodes. *)
Theorem add_episodes_status media_id items d :
  fits_int64 media_id = true ->
  (status_of (fst (add_episodes media_id (JArr items) d)) = 404
   <-> lookup_media d media_id = None) /\
  (status_of (fst (add_episodes media_id (JArr items) d)) = 400
   <-> exists m, lookup_media d media_id = Some m /\
                 sv_is_text (m_type m) "tvseries" = false) /\
  (status_of (fst (add_episodes media_id (JArr items) d)) = 201 \/
   status_of (fst (add_episodes media_id (JArr items) d)) = 500
   <-> is_series d media_id).
Proof.
  intros Hfits.
  destruct (add_episodes_post media_id items d)
    as [(_ & (e & He) & [Hbig | Hs]) | [(_ & He & _ & Hnone) | [(_ & He & _ & Hm) |
        (He & _ & Hs & _)]]];
    rewrite He; simpl; try congruence.
  - destruct Hs as (m & Hm & Ht).
    repeat split; intros; try discriminate; eauto.
    + rewrite Hm in *. discriminate.
    + destruct H as (m' & Hm' & Ht'). congruence.
    + exists m. auto.
  - repeat split; intros; try discriminate; auto.
    + destruct H as (m & Hm & _). congruence.
    + destruct H as [H | H]; discriminate.
    + destruct H as (m & Hm & _). congruence.
  - destruct Hm as (m & Hm & Ht).
    repeat split; intros; try discriminate; eauto.
    + congruence.
    + destruct H as [H | H]; discriminate.
    + destruct H as (m' & Hm' & Ht'). congruence.
  - destruct Hs as (m & Hm & Ht).
    repeat split; intros; try discriminate; eauto.
    + rewrite Hm in *. discriminate.
    + destruct H as (m' & Hm' & Ht'). congruence.
    + exists m. auto.
Qed.

(** ** Writes seen through [get_media] *)

Lemma get_media_depends media_id d1 d2 :
  lookup_media d1 media_id = lookup_media d2 media_id ->
  filter (fun l => l_movie_id l =? media_id) (movie_links d1)
  = filter (fun l => l_movie_id l =? media_id) (movie_links d2) ->
  filter (fun e => e_series_id e =? media_id) (tv_episodes d1)
  = filter (fun e => e_series_id e =? media_id) (tv_episodes d2) ->
  fst (get_media media_id d1) = fst (get_media media_id d2).
Proof.
  intros Hm Hl He.
  unfold get_media, serve, with_get_db, select_media, select_links,
    select_episodes, bind, lift, query, bind_int.
  destruct (fits_int64 media_id); [| reflexivity]. simpl.
  unfold lookup_media in Hm. rewrite Hm.
  destruct (find (fun m => m_id m =? media_id) (media d2)) as [m |];
    [| reflexivity].
  destruct (sv_is_text (m_type m) "movie"); simpl; rewrite ?Hl, ?He; reflexivity.
Qed.

Lemma find_snoc_other (f : media_row -> bool) l x :
  f x = false -> find f (l ++ [x]) = find f l.
Proof.
  intros Hx. induction l as [| y rest IH]; simpl.
  - rewrite Hx. reflexivity.
  - destruct (f y); [reflexivity | exact IH].
Qed.

(** X12: [add_episodes] is local to its series.  Whatever the request
    and however it ends, [get_media] on any other id answers afterwards
    what it answered before. *)
Theorem add_episodes_is_local media_id data other d :
  other <> media_id ->
  fst (get_media other (snd (add_episodes media_id data d)))
  = fst (get_media other d).
Proof.
  intros Hother.
  destruct data as [| b | z | r | s | items | kv]; try reflexivity.
  destruct (add_episodes_post media_id items d)
    as [(-> & _) | [(-> & _) | [(-> & _) |
        (_ & _ & _ & Hm & Hl & _ & rows & Hrows & Hall & _)]]];
    try reflexivity.
  apply get_media_depends.
  - unfold lookup_media. rewrite Hm. reflexivity.
  - rewrite Hl. reflexivity.
  - rewrite Hrows, filter_app, (filter_none _ rows), app_nil_r; [reflexivity |].
    intros e Hin. apply Z.eqb_neq.
    pose proof (stored_owner_episode _ _ _ Hall) as Hown.
    rewrite Forall_forall in Hown. rewrite (Hown e Hin). congruence.
Qed.

(** X13: [add_media] is local to the Media it creates.  On every id
    other than the one it answers, [get_media] answers afterwards what it
    answered before; when the request fails, that is every id. *)
Theorem add_media_is_local now data other d :
  fst (add_media now data d) <> Reply 201 (BCreated other) ->
  fst (get_media other (snd (add_media now data d)))
  = fst (get_media other d).
Proof.
  intros Hother.
  destruct (add_media_post now data d) as [(-> & _) | Hc]; [reflexivity |].
  destruct Hc as (mrow & links & eps & Ho & Hm & Hl & He & _ & _ & _ & _ & Hfl & Hfe & _).
  assert (Hneq : m_id mrow <> other) by (intros <-; apply Hother; exact Ho).
  apply get_media_depends.
  - unfold lookup_media. rewrite Hm. apply find_snoc_other.
    apply Z.eqb_neq. exact Hneq.
  - rewrite Hl, filter_app, (filter_none _ links), app_nil_r; [reflexivity |].
    intros l Hin. apply Z.eqb_neq.
    pose proof (stored_owner_link _ _ _ Hfl) as Hown.
    rewrite Forall_forall in Hown. rewrite (Hown l Hin). exact Hneq.
  - rewrite He, filter_app, (filter_none _ eps), app_nil_r; [reflexivity |].
    intros e Hin. apply Z.eqb_neq.
    pose proof (stored_owner_episode _ _ _ Hfe) as Hown.
    rewrite Forall_forall in Hown. rewrite (Hown e Hin). exact Hneq.
Qed.

Lemma series_is_not_movie v :
  sv_is_text v "tvseries" = true -> sv_is_text v "movie" = false.
Proof.
  destruct v as [| z | r | s]; simpl; try discriminate.
  intros H. apply String.eqb_eq in H. subst. reflexivity.
Qed.

(** X14: episodes added to a series are read back with the ones it had.
    After an [add_episodes] answered 201, [get_media] on the series
    answers 200 with the entries it answered before and one entry of four
    fields for each row added, one row per element of the list: the count
    grows by the length of the list.  When the numbers sent are integers
    and the other fields text, the new entries are the episodes as they
    were sent; when all numbers involved are integers, the entries are in
    ascending order of [(season_number, episode_number)]. *)
Theorem episodes_read_back media_id items b d d' :
  add_episodes media_id (JArr items) d = (Reply 201 b, d') ->
  exists m before entries rows shown,
    lookup_media d' media_id = Some m /\
    fst (get_media media_id d)
    = Reply 200 (BMedia (flat_fields m ++ [("episodes", FRows before)])) /\
    get_media media_id d'
    = (Reply 200 (BMedia (flat_fields m ++ [("episodes", FRows entries)])), d') /\
    Forall2 (stores_episode media_id) items rows /\
    Permutation entries (before ++ map episode_fields rows) /\
    List.length entries = Nat.add (List.length before) (List.length items) /\
    entries = map episode_fields shown /\
    Permutation shown
      (filter (fun e => e_series_id e =? media_id) (tv_episodes d) ++ rows) /\
    (Forall integer_numbers items -> Forall episode_text items ->
     Permutation entries (before ++ map submitted_episode items)) /\
    (Forall int_keyed (filter (fun e => e_series_id e =? media_id) (tv_episodes d)) ->
     Forall integer_numbers items ->
     StronglySorted by_season_episode shown /\ StronglySorted ascending entries).
Proof.
  intros Hadd.
  pose proof (add_episodes_post media_id items d) as Hpost.
  rewrite Hadd in Hpost. simpl in Hpost.
  destruct Hpost as [(_ & (e & He) & _) | [(_ & He & _) | [(_ & He & _) |
        (_ & Hfits & (m & Hm & Ht) & Hmedia & _ & _ & rows & Hrows & Hall & _)]]];
    try discriminate.
  assert (Hm' : lookup_media d' media_id = Some m)
    by (unfold lookup_media in *; rewrite Hmedia; exact Hm).
  set (old := filter (fun e => e_series_id e =? media_id) (tv_episodes d)).
  assert (Hfilter :
            filter (fun e => e_series_id e =? media_id) (tv_episodes d') = old ++ rows).
  { rewrite Hrows, filter_app. f_equal. apply filter_all.
    intros e Hin. apply Z.eqb_eq.
    pose proof (stored_owner_episode _ _ _ Hall) as Hown.
    rewrite Forall_forall in Hown. exact (Hown e Hin). }
  assert (Hperm : Permutation (map episode_fields (order_episodes (old ++ rows)))
                              (map episode_fields (order_episodes old)
                               ++ map episode_fields rows)).
  { rewrite <- map_app. apply Permutation_map.
    eapply Permutation_trans; [apply order_episodes_perm |].
    apply Permutation_app_tail, Permutation_sym, order_episodes_perm. }
  exists m, (map episode_fields (order_episodes old)),
    (map episode_fields (order_episodes (old ++ rows))), rows,
    (order_episodes (old ++ rows)).
  split; [exact Hm' |]. split.
  { rewrite (get_media_series d media_id m Hfits Hm (series_is_not_movie _ Ht)).
    reflexivity. }
  split.
  { rewrite (get_media_series d' media_id m Hfits Hm' (series_is_not_movie _ Ht)).
    rewrite Hfilter. reflexivity. }
  split; [exact Hall |]. split; [exact Hperm |]. split.
  { rewrite (Permutation_length Hperm), length_app, !length_map.
    f_equal. symmetry. eapply Forall2_length. exact Hall. }
  split; [reflexivity |]. split; [apply order_episodes_perm |]. split.
  - intros Hint Htext. rewrite <- (stored_entries _ _ _ Hint Htext Hall). exact Hperm.
  - intros Hold Hitems. apply sorted_entries.
    apply Forall_app. split; [exact Hold |].
    eapply stored_all_integer_keys; eassumption.
Qed.

(** ** The auth gate *)

(** X15: the write routes are guarded.  Without credentials, with a
    username other than [Venera], or with a password that the stored hash
    does not accept, both routes answer 401, the view does not run and
    the database is unchanged; with the username [Venera] and an accepted
    password they answer and store what the view does. *)
Theorem write_routes_guarded (check : string -> string -> bool) (hash : string)
        credentials now data media_id body d :
  (credentials = None \/
   (exists u p, credentials = Some (u, p) /\ (u <> "Venera" \/ check hash p = false)) ->
   post_admin_media check hash credentials now data d = (Unauthorized, d) /\
   post_admin_episodes check hash credentials media_id body d = (Unauthorized, d)) /\
  (forall p,
      credentials = Some ("Venera", p) ->
      check hash p = true ->
      post_admin_media check hash credentials now data d
      = (Served (fst (add_media now data d)), snd (add_media now data d)) /\
      post_admin_episodes check hash credentials media_id body d
      = (Served (fst (add_episodes media_id body d)),
         snd (add_episodes media_id body d))).
Proof.
  split.
  - intros [-> | (u & p & -> & Hbad)]; [split; reflexivity |].
    unfold post_admin_media, post_admin_episodes, login_required, verify_password,
      users. simpl.
    destruct (String.eqb_spec u "Venera") as [-> | Hu].
    + destruct Hbad as [Hbad | Hbad]; [contradiction |]. rewrite Hbad.
      split; reflexivity.
    + split; reflexivity.
  - intros p -> Hcheck.
    unfold post_admin_media, post_admin_episodes, login_required, verify_password,
      users. simpl. rewrite Hcheck.
    destruct (add_media now data d), (add_episodes media_id body d).
    split; reflexivity.
Qed.

(** ** What the views insert *)

Lemma grows_trans d1 d2 d3 : grows d1 d2 -> grows d2 d3 -> grows d1 d3.
Proof.
  intros H12 H23. induction H23 as [| d3 d4 _ IH Hstep].
  - exact H12.
  - eapply grows_more; eassumption.
Qed.

Lemma grows_one d d' : insert_step d d' -> grows d d'.
Proof. intros H. eapply grows_more; [apply grows_none | exact H]. Qed.

Lemma insert_media_grows now ty title thumb details rdate c :
  (py_eq_str ty "movie" || py_eq_str ty "tvseries") = true ->
  wp (insert_media now ty title thumb details rdate)
     (fun _ c' => grows (pending c) (pending c')) c.
Proof.
  intros Hty. destruct (allowed_type ty Hty) as (s & -> & Hs).
  unfold insert_media. apply wp_bind_lift. rewrite (bind_param_allowed s Hs).
  apply wp_bind_lift. destruct (bind_param title) as [title' |]; [| apply grows_none].
  apply wp_bind_lift. destruct (bind_param thumb) as [thumb' |]; [| apply grows_none].
  apply wp_bind_lift. destruct (bind_param details) as [details' |]; [| apply grows_none].
  apply wp_bind_lift. destruct (bind_param rdate) as [rdate' |]; [| apply grows_none].
  apply wp_statement.
  destruct (next_rowid (seq_media (pending c)) (map m_id (media (pending c))))
    as [rowid |] eqn:Erow; [| apply grows_none].
  apply next_rowid_ok in Erow. destruct Erow as [-> Hmax]. simpl.
  destruct (is_null (text_affinity title')) eqn:Enull; [apply grows_none |].
  assert (Hcheck : check_media_type (SText s) = true)
    by (destruct Hs as [-> | ->]; reflexivity).
  rewrite Hcheck. simpl. apply grows_one.
  apply step_media; simpl; try assumption; try reflexivity.
  destruct Hs as [-> | ->]; auto.
Qed.

Lemma store_link_grows media_id link c :
  wp (store_link media_id link) (fun _ c' => grows (pending c) (pending c')) c.
Proof.
  unfold store_link.
  apply wp_bind_lift. destruct (py_get link "resolution"); [| apply grows_none].
  apply wp_bind_lift. destruct (py_getitem link "video_link"); [| apply grows_none].
  apply wp_insert_movie_link; [intros; apply grows_none |].
  intros resolution' video_link' row _ _ _ -> _ Hnull. simpl.
  apply grows_one. apply step_link; [reflexivity | exact Hnull].
Qed.

Lemma store_episode_grows media_id episode c :
  wp (store_episode media_id episode) (fun _ c' => grows (pending c) (pending c')) c.
Proof.
  apply wp_store_episode; [intros; apply grows_none |].
  intros row _ _ Hid Hnn. simpl. apply grows_one. apply step_episode; assumption.
Qed.

Lemma for_each_grows (body : json -> M conn unit) items c :
  (forall x c1, wp (body x) (fun _ c2 => grows (pending c1) (pending c2)) c1) ->
  wp (for_each items body) (fun _ c' => grows (pending c) (pending c')) c.
Proof.
  intros Hbody. eapply wp_mono.
  - apply (wp_for_each body (fun _ c' => grows (pending c) (pending c'))
                       (fun _ c' => grows (pending c) (pending c')));
      [apply grows_none |].
    intros pre x post c1 _ H1.
    eapply wp_mono; [apply Hbody |].
    intros [[] | e] c2 H2; eapply grows_trans; eassumption.
  - intros [[] | e] c' H; exact H.
Qed.

Lemma add_children_grows media_id data c :
  wp (add_children media_id data) (fun _ c' => grows (pending c) (pending c')) c.
Proof.
  unfold add_children. apply wp_bind_lift.
  destruct (type_is_and_has data "movie" "video_links") as [[|] | e];
    [| | apply grows_none].
  - apply wp_bind_lift.
    destruct (py_getitem data "video_links") as [v |]; [| apply grows_none].
    apply wp_bind_lift. destruct (py_iter v); [| apply grows_none].
    apply for_each_grows. intros x c1. apply store_link_grows.
  - apply wp_bind_lift.
    destruct (type_is_and_has data "tvseries" "episodes") as [[|] | e];
      [| apply wp_ret; apply grows_none | apply grows_none].
    apply wp_bind_lift.
    destruct (py_getitem data "episodes") as [v |]; [| apply grows_none].
    apply wp_bind_lift. destruct (py_iter v); [| apply grows_none].
    apply for_each_grows. intros x c1. apply store_episode_grows.
Qed.

Lemma add_media_tx_grows now data c :
  (exists ty, py_getitem data "type" = Ok ty /\
              (py_eq_str ty "movie" || py_eq_str ty "tvseries") = true) ->
  wp (add_media_tx now data) (fun _ c' => grows (pending c) (pending c')) c.
Proof.
  intros (ty & Ety & Hty). unfold add_media_tx.
  apply wp_bind_lift. rewrite Ety.
  apply wp_bind_lift. destruct (py_getitem data "title"); [| apply grows_none].
  apply wp_bind_lift. destruct (py_get data "thumbnail_url"); [| apply grows_none].
  apply wp_bind_lift. destruct (py_get data "details"); [| apply grows_none].
  apply wp_bind_lift. destruct (py_get data "release_date"); [| apply grows_none].
  apply wp_bind.
  eapply wp_mono; [apply insert_media_grows; exact Hty |].
  intros [media_id | e] c1 H1; [| exact H1].
  apply wp_bind.
  eapply wp_mono; [apply add_children_grows |].
  intros [[] | e] c2 H2; [| eapply grows_trans; eassumption].
  apply wp_bind, wp_commit. apply wp_ret. simpl.
  eapply grows_trans; eassumption.
Qed.

Lemma add_media_grows now data d : grows d (snd (add_media now data d)).
Proof.
  unfold add_media. apply (wp_serve _ (fun _ d' => grows d d')).
  apply wp_bind_lift.
  destruct (py_all_in required_fields data) as [[|] | e]; simpl;
    [| apply wp_ret; apply grows_none | apply grows_none].
  apply wp_bind_lift.
  destruct (py_getitem data "type") as [ty | e] eqn:Ety; [| apply grows_none].
  destruct (py_eq_str ty "movie" || py_eq_str ty "tvseries") eqn:Hty; simpl;
    [| apply wp_ret; apply grows_none].
  apply wp_try_except, wp_with_get_db.
  eapply wp_mono;
    [apply (wp_and _ _ _ _ (add_media_tx_grows now data (get_db d)
                              (ex_intro _ ty (conj Ety Hty)))
                   (add_media_tx_post now data (get_db d)
                              (ex_intro _ ty (conj Ety Hty)))) |].
  intros [o | e] c (Hg & Hpost); simpl in *.
  - exact Hg.
  - rewrite Hpost. apply grows_none.
Qed.

Lemma add_episodes_grows media_id data d :
  grows d (snd (add_episodes media_id data d)).
Proof.
  destruct data as [| b | z | r | s | items | kv]; try apply grows_none.
  unfold add_episodes. apply (wp_serve _ (fun _ d' => grows d d')).
  apply wp_try_except, wp_with_get_db.
  assert (Hg : wp (add_episodes_tx media_id items)
                  (fun _ c' => grows (pending (get_db d)) (pending c')) (get_db d)).
  { unfold add_episodes_tx. apply wp_bind.
    apply wp_select_media; [intros; apply grows_none |].
    intros _. destruct (lookup_media (pending (get_db d)) media_id) as [m |];
      [| apply wp_ret; apply grows_none].
    destruct (negb (sv_is_text (m_type m) "tvseries"));
      [apply wp_ret; apply grows_none |].
    apply wp_bind.
    eapply wp_mono; [apply for_each_grows; intros; apply store_episode_grows |].
    intros [[] | e] c1 H1; [| exact H1].
    apply wp_bind, wp_commit. apply wp_ret. exact H1. }
  eapply wp_mono;
    [apply (wp_and _ _ _ _ Hg (add_episodes_tx_post media_id items (get_db d))) |].
  intros [o | e] c (Hgc & Hpost); simpl in *.
  - exact Hgc.
  - destruct Hpost as (_ & ->). apply grows_none.
Qed.

Lemma handle_grows r d : grows d (snd (handle r d)).
Proof.
  destruct r as [| media_id | now data | media_id data]; simpl.
  - apply grows_none.
  - rewrite get_media_db. apply grows_none.
  - apply add_media_grows.
  - apply add_episodes_grows.
Qed.

(** ** Invariants of the service *)

Lemma sorted_snoc l x :
  StronglySorted Z.lt l -> Forall (fun y => y < x) l ->
  StronglySorted Z.lt (l ++ [x]).
Proof.
  intros Hs Hlt. induction Hs as [| y rest Hrest IH Hy]; simpl.
  - constructor; constructor.
  - inversion Hlt; subst. constructor; [apply IH; assumption |].
    apply Forall_app. split; [exact Hy | constructor; [assumption | constructor]].
Qed.

Lemma below_next seq ids :
  Forall (fun y => y < last_rowid seq ids + 1) ids.
Proof.
  apply Forall_forall. intros y Hy.
  pose proof (last_rowid_ids seq ids y Hy). lia.
Qed.

Lemma grows_keeps (P : db -> Prop) d d' :
  (forall d1 d2, P d1 -> insert_step d1 d2 -> P d2) ->
  P d -> grows d d' -> P d'.
Proof.
  intros Hstep Hd Hg. induction Hg as [| d1 d2 _ IH Hs]; [exact Hd |].
  eapply Hstep; eassumption.
Qed.

Lemma serve_all_keeps (P : db -> Prop) :
  (forall r d, P d -> P (snd (handle r d))) ->
  forall rs d, P d -> P (serve_all rs d).
Proof.
  intros Hstep rs. unfold serve_all.
  induction rs as [| r rest IH]; intros d Hd; simpl; [exact Hd |].
  apply IH. apply Hstep. exact Hd.
Qed.

Lemma media_well_formed_step d1 d2 :
  media_well_formed d1 -> insert_step d1 d2 -> media_well_formed d2.
Proof.
  intros (Hsorted & Hrows & Hseq) Hstep.
  destruct Hstep as [row Hid Hmax Htype Htitle | row _ _ | row _ _];
    [| repeat split; assumption | repeat split; assumption].
  pose proof (last_rowid_seq (seq_media d1) (map m_id (media d1))) as Hlast.
  unfold media_well_formed. simpl. rewrite map_app. simpl.
  split; [| split].
  - apply sorted_snoc; [exact Hsorted |]. rewrite Hid. apply below_next.
  - apply Forall_app. split; [exact Hrows |].
    constructor; [| constructor]. repeat split; try assumption. lia.
  - lia.
Qed.

Lemma children_well_formed_step d1 d2 :
  children_well_formed d1 -> insert_step d1 d2 -> children_well_formed d2.
Proof.
  intros (Hls & Hln & Hes & Hen) Hstep.
  destruct Hstep as [row _ _ _ _ | row Hid Hnull | row Hid Hnn];
    [repeat split; assumption | |].
  - unfold children_well_formed. simpl. rewrite map_app. simpl.
    repeat split; try assumption.
    + apply sorted_snoc; [exact Hls |]. rewrite Hid. apply below_next.
    + apply Forall_app. split; [exact Hln | constructor; [exact Hnull | constructor]].
  - unfold children_well_formed. simpl. rewrite map_app. simpl.
    split; [exact Hls |]. split; [exact Hln |]. split.
    + apply sorted_snoc; [exact Hes |]. rewrite Hid. apply below_next.
    + apply Forall_app. split; [exact Hen | constructor; [exact Hnn | constructor]].
Qed.

Lemma media_always_well_formed_aux rs :
  media_well_formed (serve_all rs (init_db None)).
Proof.
  apply serve_all_keeps.
  - intros r d Hd. eapply grows_keeps; [| exact Hd | apply handle_grows].
    intros d1 d2. apply media_well_formed_step.
  - unfold media_well_formed. simpl. repeat split; try constructor. lia.
Qed.

(** X16: whatever requests have been served since the service started
    without a database file, the Media rows are well formed: their ids
    are positive, fit 64 bits and increase strictly in table order, so no
    two rows share an id and [GET /media] lists in order of creation;
    every type is [movie] or [tvseries]; no title is NULL. *)
Theorem media_always_well_formed rs :
  media_well_formed (serve_all rs (init_db None)) /\
  NoDup (map m_id (media (serve_all rs (init_db None)))).
Proof.
  pose proof (media_always_well_formed_aux rs) as H.
  split; [exact H |].
  destruct H as (Hsorted & _).
  induction Hsorted as [| x l _ IH Hx]; constructor; [| exact IH].
  intros Hin. rewrite Forall_forall in Hx. specialize (Hx x Hin). lia.
Qed.

(** X17: whatever requests have been served since the service started
    without a database file, the link rows and the episode rows each
    have rowids that increase strictly in table order, every link has a
    [video_link] that is not NULL, and every episode has a season number,
    an episode number and a [video_link] that are not NULL. *)
Theorem children_always_well_formed rs :
  children_well_formed (serve_all rs (init_db None)).
Proof.
  apply serve_all_keeps.
  - intros r d Hd. eapply grows_keeps; [| exact Hd | apply handle_grows].
    intros d1 d2. apply children_well_formed_step.
  - unfold children_well_formed. simpl. repeat split; constructor.
Qed.

Lemma grows_appends d d' :
  grows d d' ->
  exists ms ls es,
    media d' = media d ++ ms /\
    movie_links d' = movie_links d ++ ls /\
    tv_episodes d' = tv_episodes d ++ es.
Proof.
  intros Hg. induction Hg as [| d1 d2 _ (ms & ls & es & Hm & Hl & He) Hstep].
  - exists [], [], []. rewrite !app_nil_r. auto.
  - destruct Hstep as [row _ _ _ _ | row _ _ | row _ _]; simpl.
    + exists (ms ++ [row]), ls, es. rewrite Hm, <- app_assoc. auto.
    + exists ms, (ls ++ [row]), es. rewrite Hl, <- app_assoc. auto.
    + exists ms, ls, (es ++ [row]). rewrite He, <- app_assoc. auto.
Qed.

(** X18: the service only ever appends.  After any sequence of requests
    each table is the table before followed by the rows added: no view
    updates, deletes or reorders a stored row. *)
Theorem tables_only_grow rs d :
  exists ms ls es,
    media (serve_all rs d) = media d ++ ms /\
    movie_links (serve_all rs d) = movie_links d ++ ls /\
    tv_episodes (serve_all rs d) = tv_episodes d ++ es.
Proof.
  apply grows_appends.
  apply (serve_all_keeps (fun d' => grows d d')).
  - intros r d1 H1. eapply grows_trans; [exact H1 | apply handle_grows].
  - apply grows_none.
Qed.

Lemma supplied_type data lit key x :
  In x (supplied data lit key) -> py_getitem data "type" = Ok (JStr lit).
Proof.
  unfold supplied, type_is_and_has.
  destruct (py_getitem data "type") as [ty |]; [| contradiction].
  destruct ty as [| b | z | r | s | l | kv]; simpl; try contradiction.
  destruct (String.eqb_spec s lit) as [-> |]; [reflexivity | contradiction].
Qed.

Lemma owned_by_type_kept r d :
  owned_by_type d -> owned_by_type (snd (handle r d)).
Proof.
  intros (Hlinks & Heps).
  destruct r as [| media_id | now data | media_id data]; simpl.
  - split; assumption.
  - rewrite get_media_db. split; assumption.
  - destruct (add_media_post now data d) as [(-> & _) | Hc]; [split; assumption |].
    destruct Hc as (mrow & links & eps & _ & Hm & Hl & He & _ & _ & _ & Hst & Hfl & Hfe & _).
    unfold owned_by_type. rewrite Hm, Hl, He. split.
    + apply Forall_app. split.
      * eapply Forall_impl; [| exact Hlinks].
        intros l (m & Hin & Hid & Ht). exists m.
        split; [apply in_or_app; left; exact Hin | auto].
      * clear - Hfl Hst.
        remember (supplied data "movie" "video_links") as items eqn:Eitems.
        assert (Hty : forall x, In x items -> py_getitem data "type" = Ok (JStr "movie"))
          by (intros x Hx; subst; eapply supplied_type; exact Hx).
        clear Eitems. induction Hfl as [| x row xs rows Hrow _ IH];
          constructor.
        -- exists mrow. split; [apply in_or_app; right; left; reflexivity |].
           destruct Hrow as (Hown & _). split; [auto |].
           eapply stored_type; [apply (Hty x); left; reflexivity | exact Hst].
        -- apply IH. intros y Hy. apply (Hty y). right. exact Hy.
    + apply Forall_app. split.
      * eapply Forall_impl; [| exact Heps].
        intros e (m & Hin & Hid & Ht). exists m.
        split; [apply in_or_app; left; exact Hin | auto].
      * clear - Hfe Hst.
        remember (supplied data "tvseries" "episodes") as items eqn:Eitems.
        assert (Hty : forall x, In x items ->
                                py_getitem data "type" = Ok (JStr "tvseries"))
          by (intros x Hx; subst; eapply supplied_type; exact Hx).
        clear Eitems. induction Hfe as [| x row xs rows Hrow _ IH];
          constructor.
        -- exists mrow. split; [apply in_or_app; right; left; reflexivity |].
           destruct Hrow as (Hown & _). split; [auto |].
           eapply stored_type; [apply (Hty x); left; reflexivity | exact Hst].
        -- apply IH. intros y Hy. apply (Hty y). right. exact Hy.
  - destruct data as [| b | z | rr | s | items | kv]; try (split; assumption).
    destruct (add_episodes_post media_id items d)
      as [(-> & _) | [(-> & _) | [(-> & _) |
          (_ & _ & (m & Hm & Ht) & Hmedia & Hl & _ & rows & Hrows & Hall & _)]]];
      try (split; assumption).
    unfold owned_by_type. rewrite Hmedia, Hl, Hrows. split; [exact Hlinks |].
    apply Forall_app. split; [exact Heps |].
    destruct (lookup_media_id _ _ _ Hm) as (Hin & Hid).
    eapply Forall_impl; [| apply (stored_owner_episode _ _ _ Hall)].
    intros e He. exists m. split; [exact Hin |]. split; [congruence |].
    destruct (m_type m) as [| z | rr | s]; simpl in Ht; try discriminate.
    apply String.eqb_eq in Ht. subst. reflexivity.
Qed.

(** X19: whatever requests have been served since the service started
    without a database file, every link row belongs to a stored Media of
    type [movie] and every episode row to a stored Media of type
    [tvseries]: the foreign keys, which SQLite does not enforce here, are
    never dangling, and no child hangs under a Media of the other
    type. *)
Theorem children_always_owned rs :
  owned_by_type (serve_all rs (init_db None)) /\
  db_consistent (serve_all rs (init_db None)).
Proof.
  split.
  - apply serve_all_keeps; [apply owned_by_type_kept |].
    split; constructor.
  - apply serve_all_keeps; [| exact (proj1 db_consistent_invariant)].
    intros r d Hd.
    destruct (proj2 db_consistent_invariant d Hd) as (Ha & Hb & Hc & Hd').
    destruct r as [| media_id | now data | media_id data].
    + exact Hd'.
    + apply Hc.
    + apply Ha.
    + apply Hb.
Qed.

Lemma find_by_sorted_id l m :
  StronglySorted Z.lt (map m_id l) -> In m l ->
  find (fun x => m_id x =? m_id m) l = Some m.
Proof.
  induction l as [| y rest IH]; intros Hs Hin; [contradiction |].
  simpl in Hs. inversion Hs as [| ? ? Hrest Hy]; subst. simpl.
  destruct Hin as [-> | Hin].
  - rewrite Z.eqb_refl. reflexivity.
  - rewrite Forall_forall in Hy.
    pose proof (Hy (m_id m) (in_map m_id _ _ Hin)) as Hlt.
    destruct (Z.eqb_spec (m_id y) (m_id m)); [lia |].
    apply IH; assumption.
Qed.

(** X20: every Media that [GET /media] lists can be fetched by its id.
    Whatever requests have been served since the service started without
    a database file, every entry of the list holds the seven fields of a
    stored row, and [get_media] on the [id] of the entry answers 200 with
    those same seven fields, followed by [video_links] when the type is
    [movie] and by [episodes] when it is [tvseries]. *)
Theorem listed_media_is_fetched rs listing entry :
  fst (get_all_media (serve_all rs (init_db None))) = Reply 200 (BMediaList listing) ->
  In entry listing ->
  exists m key rows,
    In m (media (serve_all rs (init_db None))) /\
    entry = media_fields m /\
    dict_get "id" entry = Some (SInt (m_id m)) /\
    get_media (m_id m) (serve_all rs (init_db None))
    = (Reply 200 (BMedia (flat_fields m ++ [(key, FRows rows)])),
       serve_all rs (init_db None)) /\
    ((m_type m = SText "movie" /\ key = "video_links") \/
     (m_type m = SText "tvseries" /\ key = "episodes")).
Proof.
  intros Hlist Hentry.
  assert (Hall : fst (get_all_media (serve_all rs (init_db None)))
                 = Reply 200 (BMediaList
                                (map media_fields (media (serve_all rs (init_db None))))))
    by reflexivity.
  rewrite Hall in Hlist. injection Hlist as <-.
  apply in_map_iff in Hentry. destruct Hentry as (m & <- & Hin).
  destruct (media_always_well_formed_aux rs) as (Hsorted & Hrows & _).
  rewrite Forall_forall in Hrows.
  destruct (Hrows m Hin) as ((Hlo & Hhi) & Htype & _).
  assert (Hfits : fits_int64 (m_id m) = true)
    by (apply fits_int64_iff; unfold min_int64; lia).
  assert (Hm : lookup_media (serve_all rs (init_db None)) (m_id m) = Some m)
    by (apply find_by_sorted_id; assumption).
  exists m.
  destruct Htype as [Ht | Ht].
  - exists "video_links". eexists.
    rewrite (get_media_movie _ _ _ Hfits Hm) by (rewrite Ht; reflexivity).
    split; [exact Hin |]. split; [reflexivity |]. split; [reflexivity |].
    split; [reflexivity | left; auto].
  - exists "episodes". eexists.
    rewrite (get_media_series _ _ _ Hfits Hm) by (rewrite Ht; reflexivity).
    split; [exact Hin |]. split; [reflexivity |]. split; [reflexivity |].
    split; [reflexivity | right; auto].
Qed.

(** ** Requests that are accepted *)

(** X21: [add_episodes] accepts every list of storable episodes for an
    existing series when the table has room: the answer is 201 with the
    length of the list and one row per element is appended, in the order
    of the list.  Nothing is asked of the numbers beyond being storable:
    two elements with the same season and episode give two rows. *)
Theorem add_episodes_accepts media_id items d :
  fits_int64 media_id = true ->
  is_series d media_id ->
  Forall episode_storable items ->
  episodes_room d (List.length items) ->
  exists d' rows,
    add_episodes media_id (JArr items) d
    = (Reply 201 (BEpisodesAdded (List.length items)), d') /\
    tv_episodes d' = tv_episodes d ++ rows /\
    Forall2 (stores_episode media_id) items rows /\
    media d' = media d /\ movie_links d' = movie_links d.
Proof.
  intros Hfits (m & Hm & Htype) Hitems Hroom.
  pose proof (wp_and _ _ _ _
                (store_episodes_succeed media_id items (get_db d) Hfits Hitems Hroom)
                (store_episodes_rows media_id items (get_db d))) as H.
  unfold add_episodes, serve, try_except, with_get_db, add_episodes_tx,
    select_media, bind at 1 2, lift, query, bind_int.
  rewrite Hfits. simpl. unfold lookup_media in Hm. rewrite Hm, Htype. simpl.
  unfold bind at 1. unfold wp in H.
  destruct (for_each items (store_episode media_id) (get_db d)) as [[[] | e] c];
    simpl in *.
  - destruct H as (_ & Hframe & Hrows).
    destruct (Hrows eq_refl) as (rows & Heps & Hall & _).
    unfold episodes_frame in Hframe. simpl in Hframe.
    injection Hframe as _ Hmedia Hlinks _.
    exists (pending c), rows. auto.
  - destruct H as (H & _). discriminate.
Qed.

Lemma episode_children_succeed data items d :
  py_getitem data "type" = Ok (JStr "tvseries") ->
  py_getitem data "episodes" = Ok (JArr items) ->
  Forall episode_storable items ->
  episodes_room d (List.length items) ->
  forall media_id c1,
    fits_int64 media_id = true ->
    children_frame c1 = children_frame (get_db d) ->
    wp (add_children media_id data) (fun r _ => r = Ok tt) c1.
Proof.
  intros Ety Eeps Hitems Hroom media_id c1 Hfits Hframe.
  destruct (series_children _ _ Ety Eeps) as (Hmovie & Hseries & _).
  unfold add_children.
  apply wp_bind_lift. rewrite Hmovie.
  apply wp_bind_lift. rewrite Hseries.
  apply wp_bind_lift. rewrite Eeps.
  apply wp_bind_lift. simpl.
  apply store_episodes_succeed; [exact Hfits | exact Hitems |].
  unfold children_frame in Hframe. simpl in Hframe.
  injection Hframe as _ _ He Hs. unfold episodes_room. rewrite He, Hs. exact Hroom.
Qed.

(** X22: [add_media] accepts a series with storable fields and storable
    episodes when the tables have room: the answer is 201 with the new
    id, which is one more than the largest id used so far, and the Media
    row and one episode row per element of [episodes] are committed. *)
Theorem add_media_accepts_series now kv items d :
  0 <= seq_media d ->
  media_room d 1 ->
  episodes_room d (List.length items) ->
  dict_get "type" kv = Some (JStr "tvseries") ->
  media_storable (JObj kv) ->
  dict_get "episodes" kv = Some (JArr items) ->
  Forall episode_storable items ->
  exists d' mrow eps,
    add_media now (JObj kv) d = (Reply 201 (BCreated (m_id mrow)), d') /\
    m_id mrow = last_rowid (seq_media d) (map m_id (media d)) + 1 /\
    stores_media now (JObj kv) mrow /\
    media d' = media d ++ [mrow] /\
    tv_episodes d' = tv_episodes d ++ eps /\
    movie_links d' = movie_links d /\
    Forall2 (stores_episode (m_id mrow)) items eps.
Proof.
  intros Hseq Hroom Heroom Hty Hmedia Heps Hitems.
  assert (Ety : py_getitem (JObj kv) "type" = Ok (JStr "tvseries"))
    by (simpl; rewrite Hty; reflexivity).
  assert (Eeps : py_getitem (JObj kv) "episodes" = Ok (JArr items))
    by (simpl; rewrite Heps; reflexivity).
  destruct (series_children _ _ Ety Eeps) as (_ & _ & Hsup & Hnolinks).
  destruct (add_media_succeeds now (JObj kv) d)
    as (d' & mrow & links & eps & Hadd & Hc); try assumption.
  - destruct Hmedia as (title & _ & _ & _ & Et & _).
    apply py_getitem_obj in Et. destruct Et as (items' & Heq & Et).
    injection Heq as <-. eapply required_present; eassumption.
  - exists (JStr "tvseries"). split; [exact Ety | reflexivity].
  - apply (episode_children_succeed (JObj kv) items d); assumption.
  - destruct Hc as (Hm & Hl & He & _ & Hid & _ & Hst & Hfl & Hfe & _).
    rewrite Hnolinks in Hfl. apply Forall2_nil_left in Hfl. subst links.
    rewrite Hsup in Hfe. rewrite app_nil_r in Hl.
    exists d', mrow, eps. auto 10.
Qed.

End Coverage.

(** * The further properties on the sample requests *)

Module CoverageRuns.

Import Samples.

#[local] Existing Instance IntegerFragment.

(** The row of [movie_x] in [db_movie]. *)
Definition row_x : media_row :=
  {| m_id := 1; m_type := SText "movie"; m_title := SText "X";
     m_thumbnail_url := SNull; m_details := SNull; m_release_date := SNull;
     m_created_at := SText clock |}.

(** [movie_x] with an [id] and a [created_at] of the client's choosing. *)
Definition movie_x_forged : json :=
  JObj [ ("id", JInt 99); ("created_at", JStr "1999-01-01 00:00:00");
         ("type", JStr "movie"); ("title", JStr "X");
         ("video_links",
          JArr [ JObj [ ("resolution", JStr "720p");
                        ("video_link", JStr "http://a") ] ]) ].

(** A movie whose [video_links] is the link itself instead of a list. *)
Definition movie_bare_link : json :=
  JObj [ ("type", JStr "movie"); ("title", JStr "Y");
         ("video_links", JStr "http://a") ].

Definition movie_no_title : json :=
  JObj [ ("type", JStr "movie"); ("title", JNull) ].

(** A stand-in for the password check: the stored hash is the password
    behind a prefix. *)
Definition toy_check (pwhash password : string) : bool :=
  String.eqb pwhash ("plain:" ++ password)%string.

Lemma get_media_absent_witness :
  get_media 7 db_catalog = (Reply 404 (BError msg_not_found), db_catalog) /\
  get_media (2 ^ 63) db_catalog = (Unhandled OverflowError, db_catalog).
Proof.
  split.
  - apply (proj1 (get_media_absent 7 db_catalog)); [reflexivity |].
    simpl. intros [H | [H | []]]; discriminate.
  - apply (proj2 (get_media_absent (2 ^ 63) db_catalog)). reflexivity.
Defined.

Lemma get_media_one_collection_witness :
  exists key,
    get_media 1 db_movie
    = (Reply 200 (BMedia
         (flat_fields row_x ++
          [(key, FRows [[("resolution", SText "720p");
                         ("video_link", SText "http://a")]])])),
       db_movie) /\
    key = "video_links".
Proof.
  destruct (get_media_one_collection 1 db_movie row_x eq_refl eq_refl)
    as (key & entries & Hget & _ & _ & Hkey & Hentries & _).
  exists key. rewrite Hget, Hentries. split; [reflexivity | exact Hkey].
Defined.

Lemma add_media_missing_required_witness :
  add_media clock (JObj [("title", JStr "X")]) db_catalog
  = (Reply 400 (BError msg_missing_fields), db_catalog).
Proof.
  apply (add_media_missing_required clock [("title", JStr "X")] db_catalog).
  left. reflexivity.
Defined.

Lemma add_media_not_an_object_witness :
  snd (add_media clock (JArr [JStr "type"; JStr "title"]) db_catalog) = db_catalog /\
  (fst (add_media clock (JArr [JStr "type"; JStr "title"]) db_catalog)
   = Reply 400 (BError msg_missing_fields) \/
   fst (add_media clock (JArr [JStr "type"; JStr "title"]) db_catalog)
   = Unhandled TypeError).
Proof.
  apply (add_media_not_an_object clock (JArr [JStr "type"; JStr "title"]) db_catalog).
  intros kv. discriminate.
Defined.

Lemma add_media_reads_media_keys_witness :
  add_media clock movie_x empty_db = add_media clock movie_x_forged empty_db.
Proof.
  apply (add_media_reads_media_keys clock _ _ empty_db).
  intros k Hk. simpl in Hk.
  destruct Hk as [<- | [<- | [<- | [<- | [<- | [<- | [<- | []]]]]]]]; reflexivity.
Defined.

Lemma add_media_null_title_witness :
  add_media clock movie_no_title empty_db
  = (Reply 500 (BException (IntegrityError "NOT NULL constraint failed: media.title")),
     empty_db).
Proof.
  apply (add_media_null_title clock _ (JStr "movie") empty_db).
  - reflexivity.
  - reflexivity.
  - reflexivity.
  - intros k v Hk Hv. simpl in Hk.
    destruct Hk as [<- | [<- | [<- | []]]]; simpl in Hv; injection Hv as <-;
      reflexivity.
  - unfold media_room. simpl. unfold max_int64. lia.
Defined.

(** The lone surrogate U+D800, as the parser yields it for [\ud800]. *)
Definition lone_surrogate : string :=
  String (ascii_of_N 237) (String (ascii_of_N 160) (String (ascii_of_N 128) EmptyString)).

Definition movie_bad_title : json :=
  JObj [ ("type", JStr "movie"); ("title", JStr lone_surrogate) ].

Lemma add_media_unbindable_title_witness :
  add_media clock movie_bad_title db_catalog
  = (Reply 500 (BException UnicodeEncodeError), db_catalog) /\
  add_media clock (JObj [("type", JStr "movie"); ("title", JArr [])]) db_catalog
  = (Reply 500 (BException ProgrammingError), db_catalog).
Proof.
  split.
  - apply (proj1 (add_media_unbindable_title clock
                    [("type", JStr "movie"); ("title", JStr lone_surrogate)]
                    (JStr "movie") (JStr lone_surrogate) db_catalog
                    eq_refl eq_refl eq_refl)).
    exists lone_surrogate. split; reflexivity.
  - apply (proj2 (proj2 (add_media_unbindable_title clock
                           [("type", JStr "movie"); ("title", JArr [])]
                           (JStr "movie") (JArr []) db_catalog
                           eq_refl eq_refl eq_refl))).
    left. exists []. reflexivity.
Defined.

Lemma unencodable_child_refused_witness :
  exists e,
    add_episodes 2 (JArr [episode 1 3 "http://s1e3"; episode 1 4 lone_surrogate])
                 db_catalog
    = (Reply 500 (BException e), db_catalog).
Proof.
  apply (proj2 (proj2 (unencodable_child_refused clock 2 [] JNull
                         [episode 1 3 "http://s1e3"; episode 1 4 lone_surrogate]
                         (episode 1 4 lone_surrogate) lone_surrogate db_catalog
                         (or_intror (or_introl eq_refl)) eq_refl eq_refl))).
  - reflexivity.
  - eexists. split; reflexivity.
Defined.

Lemma add_media_unwalkable_children_witness :
  exists e, add_media clock movie_bare_link db_catalog
            = (Reply 500 (BException e), db_catalog).
Proof.
  apply (add_media_unwalkable_children clock _ (JStr "Y") "movie" "video_links"
           (JStr "http://a") db_catalog).
  - left. split; reflexivity.
  - reflexivity.
  - reflexivity.
  - reflexivity.
  - right. right. right. right. eexists. eexists. reflexivity.
Defined.

Lemma add_episodes_status_witness :
  (status_of (fst (add_episodes 1 (JArr []) db_catalog)) = 400
   <-> exists m, lookup_media db_catalog 1 = Some m /\
                 sv_is_text (m_type m) "tvseries" = false).
Proof.
  apply (proj1 (proj2 (add_episodes_status 1 [] db_catalog eq_refl))).
Defined.

Lemma add_episodes_is_local_witness :
  fst (get_media 1 (snd (add_episodes 2 (JArr [episode 3 1 "http://s3e1"]) db_catalog)))
  = fst (get_media 1 db_catalog).
Proof.
  apply (add_episodes_is_local 2 (JArr [episode 3 1 "http://s3e1"]) 1 db_catalog).
  discriminate.
Defined.

Lemma add_media_is_local_witness :
  fst (get_media 1 (snd (add_media clock series_dark db_movie)))
  = fst (get_media 1 db_movie).
Proof.
  apply (add_media_is_local clock series_dark 1 db_movie).
  assert (E : fst (add_media clock series_dark db_movie) = Reply 201 (BCreated 2))
    by reflexivity.
  rewrite E. discriminate.
Defined.

Lemma episodes_read_back_witness :
  exists m before entries,
    lookup_media (snd (add_episodes 2 (JArr [episode 1 3 "http://s1e3"]) db_catalog)) 2
    = Some m /\
    fst (get_media 2 db_catalog)
    = Reply 200 (BMedia (flat_fields m ++ [("episodes", FRows before)])) /\
    List.length entries = Nat.add (List.length before) 1 /\
    Permutation entries (before ++ map submitted_episode [episode 1 3 "http://s1e3"]) /\
    StronglySorted ascending entries.
Proof.
  destruct (episodes_read_back 2 [episode 1 3 "http://s1e3"] (BEpisodesAdded 1)
              db_catalog
              (snd (add_episodes 2 (JArr [episode 1 3 "http://s1e3"]) db_catalog))
              eq_refl)
    as (m & before & entries & rows & shown & Hm & Hbefore & _ & _ & Hperm & Hlen & _ &
        _ & Hsent & Hsorted).
  assert (Hint : Forall integer_numbers [episode 1 3 "http://s1e3"])
    by (repeat constructor; eexists; eexists; split; reflexivity).
  assert (Htext : Forall episode_text [episode 1 3 "http://s1e3"])
    by (repeat constructor; eexists; eexists;
        (split; [reflexivity | split; reflexivity])).
  assert (Hold : Forall int_keyed
                   (filter (fun e => e_series_id e =? 2) (tv_episodes db_catalog)))
    by (repeat constructor; eexists; eexists; split; reflexivity).
  exists m, before, entries.
  split; [exact Hm |]. split; [exact Hbefore |]. split; [exact Hlen |].
  split; [exact (Hsent Hint Htext) | exact (proj2 (Hsorted Hold Hint))].
Defined.

Lemma write_routes_guarded_witness :
  post_admin_media toy_check "plain:Venera" (Some ("admin", "Venera"))
                   clock movie_x empty_db
  = (Unauthorized, empty_db) /\
  post_admin_media toy_check "plain:Venera" (Some ("Venera", "Venera"))
                   clock movie_x empty_db
  = (Served (fst (add_media clock movie_x empty_db)),
     snd (add_media clock movie_x empty_db)).
Proof.
  split.
  - apply (proj1 (write_routes_guarded toy_check "plain:Venera"
                    (Some ("admin", "Venera")) clock movie_x 0 JNull empty_db)).
    right. exists "admin", "Venera". split; [reflexivity |]. left. discriminate.
  - apply (proj2 (write_routes_guarded toy_check "plain:Venera"
                    (Some ("Venera", "Venera")) clock movie_x 0 JNull empty_db)
                 "Venera" eq_refl eq_refl).
Defined.

Lemma listed_media_is_fetched_witness :
  exists m key rows,
    In m (media db_movie) /\
    media_fields row_x = media_fields m /\
    dict_get "id" (media_fields row_x) = Some (SInt (m_id m)) /\
    get_media (m_id m) db_movie
    = (Reply 200 (BMedia (flat_fields m ++ [(key, FRows rows)])), db_movie) /\
    ((m_type m = SText "movie" /\ key = "video_links") \/
     (m_type m = SText "tvseries" /\ key = "episodes")).
Proof.
  apply (listed_media_is_fetched [AddMedia clock movie_x] [media_fields row_x]
                                 (media_fields row_x)).
  - reflexivity.
  - left. reflexivity.
Defined.

Lemma add_episodes_accepts_witness :
  exists d' rows,
    add_episodes 2 (JArr [episode 1 1 "http://again"; episode 1 1 "http://again"])
                 db_catalog
    = (Reply 201 (BEpisodesAdded 2), d') /\
    tv_episodes d' = tv_episodes db_catalog ++ rows /\
    Forall2 (stores_episode 2)
            [episode 1 1 "http://again"; episode 1 1 "http://again"] rows /\
    media d' = media db_catalog /\ movie_links d' = movie_links db_catalog.
Proof.
  apply (add_episodes_accepts 2
           [episode 1 1 "http://again"; episode 1 1 "http://again"] db_catalog).
  - reflexivity.
  - eexists. split; reflexivity.
  - repeat constructor;
      exists (JInt 1), (JInt 1), JNull, (JStr "http://again");
      repeat split; reflexivity.
  - unfold episodes_room. simpl. unfold max_int64. lia.
Defined.

Lemma add_media_accepts_series_witness :
  exists d' mrow (eps : list episode_row),
    add_media clock series_dark db_movie = (Reply 201 (BCreated (m_id mrow)), d') /\
    m_id mrow = 2 /\
    List.length eps = 3%nat.
Proof.
  assert (Hitems : Forall episode_storable
                     [episode 2 1 "http://s2e1"; episode 1 2 "http://s1e2";
                      episode 1 1 "http://s1e1"]).
  { repeat constructor;
      eexists; eexists; exists JNull; eexists;
      repeat split; reflexivity. }
  assert (Hmedia : media_storable series_dark)
    by (exists (JStr "Dark"), JNull, JNull, JNull; repeat split; reflexivity).
  assert (Hroom : media_room db_movie 1)
    by (unfold media_room; simpl; unfold max_int64; lia).
  assert (Heroom : episodes_room db_movie 3)
    by (unfold episodes_room; simpl; unfold max_int64; lia).
  assert (Hseq : 0 <= seq_media db_movie) by (simpl; lia).
  destruct (add_media_accepts_series clock
              [ ("type", JStr "tvseries"); ("title", JStr "Dark");
                ("episodes",
                 JArr [ episode 2 1 "http://s2e1"; episode 1 2 "http://s1e2";
                        episode 1 1 "http://s1e1" ]) ]
              [ episode 2 1 "http://s2e1"; episode 1 2 "http://s1e2";
                episode 1 1 "http://s1e1" ]
              db_movie Hseq Hroom Heroom eq_refl Hmedia eq_refl Hitems)
    as (d' & mrow & eps & Hadd & Hid & _ & _ & _ & _ & Hall).
  exists d', mrow, eps. split; [exact Hadd |]. split; [exact Hid |].
  symmetry. apply (Forall2_length Hall).
Defined.

End CoverageRuns.
